(** * ZiGate host driver (zigate/core.py): a shallow embedding

    The development follows the layout of [core.py]:
    - [Codec]: [ZiGate.zigate_encode], [ZiGate.zigate_decode],
      [ZiGate.checksum] and the [struct] layouts the driver packs;
    - [Datetime]: the naive datetimes behind [last_seen] and the start of
      a firmware upload;
    - [Model]: Python values, insertion-ordered dictionaries, [Device]
      with [Device.need_refresh], the [ZiGate] object and the small
      exception monads its methods run in;
    - [Frames]: [send_data], [_wait_status], [_wait_response] and
      [decode_data];
    - [Requests]: [send_data] with a hexadecimal string for payload,
      [node_descriptor_request], [active_endpoint_request] and
      [refresh_device];
    - [Directory]: [_set_device], [_remove_device] and [_tag_missing];
    - [Ota]: [_ota_send_image_data], [_ota_handle_upgrade_end_request];
    - [Handlers]: [get_missing], [cleanup_devices], [_get_device],
      [erase_persistent] and the leave branch of [interpret_response];
    - [DeviceList]: the device list branch of [interpret_response];
    - [OtaImage]: [ota_load_image];
    - [Commands]: [__haddr] and [set_channel];
    - [CodecProperties], [DirectoryProperties], [FramesProperties] and
      [OtaProperties]: what is proved of them;
    - [CodecLaws], [FramesLaws], [DirectoryLaws], [OtaLaws] and
      [CommandLaws]: further properties of the same code.

    Bytes are integers [0 <= b < 256] held in [Z]; Python's unbounded [int]
    is [Z], [^] is [Z.lxor]. Time enters as an argument: a method that
    reads [datetime.datetime.now()] takes the reading, a polling loop takes
    the clock readings and the writes of the event loop it meets. *)

From Stdlib Require Import ZArith List Lia Bool String Ascii Permutation.
From stdpp Require Import base gmap strings list fin_maps.

Local Open Scope Z_scope.

(* ===================================================================== *)
(** ** Frame codec *)
(* ===================================================================== *)

Module Codec.

Definition bytes := list Z.

Definition is_byte (b : Z) : Prop := 0 <= b < 256.

Definition bytes_ok (x : bytes) : Prop := Forall is_byte x.

(** One round of the [for b in data] loop of [zigate_encode]:
    [encoded.extend([0x02, 0x10 ^ b])] or [encoded.append(b)]. *)
Definition encode_step (encoded : bytes) (b : Z) : bytes :=
  if b <? 0x10 then encoded ++ [0x02; Z.lxor 0x10 b] else encoded ++ [b].

Definition zigate_encode (data : bytes) : bytes :=
  fold_left encode_step data [].

(** One round of the loop of [zigate_decode]; the loop state is the pair
    [(flip, decoded)]. *)
Definition decode_step (st : bool * bytes) (b : Z) : bool * bytes :=
  let '(flip, decoded) := st in
  if flip then (false, decoded ++ [Z.lxor b 0x10])
  else if b =? 0x02 then (true, decoded)
  else (false, decoded ++ [b]).

Definition zigate_decode (data : bytes) : bytes :=
  snd (fold_left decode_step data (false, [])).

(** An argument of the variadic [checksum]: [isinstance(arg, int)] or an
    iterable of bytes. *)
Inductive arg : Type :=
  | AInt (z : Z)
  | ABytes (l : bytes).

(** The body of [for arg in args]: an int is XORed in whole, anything else
    is folded element by element. *)
Definition checksum_arg (chcksum : Z) (a : arg) : Z :=
  match a with
  | AInt z => Z.lxor chcksum z
  | ABytes l => fold_left Z.lxor l chcksum
  end.

Definition checksum (args : list arg) : Z :=
  fold_left checksum_arg args 0.

(** [struct.pack] with the big-endian formats the driver uses; [None] is
    [struct.error] (value out of range for the format). *)
Definition pack_B (v : Z) : option bytes :=
  if (0 <=? v) && (v <? 256) then Some [v] else None.

Definition be16 (v : Z) : bytes := [v / 256; v mod 256].

Definition be32 (v : Z) : bytes :=
  [v / 16777216; (v / 65536) mod 256; (v / 256) mod 256; v mod 256].

Definition pack_H (v : Z) : option bytes :=
  if (0 <=? v) && (v <? 65536) then Some (be16 v) else None.

Definition pack_L (v : Z) : option bytes :=
  if (0 <=? v) && (v <? 4294967296) then Some (be32 v) else None.

Definition unpack_H (hi lo : Z) : Z := hi * 256 + lo.

(** The frame delimiters [send_data] puts around the encoded message. *)
Definition wrap_frame (enc_msg : bytes) : bytes := 0x01 :: enc_msg ++ [0x03].

(** *** Equations of the two loops *)

Definition encode_byte (b : Z) : bytes :=
  if b <? 0x10 then [0x02; Z.lxor 0x10 b] else [b].

Lemma encode_step_app encoded b : encode_step encoded b = encoded ++ encode_byte b.
Proof. unfold encode_step, encode_byte. destruct (b <? 16); reflexivity. Qed.

Lemma encode_loop data : forall encoded,
  fold_left encode_step data encoded = encoded ++ flat_map encode_byte data.
Proof.
  induction data as [|b data IH]; intros encoded; simpl.
  - symmetry. apply app_nil_r.
  - rewrite IH, encode_step_app. symmetry. apply app_assoc.
Qed.

Lemma zigate_encode_flat data : zigate_encode data = flat_map encode_byte data.
Proof. unfold zigate_encode. apply encode_loop. Qed.

Lemma zigate_encode_cons b data :
  zigate_encode (b :: data) = encode_byte b ++ zigate_encode data.
Proof. rewrite !zigate_encode_flat. reflexivity. Qed.

Lemma xor_0x10_low b : 0 <= b < 16 -> Z.lxor 16 b = 16 + b.
Proof.
  intros Hb.
  assert (H : existsb (Z.eqb b) [0;1;2;3;4;5;6;7;8;9;10;11;12;13;14;15] = true).
  { apply existsb_exists. exists b. split; [|apply Z.eqb_refl].
    assert (Hc : b = 0 \/ b = 1 \/ b = 2 \/ b = 3 \/ b = 4 \/ b = 5 \/ b = 6
                 \/ b = 7 \/ b = 8 \/ b = 9 \/ b = 10 \/ b = 11 \/ b = 12
                 \/ b = 13 \/ b = 14 \/ b = 15) by lia.
    simpl. intuition. }
  simpl in H.
  repeat match type of H with
         | (b =? ?k) || _ = true =>
             destruct (Z.eqb_spec b k) as [->|_]; [reflexivity | simpl in H]
         end.
  discriminate.
Qed.

(** Decoding what one source byte was encoded to gives the byte back and
    leaves the loop outside an escape. *)
Lemma decode_encode_byte b decoded :
  fold_left decode_step (encode_byte b) (false, decoded) = (false, decoded ++ [b]).
Proof.
  unfold encode_byte. destruct (Z.ltb_spec b 16) as [Hlt|Hge]; cbn -[Z.lxor Z.eqb].
  - change (2 =? 2) with true. cbn -[Z.lxor].
    rewrite (Z.lxor_comm 16 b), Z.lxor_assoc, Z.lxor_nilpotent, Z.lxor_0_r.
    reflexivity.
  - destruct (Z.eqb_spec b 2) as [->|_]; [lia | reflexivity].
Qed.

Lemma decode_encode_loop data : forall decoded,
  fold_left decode_step (zigate_encode data) (false, decoded) = (false, decoded ++ data).
Proof.
  induction data as [|b data IH]; intros decoded.
  - simpl. rewrite app_nil_r. reflexivity.
  - rewrite zigate_encode_cons, fold_left_app, decode_encode_byte, IH.
    rewrite <- app_assoc. reflexivity.
Qed.

Lemma zigate_decode_encode_id data : zigate_decode (zigate_encode data) = data.
Proof. unfold zigate_decode. now rewrite decode_encode_loop. Qed.

Lemma checksum_arg_value chcksum a :
  checksum_arg chcksum a = Z.lxor chcksum (checksum_arg 0 a).
Proof.
  destruct a as [z|l]; simpl; [reflexivity|].
  revert chcksum. induction l as [|x l IH]; intros c; cbn -[Z.lxor].
  - symmetry. apply Z.lxor_0_r.
  - rewrite (IH (Z.lxor c x)), (IH (Z.lxor 0 x)), Z.lxor_0_l.
    apply Z.lxor_assoc.
Qed.

Lemma checksum_loop args : forall chcksum,
  fold_left checksum_arg args chcksum
  = Z.lxor chcksum (fold_right (fun a acc => Z.lxor (checksum_arg 0 a) acc) 0 args).
Proof.
  induction args as [|a args IH]; intros c; cbn [fold_left fold_right].
  - symmetry. apply Z.lxor_0_r.
  - rewrite IH, (checksum_arg_value c a). apply Z.lxor_assoc.
Qed.

Lemma checksum_loop_perm args args' :
  Permutation args args' ->
  forall chcksum, fold_left checksum_arg args chcksum = fold_left checksum_arg args' chcksum.
Proof.
  induction 1 as [|a l l' _ IH|a b l|l l' l'' _ IH1 _ IH2]; intros c;
    cbn [fold_left].
  - reflexivity.
  - apply IH.
  - f_equal.
    rewrite (checksum_arg_value (checksum_arg c b) a), (checksum_arg_value c b).
    rewrite (checksum_arg_value (checksum_arg c a) b), (checksum_arg_value c a).
    set (va := checksum_arg 0 a). set (vb := checksum_arg 0 b).
    rewrite !Z.lxor_assoc. f_equal. apply Z.lxor_comm.
  - rewrite IH1. apply IH2.
Qed.

End Codec.

(* ===================================================================== *)
(** ** Naive datetimes *)
(* ===================================================================== *)

(** [datetime.datetime] as the driver uses it: naive local time, read with
    [datetime.datetime.now()], moved back by [timedelta(hours=24)] and
    printed with [strftime('%Y-%m-%d %H:%M:%S')]. *)
Module Datetime.

Record datetime : Type := mkDatetime {
  year : Z;
  month : Z;
  day : Z;
  hour : Z;
  minute : Z;
  second : Z;
  microsecond : Z
}.

Definition is_leap (y : Z) : bool :=
  (y mod 4 =? 0) && (negb (y mod 100 =? 0) || (y mod 400 =? 0)).

Definition days_in_month (y m : Z) : Z :=
  if m =? 2 then (if is_leap y then 29 else 28)
  else if (m =? 4) || (m =? 6) || (m =? 9) || (m =? 11) then 30
  else 31.

(** The datetimes Python can hold ([MINYEAR = 1], [MAXYEAR = 9999]). *)
Definition valid (t : datetime) : Prop :=
  1 <= year t <= 9999 /\ 1 <= month t <= 12
  /\ 1 <= day t <= days_in_month (year t) (month t)
  /\ 0 <= hour t < 24 /\ 0 <= minute t < 60 /\ 0 <= second t < 60
  /\ 0 <= microsecond t < 1000000.

(** [t - datetime.timedelta(hours=24)]: one calendar day back, the time of
    day untouched; [None] is the [OverflowError] below year 1. *)
Definition minus_24h (t : datetime) : option datetime :=
  if 1 <? day t then
    Some (mkDatetime (year t) (month t) (day t - 1)
                     (hour t) (minute t) (second t) (microsecond t))
  else if 1 <? month t then
    Some (mkDatetime (year t) (month t - 1) (days_in_month (year t) (month t - 1))
                     (hour t) (minute t) (second t) (microsecond t))
  else if 1 <? year t then
    Some (mkDatetime (year t - 1) 12 31
                     (hour t) (minute t) (second t) (microsecond t))
  else None.

(** Decimal digits, most significant first, zero padded to [w] places. *)
Definition digit (n : Z) : ascii := ascii_of_N (Z.to_N (48 + n)).

Fixpoint zpad (w : nat) (n : Z) : string :=
  match w with
  | O => EmptyString
  | S w' => String (digit (n / 10 ^ Z.of_nat w')) (zpad w' (n mod 10 ^ Z.of_nat w'))
  end.

(** [t.strftime('%Y-%m-%d %H:%M:%S')], for the four-digit years. The
    microseconds are not printed. *)
Definition strftime (t : datetime) : string :=
  (zpad 4 (year t) +:+ "-" +:+ zpad 2 (month t) +:+ "-" +:+ zpad 2 (day t)
   +:+ " " +:+ zpad 2 (hour t) +:+ ":" +:+ zpad 2 (minute t)
   +:+ ":" +:+ zpad 2 (second t))%string.

(** Days from 0001-01-01 (day 1), as [datetime.toordinal]. *)
Definition days_before_year (y : Z) : Z :=
  let n := y - 1 in 365 * n + n / 4 - n / 100 + n / 400.

(** Days of year [y] before the first of month [m]
    ([_DAYS_BEFORE_MONTH], one more after February of a leap year). *)
Definition days_before_month (y m : Z) : Z :=
  match m with
  | 2 => 31 | 3 => 59 | 4 => 90 | 5 => 120 | 6 => 151 | 7 => 181
  | 8 => 212 | 9 => 243 | 10 => 273 | 11 => 304 | 12 => 334
  | _ => 0
  end
  + (if (2 <? m) && is_leap y then 1 else 0).

Definition toordinal (t : datetime) : Z :=
  days_before_year (year t) + days_before_month (year t) (month t) + day t.

(** Whole seconds since the start of 0001-01-01. *)
Definition seconds_of (t : datetime) : Z :=
  (((toordinal t - 1) * 24 + hour t) * 60 + minute t) * 60 + second t.

(** *** Order of the printed timestamps *)

(** Lexicographic combination of two comparisons. *)
Definition lex (c1 c2 : comparison) : comparison :=
  match c1 with Eq => c2 | _ => c1 end.

(** Comparison of two datetimes field by field, down to the second. *)
Definition compare_fields (a b : datetime) : comparison :=
  lex (year a ?= year b) (lex (month a ?= month b) (lex (day a ?= day b)
  (lex (hour a ?= hour b) (lex (minute a ?= minute b) (second a ?= second b))))).

Lemma digit_compare x y :
  0 <= x <= 9 -> 0 <= y <= 9 -> Ascii.compare (digit x) (digit y) = (x ?= y).
Proof.
  intros Hx Hy. unfold Ascii.compare, digit.
  rewrite !N_ascii_embedding by lia.
  rewrite Z2N.inj_compare by lia. apply Z.add_compare_mono_l.
Qed.

Lemma compare_div_mod a b p :
  0 < p -> (a ?= b) = lex (a / p ?= b / p) (a mod p ?= b mod p).
Proof.
  intros Hp. pose proof (Z.div_mod a p ltac:(lia)) as Ha.
  pose proof (Z.div_mod b p ltac:(lia)) as Hb.
  pose proof (Z.mod_pos_bound a p Hp) as Ha'.
  pose proof (Z.mod_pos_bound b p Hp) as Hb'.
  unfold lex.
  destruct (Z.compare_spec (a / p) (b / p)) as [He|Hl|Hg].
  - rewrite Ha, Hb, He at 1. apply Z.add_compare_mono_l.
  - apply Z.compare_lt_iff. nia.
  - apply Z.compare_gt_iff. nia.
Qed.

Lemma zpad_compare w : forall a b,
  0 <= a < 10 ^ Z.of_nat w -> 0 <= b < 10 ^ Z.of_nat w ->
  String.compare (zpad w a) (zpad w b) = (a ?= b).
Proof.
  induction w as [|w IH]; intros a b Ha Hb.
  - cbn in *. assert (a = 0) as -> by lia. assert (b = 0) as -> by lia. reflexivity.
  - cbn [zpad String.compare].
    assert (Hp : 0 < 10 ^ Z.of_nat w) by (apply Z.pow_pos_nonneg; lia).
    assert (Hs : 10 ^ Z.of_nat (S w) = 10 * 10 ^ Z.of_nat w)
      by (rewrite Nat2Z.inj_succ, Z.pow_succ_r; lia).
    rewrite Hs in Ha, Hb.
    assert (0 <= a / 10 ^ Z.of_nat w <= 9).
    { split; [apply Z.div_pos; lia|].
      apply Z.lt_succ_r, Z.div_lt_upper_bound; lia. }
    assert (0 <= b / 10 ^ Z.of_nat w <= 9).
    { split; [apply Z.div_pos; lia|].
      apply Z.lt_succ_r, Z.div_lt_upper_bound; lia. }
    rewrite digit_compare by assumption.
    rewrite (compare_div_mod a b _ Hp). unfold lex.
    rewrite IH by (apply Z.mod_pos_bound; exact Hp).
    destruct (a / 10 ^ Z.of_nat w ?= b / 10 ^ Z.of_nat w); reflexivity.
Qed.

Lemma zpad_length w : forall n, String.length (zpad w n) = w.
Proof. induction w as [|w IH]; intros n; cbn [zpad String.length]; congruence. Qed.

Lemma compare_append s1 : forall s2 t1 t2,
  String.length s1 = String.length s2 ->
  String.compare (s1 +:+ t1) (s2 +:+ t2)
  = lex (String.compare s1 s2) (String.compare t1 t2).
Proof.
  induction s1 as [|c1 s1 IH]; intros [|c2 s2] t1 t2 Hl; try discriminate.
  - reflexivity.
  - change (String c1 s1 +:+ t1)%string with (String c1 (s1 +:+ t1)).
    change (String c2 s2 +:+ t2)%string with (String c2 (s2 +:+ t2)).
    cbn [String.compare]. injection Hl as Hl.
    rewrite (IH _ _ _ Hl). unfold lex. destruct (Ascii.compare c1 c2); reflexivity.
Qed.

Lemma compare_separator c t1 t2 :
  String.compare (String c EmptyString +:+ t1) (String c EmptyString +:+ t2)
  = String.compare t1 t2.
Proof.
  change (String.compare (String c t1) (String c t2) = String.compare t1 t2).
  cbn [String.compare]. unfold Ascii.compare. now rewrite N.compare_refl.
Qed.

(** The printed form orders as the fields do. *)
Lemma strftime_compare a b :
  valid a -> valid b ->
  String.compare (strftime a) (strftime b) = compare_fields a b.
Proof.
  intros (Hy & Hm & Hd & Hh & Hmi & Hs & _) (Hy' & Hm' & Hd' & Hh' & Hmi' & Hs' & _).
  assert (Hdm : forall y m, days_in_month y m <= 31).
  { intros y m. unfold days_in_month.
    destruct (m =? 2); [destruct (is_leap y); lia|].
    destruct ((m =? 4) || (m =? 6) || (m =? 9) || (m =? 11)); lia. }
  pose proof (Hdm (year a) (month a)). pose proof (Hdm (year b) (month b)).
  unfold strftime, compare_fields.
  repeat (rewrite compare_append by (rewrite !zpad_length; reflexivity);
          rewrite zpad_compare by (cbn; lia);
          f_equal; rewrite compare_separator).
  apply zpad_compare; cbn; lia.
Qed.

(** *** The calendar *)

Ltac month_cases m :=
  let H := fresh in
  assert (H : m = 1 \/ m = 2 \/ m = 3 \/ m = 4 \/ m = 5 \/ m = 6 \/ m = 7
              \/ m = 8 \/ m = 9 \/ m = 10 \/ m = 11 \/ m = 12) by lia;
  repeat (destruct H as [H|H]); subst m.

Lemma days_before_year_succ y :
  days_before_year (y + 1)
  = days_before_year y + 365 + (if is_leap y then 1 else 0).
Proof.
  unfold days_before_year, is_leap.
  destruct (Z.eqb_spec (y mod 4) 0), (Z.eqb_spec (y mod 100) 0),
    (Z.eqb_spec (y mod 400) 0); cbn [negb andb orb];
    Z.div_mod_to_equations; lia.
Qed.

Lemma days_before_year_mono y y' :
  y <= y' -> days_before_year y <= days_before_year y'.
Proof.
  unfold days_before_year. intros Hle.
  assert (H4 : (y - 1) / 4 <= (y' - 1) / 4) by (apply Z.div_le_mono; lia).
  assert (H400 : (y - 1) / 400 <= (y' - 1) / 400) by (apply Z.div_le_mono; lia).
  assert (H100 : (y' - 1) / 100 - (y - 1) / 100 <= y' - y).
  { assert ((y - 1) / 100 <= (y' - 1) / 100) by (apply Z.div_le_mono; lia).
    pose proof (Z.div_mod (y - 1) 100 ltac:(lia)).
    pose proof (Z.div_mod (y' - 1) 100 ltac:(lia)).
    pose proof (Z.mod_pos_bound (y - 1) 100 ltac:(lia)).
    pose proof (Z.mod_pos_bound (y' - 1) 100 ltac:(lia)).
    nia. }
  lia.
Qed.

Lemma days_before_month_succ y m :
  1 <= m <= 11 ->
  days_before_month y (m + 1) = days_before_month y m + days_in_month y m.
Proof.
  intros Hm. month_cases m; try lia;
    unfold days_before_month, days_in_month; cbn -[is_leap]; destruct (is_leap y); reflexivity.
Qed.

Lemma days_before_month_mono y m m' :
  1 <= m -> m <= m' -> m' <= 12 -> days_before_month y m <= days_before_month y m'.
Proof.
  intros H1 H2 H3. month_cases m; try lia; month_cases m'; try lia;
    unfold days_before_month; cbn -[is_leap]; destruct (is_leap y); lia.
Qed.

Lemma days_before_month_year y m :
  1 <= m <= 12 ->
  0 <= days_before_month y m
  /\ days_before_month y m + days_in_month y m
     <= 365 + (if is_leap y then 1 else 0).
Proof.
  intros Hm. month_cases m; try lia;
    unfold days_before_month, days_in_month; cbn -[is_leap]; destruct (is_leap y); lia.
Qed.

Lemma toordinal_lt_year a b :
  valid a -> valid b -> year a < year b -> toordinal a < toordinal b.
Proof.
  intros (Hy & Hm & Hd & _) (Hy' & Hm' & Hd' & _) Hlt. unfold toordinal.
  pose proof (days_before_month_year (year a) (month a) Hm) as [_ Ha].
  pose proof (days_before_month_year (year b) (month b) Hm') as [Hb _].
  pose proof (days_before_year_succ (year a)) as Hs.
  pose proof (days_before_year_mono (year a + 1) (year b) ltac:(lia)).
  lia.
Qed.

Lemma toordinal_lt_month a b :
  valid a -> valid b -> year a = year b -> month a < month b ->
  toordinal a < toordinal b.
Proof.
  intros (Hy & Hm & Hd & _) (Hy' & Hm' & Hd' & _) Heq Hlt. unfold toordinal.
  rewrite <- Heq in *.
  pose proof (days_before_month_succ (year a) (month a) ltac:(lia)) as Hs.
  pose proof (days_before_month_mono (year a) (month a + 1) (month b)
                ltac:(lia) ltac:(lia) ltac:(lia)).
  lia.
Qed.

(** The whole seconds order as the fields do. *)
Lemma seconds_of_compare a b :
  valid a -> valid b -> (seconds_of a ?= seconds_of b) = compare_fields a b.
Proof.
  intros Va Vb.
  pose proof (toordinal_lt_year a b Va Vb) as Hy1.
  pose proof (toordinal_lt_year b a Vb Va) as Hy2.
  pose proof (toordinal_lt_month a b Va Vb) as Hm1.
  pose proof (toordinal_lt_month b a Vb Va) as Hm2.
  destruct Va as (_ & _ & _ & Hh & Hmi & Hs & _).
  destruct Vb as (_ & _ & _ & Hh' & Hmi' & Hs' & _).
  assert (Hd : year a = year b -> month a = month b ->
               toordinal a - toordinal b = day a - day b).
  { intros E1 E2. unfold toordinal. rewrite E1, E2. lia. }
  unfold compare_fields, lex, seconds_of.
  destruct (Z.compare_spec (year a) (year b));
    [destruct (Z.compare_spec (month a) (month b));
     [destruct (Z.compare_spec (day a) (day b));
      [destruct (Z.compare_spec (hour a) (hour b));
       [destruct (Z.compare_spec (minute a) (minute b));
        [destruct (Z.compare_spec (second a) (second b))|..]|..]|..]|..]|..];
    first [apply Z.compare_eq_iff | apply Z.compare_lt_iff | apply Z.compare_gt_iff];
    try specialize (Hd ltac:(assumption) ltac:(assumption));
    try specialize (Hy1 ltac:(assumption)); try specialize (Hy2 ltac:(assumption));
    try specialize (Hm1 ltac:(assumption) ltac:(assumption));
    try specialize (Hm2 ltac:(congruence) ltac:(assumption));
    lia.
Qed.

(** One day back is 86400 seconds back, and stays a valid datetime. *)
Lemma minus_24h_seconds now :
  valid now -> 1 < year now ->
  exists cutoff,
    minus_24h now = Some cutoff /\ valid cutoff
    /\ year now - 1 <= year cutoff
    /\ seconds_of cutoff = seconds_of now - 86400.
Proof.
  intros (Hy & Hm & Hd & Hh & Hmi & Hs & Hus) Hy1. unfold minus_24h.
  destruct (Z.ltb_spec 1 (day now)) as [Hday|Hday].
  - eexists. split; [reflexivity|]. unfold valid, seconds_of, toordinal. cbn.
    repeat split; lia.
  - assert (Hd1 : day now = 1) by lia.
    destruct (Z.ltb_spec 1 (month now)) as [Hmon|Hmon].
    + eexists. split; [reflexivity|].
      pose proof (days_before_month_succ (year now) (month now - 1) ltac:(lia)) as Hs'.
      replace (month now - 1 + 1) with (month now) in Hs' by lia.
      assert (1 <= days_in_month (year now) (month now - 1)).
      { unfold days_in_month. destruct (month now - 1 =? 2);
          [destruct (is_leap (year now)); lia|].
        destruct ((month now - 1 =? 4) || (month now - 1 =? 6)
                  || (month now - 1 =? 9) || (month now - 1 =? 11)); lia. }
      unfold valid, seconds_of, toordinal. cbn. repeat split; lia.
    + assert (Hm1 : month now = 1) by lia.
      destruct (Z.ltb_spec 1 (year now)) as [_|]; [|lia].
      eexists. split; [reflexivity|].
      pose proof (days_before_year_succ (year now - 1)) as Hs'.
      replace (year now - 1 + 1) with (year now) in Hs' by lia.
      unfold valid, seconds_of, toordinal. cbn.
      rewrite Hd1, Hm1.
      unfold days_before_month, days_in_month. cbn.
      destruct (is_leap (year now - 1)); repeat split; lia.
Qed.

End Datetime.

(* ===================================================================== *)
(** ** Python values, ordered dictionaries and the driver's objects *)
(* ===================================================================== *)

Module Model.

Export Codec.

(** The Python values that the [info] dictionaries and the attribute
    dictionaries hold in the paths modelled here. *)
Inductive pyval : Type :=
  | PNone
  | PInt (z : Z)
  | PStr (s : string).

Global Instance pyval_eq_dec : EqDecision pyval.
Proof. solve_decision. Defined.

(** Truth value of an object in [if x:] and [not x]. *)
Definition truthy (v : pyval) : bool :=
  match v with
  | PNone => false
  | PInt z => negb (z =? 0)
  | PStr s => negb (String.eqb s EmptyString)
  end.

(** [d.get(key)] on a dictionary with string keys: a missing key reads as
    [None]. *)
Definition dict_get (d : gmap string pyval) (key : string) : pyval :=
  default PNone (d !! key).

(** *** Insertion-ordered dictionaries

    A Python [dict] iterates in insertion order, and [get_device_from_ieee]
    answers with the first match of that iteration, so the directory is an
    association list in insertion order with at most one binding per key. *)
Section odict.
Context {K V : Type} `{EqDecision K}.

Definition odict : Type := list (K * V).

Fixpoint od_get (k : K) (d : odict) : option V :=
  match d with
  | [] => None
  | (k', v) :: d' => if decide (k = k') then Some v else od_get k d'
  end.

(** [d[k] = v]: an existing key keeps its place, a new key goes last. *)
Fixpoint od_set (k : K) (v : V) (d : odict) : odict :=
  match d with
  | [] => [(k, v)]
  | (k', v') :: d' =>
      if decide (k = k') then (k, v) :: d' else (k', v') :: od_set k v d'
  end.

(** [del d[k]] once the key is known to be present. *)
Fixpoint od_del (k : K) (d : odict) : odict :=
  match d with
  | [] => []
  | (k', v') :: d' => if decide (k = k') then d' else (k', v') :: od_del k d'
  end.

Definition od_keys (d : odict) : list K := map fst d.
Definition od_values (d : odict) : list V := map snd d.

(** [d.update(other)]. *)
Definition od_update (d other : odict) : odict :=
  fold_left (fun acc kv => od_set (fst kv) (snd kv) acc) other d.

Lemma od_get_set_eq k v d : od_get k (od_set k v d) = Some v.
Proof.
  induction d as [|[k' v'] d IH]; simpl.
  - destruct (decide (k = k)); congruence.
  - destruct (decide (k = k')) as [->|Hne]; simpl.
    + destruct (decide (k' = k')); congruence.
    + destruct (decide (k = k')); [congruence | exact IH].
Qed.

Lemma od_get_set_ne k k0 v d : k0 <> k -> od_get k0 (od_set k v d) = od_get k0 d.
Proof.
  intros Hne. induction d as [|[k' v'] d IH]; simpl.
  - destruct (decide (k0 = k)); congruence.
  - destruct (decide (k = k')) as [->|Hne']; simpl.
    + destruct (decide (k0 = k')); congruence.
    + destruct (decide (k0 = k')); [reflexivity | exact IH].
Qed.

Lemma od_get_None k d : od_get k d = None <-> ~ In k (od_keys d).
Proof.
  induction d as [|[k' v'] d IH]; simpl.
  - tauto.
  - destruct (decide (k = k')) as [->|Hne].
    + split; [discriminate | tauto].
    + rewrite IH. split; [intros Hn [Heq|Hin]; congruence | tauto].
Qed.

Lemma od_get_In k v d : od_get k d = Some v -> In (k, v) d.
Proof.
  induction d as [|[k' v'] d IH]; simpl; [discriminate|].
  destruct (decide (k = k')) as [->|Hne].
  - intros [= ->]. now left.
  - intros Hg. right. now apply IH.
Qed.

Lemma od_In_get k v d : List.NoDup (od_keys d) -> In (k, v) d -> od_get k d = Some v.
Proof.
  induction d as [|[k' v'] d IH]; simpl; [tauto|].
  intros Hnd [Heq|Hin].
  - injection Heq as -> ->. destruct (decide (k = k)); congruence.
  - apply List.NoDup_cons_iff in Hnd as [Hni Hnd].
    destruct (decide (k = k')) as [->|Hne].
    + exfalso. apply Hni. apply (in_map fst) in Hin. exact Hin.
    + now apply IH.
Qed.

Lemma od_keys_set k v d :
  od_keys (od_set k v d)
  = match od_get k d with Some _ => od_keys d | None => od_keys d ++ [k] end.
Proof.
  induction d as [|[k' v'] d IH]; simpl; [reflexivity|].
  destruct (decide (k = k')) as [->|Hne]; simpl; [reflexivity|].
  rewrite IH. destruct (od_get k d); reflexivity.
Qed.

Lemma od_set_NoDup k v d : List.NoDup (od_keys d) -> List.NoDup (od_keys (od_set k v d)).
Proof.
  intros Hnd. rewrite od_keys_set. destruct (od_get k d) eqn:Hg; [exact Hnd|].
  apply od_get_None in Hg. apply List.NoDup_app.
  - exact Hnd.
  - apply List.NoDup_cons; [intros [] | apply List.NoDup_nil].
  - intros x Hx [<-|[]]. contradiction.
Qed.

Lemma od_keys_del_incl k d x : In x (od_keys (od_del k d)) -> In x (od_keys d).
Proof.
  induction d as [|[k' v'] d IH]; simpl; [tauto|].
  destruct (decide (k = k')) as [->|Hne]; simpl; [tauto|].
  intros [Heq|Hin]; [now left | right; now apply IH].
Qed.

Lemma od_del_NoDup k d : List.NoDup (od_keys d) -> List.NoDup (od_keys (od_del k d)).
Proof.
  induction d as [|[k' v'] d IH]; simpl; [trivial|].
  intros Hnd. apply List.NoDup_cons_iff in Hnd as [Hni Hnd].
  destruct (decide (k = k')) as [->|Hne]; simpl; [exact Hnd|].
  apply List.NoDup_cons_iff. split; [|now apply IH].
  intros Hin. apply Hni. now apply od_keys_del_incl in Hin.
Qed.

Lemma od_get_del_eq k d : List.NoDup (od_keys d) -> od_get k (od_del k d) = None.
Proof.
  induction d as [|[k' v'] d IH]; simpl; [reflexivity|].
  intros Hnd. apply List.NoDup_cons_iff in Hnd as [Hni Hnd].
  destruct (decide (k = k')) as [->|Hne]; simpl.
  - now apply od_get_None.
  - destruct (decide (k = k')); [congruence | now apply IH].
Qed.

Lemma od_get_del_ne k k0 d : k0 <> k -> od_get k0 (od_del k d) = od_get k0 d.
Proof.
  intros Hne. induction d as [|[k' v'] d IH]; simpl; [reflexivity|].
  destruct (decide (k = k')) as [->|Hne']; simpl.
  - destruct (decide (k0 = k')); congruence.
  - destruct (decide (k0 = k')); [reflexivity | exact IH].
Qed.

Lemma od_length_set_new k v d :
  od_get k d = None -> length (od_set k v d) = S (length d).
Proof.
  induction d as [|[k' v'] d IH]; simpl; [reflexivity|].
  destruct (decide (k = k')) as [->|Hne]; simpl; [discriminate|].
  intros Hg. now rewrite IH.
Qed.

Lemma od_length_del k d :
  od_get k d <> None -> S (length (od_del k d)) = length d.
Proof.
  induction d as [|[k' v'] d IH]; simpl; [congruence|].
  destruct (decide (k = k')) as [->|Hne]; simpl; [reflexivity|].
  intros Hg. now rewrite IH.
Qed.

Lemma od_length_set_old k v d :
  od_get k d <> None -> length (od_set k v d) = length d.
Proof.
  induction d as [|[k' v'] d IH]; simpl; [congruence|].
  destruct (decide (k = k')) as [->|Hne]; simpl; [reflexivity|].
  intros Hg. now rewrite IH.
Qed.

Lemma od_update_nil d : od_update d [] = d.
Proof. reflexivity. Qed.

Lemma od_get_update_None k d other :
  od_get k other = None -> od_get k (od_update d other) = od_get k d.
Proof.
  unfold od_update. revert d.
  induction other as [|[k' v'] other IH]; intros d; simpl; [reflexivity|].
  destruct (decide (k = k')) as [->|Hne]; [discriminate|].
  intros Hg. rewrite (IH _ Hg). now apply od_get_set_ne.
Qed.

End odict.

Arguments odict : clear implicits.

(** *** Devices *)

(** One attribute dictionary of a cluster ([name], [value], ...). *)
Definition Attribute : Type := gmap string pyval.

(** What [core.py] reads of a [Cluster]: its [attributes] dictionary. *)
Record Cluster : Type := mkCluster {
  attributes : odict Z Attribute
}.

(** An endpoint dictionary, as [Device.get_endpoint] creates it. A field
    that is [PNone] / [None] stands for a key that is missing or bound to
    Python's [None]: [endpoint.get(key) is None] holds in both cases. *)
Record Endpoint : Type := mkEndpoint {
  clusters : odict Z Cluster;
  profile : pyval;
  device : pyval;
  in_clusters : option (list Z);
  out_clusters : option (list Z)
}.

Record Device : Type := mkDevice {
  info : gmap string pyval;
  endpoints : odict Z Endpoint;
  missing : bool
}.

(** [Device.__init__(info)]. *)
Definition new_Device (i : gmap string pyval) : Device :=
  {| info := i; endpoints := []; missing := false |}.

(** The property [Device.addr] is [self.info['addr']]: [None] here is the
    [KeyError] of a missing key. *)
Definition Device_addr (d : Device) : option pyval := info d !! "addr"%string.

(** The property [Device.ieee] is [self.info.get('ieee')]. *)
Definition Device_ieee (d : Device) : pyval := dict_get (info d) "ieee".

(** The property [Device.last_seen]. *)
Definition Device_last_seen (d : Device) : pyval := dict_get (info d) "last_seen".

(** [Device.update(device)]: [info.update] and [endpoints.update]; the keys
    of [other] win. *)
Definition Device_update (self other : Device) : Device :=
  {| info := info other ∪ info self;
     endpoints := od_update (endpoints self) (endpoints other);
     missing := missing self |}.

Definition set_missing (d : Device) (b : bool) : Device :=
  {| info := info d; endpoints := endpoints d; missing := b |}.

(** [Device.get_endpoint(endpoint_id)]: the endpoint is created on first
    reference. *)
Definition default_endpoint : Endpoint :=
  {| clusters := []; profile := PInt 0; device := PInt 0;
     in_clusters := Some []; out_clusters := Some [] |}.

Definition get_endpoint (d : Device) (endpoint_id : Z) : Endpoint * Device :=
  match od_get endpoint_id (endpoints d) with
  | Some ep => (ep, d)
  | None =>
      (default_endpoint,
       {| info := info d;
          endpoints := od_set endpoint_id default_endpoint (endpoints d);
          missing := missing d |})
  end.

(** The attribute dictionaries in the iteration order of the three nested
    loops of [get_property]. *)
Definition all_attributes (d : Device) : list Attribute :=
  flat_map (fun ep => flat_map (fun c => od_values (attributes c))
                               (od_values (clusters ep)))
           (od_values (endpoints d)).

(** [Device.get_property(name)]: the first attribute with
    [attribute.get('name') == name]. *)
Definition get_property (d : Device) (name : pyval) : option Attribute :=
  List.find (fun a => bool_decide (dict_get a "name" = name)) (all_attributes d).

(** [Device.get_property_value(name, default)]; [if prop:] fails on an
    empty dictionary. *)
Definition get_property_value (d : Device) (name : pyval) (dflt : pyval) : pyval :=
  match get_property d name with
  | Some prop =>
      if bool_decide (prop = ∅) then dflt else default dflt (prop !! "value"%string)
  | None => dflt
  end.

(** [Device.__str__], as far as it can fail: the text is built from the
    type, the manufacturer, [self.addr] and [self.ieee], and [self.addr]
    raises [KeyError] when [info] has no address. *)
Definition Device_str (d : Device) : option unit :=
  _ ← Device_addr d; Some tt.

(** [Device.need_refresh]: the device is formatted for the log line first,
    then the flag [need] is threaded through the four tests and the loop
    over [self.endpoints.values()]. [None] is the [KeyError] of formatting
    a device without address. *)
Definition need_refresh_endpoint (need : bool) (endpoint : Endpoint) : bool :=
  let need := if bool_decide (device endpoint = PNone) then true else need in
  let need := if bool_decide (in_clusters endpoint = None) then true else need in
  need.

Definition need_refresh (d : Device) : option bool :=
  let need := false in
  _ ← Device_str d;
  let need := if negb (truthy (get_property_value d (PStr "type") PNone))
              then true else need in
  let need := if negb (truthy (Device_ieee d)) then true else need in
  let need := if bool_decide (endpoints d = []) then true else need in
  Some (fold_left need_refresh_endpoint (od_values (endpoints d)) need).

(** *** The [ZiGate] object *)

(** What [core.py] reads of a response object: [response.msg] and the
    decoded fields [response[key]]. *)
Record Response : Type := mkResponse {
  msg : Z;
  data : gmap string pyval
}.

(** The entries of the header dictionary of [ota_load_image] that the
    transfer reads. *)
Record ImageHeader : Type := mkImageHeader {
  manufacturer_code : Z;
  image_type : Z;
  image_version : Z;
  size : Z
}.

(** The dictionary [self._ota]; [starttime] is [False] ([None] here) or the
    [datetime] the transfer started at. *)
Record OtaSession : Type := mkOta {
  image_header : option ImageHeader;
  image_data : option bytes;
  active : bool;
  starttime : option Datetime.datetime;
  transfered : Z;
  ota_addr : pyval
}.

(** [self.connection], through [is_connected()] and [send(data)]; [sent]
    lists the frames handed to [send], oldest first. *)
Record Transport : Type := mkTransport {
  is_connected : bool;
  sent : list bytes
}.

(** The signals of [dispatch_signal] with their named arguments. *)
Inductive signal : Type :=
  | ZIGATE_DEVICE_ADDED (device : Device)
  | ZIGATE_DEVICE_UPDATED (device : Device)
  | ZIGATE_DEVICE_REMOVED (addr : pyval) (device : Device)
  | ZIGATE_DEVICE_RENAMED (old_addr new_addr : pyval)
  | ZIGATE_RESPONSE_RECEIVED (response : Response).

(** What a method does to the world outside the object, besides the
    frames it hands to the transport: a dispatched signal. *)
Inductive effect : Type :=
  | Dispatched (s : signal).

(** The fields of [self] that the modelled paths touch, and the [trace] of
    effects, oldest first. [_last_status] binds a command to [None] (as
    [send_data] leaves it) or to a status. *)
Record ZiGate : Type := mkZiGate {
  _devices : odict pyval Device;
  _last_response : gmap Z Response;
  _last_status : gmap Z (option Z);
  _no_response_count : Z;
  _ota : OtaSession;
  connection : Transport;
  trace : list effect
}.

Definition with_devices (z : ZiGate) (d : odict pyval Device) : ZiGate :=
  mkZiGate d (_last_response z) (_last_status z) (_no_response_count z)
           (_ota z) (connection z) (trace z).

Definition with_last_response (z : ZiGate) (r : gmap Z Response) : ZiGate :=
  mkZiGate (_devices z) r (_last_status z) (_no_response_count z)
           (_ota z) (connection z) (trace z).

Definition with_last_status (z : ZiGate) (s : gmap Z (option Z)) : ZiGate :=
  mkZiGate (_devices z) (_last_response z) s (_no_response_count z)
           (_ota z) (connection z) (trace z).

Definition with_no_response_count (z : ZiGate) (n : Z) : ZiGate :=
  mkZiGate (_devices z) (_last_response z) (_last_status z) n
           (_ota z) (connection z) (trace z).

Definition with_ota (z : ZiGate) (o : OtaSession) : ZiGate :=
  mkZiGate (_devices z) (_last_response z) (_last_status z)
           (_no_response_count z) o (connection z) (trace z).

Definition with_connection (z : ZiGate) (c : Transport) : ZiGate :=
  mkZiGate (_devices z) (_last_response z) (_last_status z)
           (_no_response_count z) (_ota z) c (trace z).

Definition with_trace (z : ZiGate) (t : list effect) : ZiGate :=
  mkZiGate (_devices z) (_last_response z) (_last_status z)
           (_no_response_count z) (_ota z) (connection z) t.

(** *** Methods: state and exceptions *)

Inductive exn : Type :=
  | KeyError
  | TypeError
  | ValueError
  | ZeroDivisionError
  | struct_error
  | OverflowError
  | AssertionError
  | Not_connected.

(** A method either returns a value or raises; the object keeps what was
    written to it before the exception. *)
Inductive result (A : Type) : Type :=
  | Ok (a : A) (z : ZiGate)
  | Raise (e : exn) (z : ZiGate).

Arguments Ok {A} a z.
Arguments Raise {A} e z.

Definition M (A : Type) : Type := ZiGate -> result A.

Definition ret {A} (a : A) : M A := fun z => Ok a z.

Definition bind {A B} (m : M A) (k : A -> M B) : M B :=
  fun z => match m z with
           | Ok a z' => k a z'
           | Raise e z' => Raise e z'
           end.

Definition raise {A} (e : exn) : M A := fun z => Raise e z.

Definition get : M ZiGate := fun z => Ok z z.

Definition modify (f : ZiGate -> ZiGate) : M unit := fun z => Ok tt (f z).

(** [try: m except Exception: h]. *)
Definition try_except {A} (m : M A) (h : M A) : M A :=
  fun z => match m z with
           | Ok a z' => Ok a z'
           | Raise _ z' => h z'
           end.

(** A value that may be an exception, lifted into a method. *)
Definition lift {A} (e : exn) (o : option A) : M A :=
  match o with Some a => ret a | None => raise e end.

Global Instance M_ret : MRet M := @ret.
Global Instance M_bind : MBind M := fun A B k m => bind m k.

(** The object as a call leaves it, returned or raised. *)
Definition state_of {A} (r : result A) : ZiGate :=
  match r with Ok _ z => z | Raise _ z => z end.

(** [dispatch_signal]: the signal reaches the subscribers; their
    exceptions are caught and logged. *)
Definition dispatch_signal (s : signal) : M unit :=
  modify (fun z => with_trace z (trace z ++ [Dispatched s])).

(** A method that waits in a polling loop runs for a bounded number of
    rounds: [None] means the rounds ran out before it returned or raised. *)
Definition W (A : Type) : Type := ZiGate -> option (result A).

(** A method that does not wait, called from one that does. *)
Definition W_of {A} (m : M A) : W A := fun z => Some (m z).

Definition bindW {A B} (m : W A) (k : A -> W B) : W B :=
  fun z => match m z with
           | None => None
           | Some (Ok a z') => k a z'
           | Some (Raise e z') => Some (Raise e z')
           end.

Global Instance W_ret : MRet W := fun A a z => Some (Ok a z).
Global Instance W_bind : MBind W := fun A B k m => bindW m k.

(** The object as a call that waits leaves it; the object it started from
    when the rounds ran out. *)
Definition state_after {A} (z : ZiGate) (o : option (result A)) : ZiGate :=
  match o with Some r => state_of r | None => z end.

(** The state in which [__init__] leaves the object, before any frame. *)
Definition _ota_reset_value : OtaSession :=
  {| image_header := None; image_data := None; active := false;
     starttime := None; transfered := 0; ota_addr := PNone |}.

Definition init_ZiGate : ZiGate :=
  {| _devices := []; _last_response := ∅; _last_status := ∅;
     _no_response_count := 0; _ota := _ota_reset_value;
     connection := {| is_connected := true; sent := [] |}; trace := [] |}.

End Model.

(* ===================================================================== *)
(** ** Sending commands and reading frames *)
(* ===================================================================== *)

Module Frames.

Export Model.

Definition len (b : bytes) : Z := Z.of_nat (List.length b).

(** [self.send_to_transport(data)]. *)
Definition send_to_transport (data : bytes) : M unit :=
  z ← get;
  if is_connected (connection z)
  then modify (fun z => with_connection z
                 {| is_connected := is_connected (connection z);
                    sent := sent (connection z) ++ [data] |})
  else raise Not_connected.

(** [self._last_status.get(cmd)]. *)
Definition last_status_get (z : ZiGate) (cmd : Z) : option Z :=
  mjoin (_last_status z !! cmd).

(** [self._clear_response(msg_type)]. *)
Definition _clear_response (msg_type : Z) : M unit :=
  modify (fun z => with_last_response z (delete msg_type (_last_response z))).

(** *** The polling loops and their environment

    While a caller sleeps in [_wait_status] or [_wait_response] the event
    loop thread goes on reading frames. One [tick] is what the caller finds
    after one [sleep(0.01)]: the statuses and responses that
    [interpret_response] and [decode_data] stored meanwhile, in order, and
    the reading of [time()] that follows. A [world] gives the reading taken
    on entry ([t1 = time()]) and the ticks of the loop's rounds, as counts
    of a clock of [per_second] units per second. *)
Record tick : Type := mkTick {
  statuses : list (Z * Z);
  responses : list (Z * Response);
  clock : Z
}.

Record world : Type := mkWorld {
  per_second : Z;
  time0 : Z;
  ticks : nat -> tick
}.

(** The event loop's writes of one tick:
    [self._last_status[packet_type] = status] and
    [self._last_response[msg_type] = response]. *)
Definition deliver (t : tick) (z : ZiGate) : ZiGate :=
  let z := with_last_status z
             (fold_left (fun m ks => <[fst ks := Some (snd ks)]> m)
                        (statuses t) (_last_status z)) in
  with_last_response z
    (fold_left (fun m kr => <[fst kr := snd kr]> m)
               (responses t) (_last_response z)).

(** The [while] loop of [_wait_status], entered for the [k]-th time; [fuel]
    bounds the rounds and [None] means it ran out. *)
Fixpoint _wait_status_loop (fuel : nat) (w : world) (cmd t1 : Z) (k : nat)
  (z : ZiGate) : option (result (option Z)) :=
  match fuel with
  | O => None
  | S fuel' =>
      match last_status_get z cmd with
      | Some status => Some (Ok (Some status) (with_no_response_count z 0))
      | None =>
          let z := deliver (ticks w k) z in
          let t2 := clock (ticks w k) in
          if 3 * per_second w <? t2 - t1
          then Some (Ok None (with_no_response_count z (_no_response_count z + 1)))
          else _wait_status_loop fuel' w cmd t1 (S k) z
      end
  end.

Definition _wait_status (fuel : nat) (w : world) (cmd : Z) (z : ZiGate)
  : option (result (option Z)) :=
  _wait_status_loop fuel w cmd (time0 w) 0 z.

(** The loop of [_wait_response]. *)
Fixpoint _wait_response_loop (fuel : nat) (w : world) (msg_type t1 : Z) (k : nat)
  (z : ZiGate) : option (result (option Response)) :=
  match fuel with
  | O => None
  | S fuel' =>
      match _last_response z !! msg_type with
      | Some r => Some (Ok (Some r) z)
      | None =>
          let z := deliver (ticks w k) z in
          let t2 := clock (ticks w k) in
          if 3 * per_second w <? t2 - t1
          then Some (Ok None z)
          else _wait_response_loop fuel' w msg_type t1 (S k) z
      end
  end.

Definition _wait_response (fuel : nat) (w : world) (msg_type : Z) (z : ZiGate)
  : option (result (option Response)) :=
  _wait_response_loop fuel w msg_type (time0 w) 0 z.

(** [struct.pack('!HHB%ds' % length, cmd, length, checksum, byte_data)]. *)
Definition pack_msg (cmd length checksum : Z) (byte_data : bytes) : option bytes :=
  c ← pack_H cmd; l ← pack_H length; k ← pack_B checksum;
  Some (c ++ l ++ k ++ byte_data).

(** What [send_data] returns: a status, a response, or [False]. *)
Inductive sent_result : Type :=
  | Status (s : option Z)
  | Answer (r : option Response)
  | Not_waited.

(** The part of [send_data] up to [send_to_transport], for an [int]
    command and a [bytes] payload, the way the callers in [core.py] pass
    them (the default [data=""] is the empty payload). *)
Definition send_frame (cmd : Z) (byte_data : bytes) (wait_response : option Z)
  : M unit :=
  modify (fun z => with_last_status z (<[cmd := None]> (_last_status z)));;
  match wait_response with
  | Some msg_type => if msg_type =? 0 then mret tt else _clear_response msg_type
  | None => mret tt
  end;;
  byte_cmd ← lift struct_error (pack_H cmd);
  let length := len byte_data in
  byte_length ← lift struct_error (pack_H length);
  let checksum := checksum [ABytes byte_cmd; ABytes byte_length; ABytes byte_data] in
  msg ← lift struct_error (pack_msg cmd length checksum byte_data);
  let enc_msg := zigate_encode msg in
  let encoded_output := wrap_frame enc_msg in
  send_to_transport encoded_output.

(** [send_data(cmd, data, wait_response, wait_status)]; [w_status] and
    [w_response] are what the two waits meet. *)
Definition send_data (fuel : nat) (w_status w_response : world) (cmd : Z)
  (byte_data : bytes) (wait_response : option Z) (wait_status : bool)
  (z : ZiGate) : option (result sent_result) :=
  match send_frame cmd byte_data wait_response z with
  | Raise e z' => Some (Raise e z')
  | Ok _ z' =>
      if wait_status then
        match _wait_status fuel w_status cmd z' with
        | None => None
        | Some (Raise e z'') => Some (Raise e z'')
        | Some (Ok status z'') =>
            match wait_response, status with
            | Some msg_type, Some _ =>
                if msg_type =? 0 then Some (Ok (Status status) z'')
                else
                  match _wait_response fuel w_response msg_type z'' with
                  | None => None
                  | Some (Raise e z3) => Some (Raise e z3)
                  | Some (Ok r z3) => Some (Ok (Answer r) z3)
                  end
            | _, _ => Some (Ok (Status status) z'')
            end
        end
      else Some (Ok Not_waited z')
  end.

(** [send_data(cmd, data, wait_status=False)]: no wait, so no clock. *)
Definition send_data_no_wait (cmd : Z) (byte_data : bytes) : M sent_result :=
  send_frame cmd byte_data None;; mret Not_waited.

(** *** Inbound frames *)

(** [packet[1:-1]]. *)
Definition strip_delimiters (packet : bytes) : bytes := removelast (tl packet).

(** [struct.unpack('!HHB%dsB' % (len(decoded) - 6), decoded)]: message
    type, length, checksum, value and rssi; [None] is the [struct.error] of
    a frame shorter than six bytes. *)
Definition unpack_frame (decoded : bytes) : option (Z * Z * Z * bytes * Z) :=
  match decoded with
  | m1 :: m0 :: l1 :: l0 :: c :: v :: rest =>
      Some (unpack_H m1 m0, unpack_H l1 l0, c,
            removelast (v :: rest), List.last (v :: rest) 0)
  | _ => None
  end.

Section decode.

(** The two collaborators of [decode_data]: the decoders of [responses.py],
    [RESPONSES.get(msg_type, Response)(value, rssi)] ([None] when the
    constructor raises), and the subscribers of [ZIGATE_RESPONSE_RECEIVED],
    [interpret_response] among them. *)
Variable RESPONSES : Z -> bytes -> Z -> option Response.
Variable interpret_response : Response -> M unit.

Definition decode_data (packet : bytes) : M unit :=
  let decoded := zigate_decode (strip_delimiters packet) in
  match unpack_frame decoded with
  | None => mret tt
  | Some (msg_type, length, checksum, value, rssi) =>
      if negb (length =? len value + 1) then mret tt
      else
        let computed_checksum :=
          Codec.checksum [ABytes (firstn 4 decoded); AInt rssi; ABytes value] in
        if negb (checksum =? computed_checksum) then mret tt
        else
          match RESPONSES msg_type value rssi with
          | None => mret tt
          | Some response =>
              modify (fun z => with_last_response z
                                 (<[msg_type := response]> (_last_response z)));;
              dispatch_signal (ZIGATE_RESPONSE_RECEIVED response);;
              try_except (interpret_response response) (mret tt)
          end
  end.

End decode.

(** *** Facts about frames *)

Ltac run_method :=
  unfold mbind, M_bind, mret, M_ret, bind, ret, lift, raise, get, modify,
         dispatch_signal; cbn beta iota.

(** XOR of all the bytes of a sequence. *)
Definition xor_fold (l : bytes) : Z := fold_left Z.lxor l 0.

(** The bytes of a decoded frame other than its checksum byte, the fifth. *)
Definition other_bytes (decoded : bytes) : bytes :=
  firstn 4 decoded ++ skipn 5 decoded.

Lemma lxor_is_byte a b : is_byte a -> is_byte b -> is_byte (Z.lxor a b).
Proof.
  unfold is_byte. intros [Ha Ha'] [Hb Hb'].
  assert (Hn : 0 <= Z.lxor a b) by (apply Z.lxor_nonneg; tauto).
  split; [exact Hn|].
  destruct (Z.eq_dec (Z.lxor a b) 0) as [->|Hz]; [lia|].
  apply (Z.log2_lt_pow2 _ 8); [lia|].
  pose proof (Z.log2_lxor a b Ha Hb) as Hl.
  assert (Z.log2 a < 8).
  { destruct (Z.eq_dec a 0) as [->|]; [cbn; lia|]. apply Z.log2_lt_pow2; lia. }
  assert (Z.log2 b < 8).
  { destruct (Z.eq_dec b 0) as [->|]; [cbn; lia|]. apply Z.log2_lt_pow2; lia. }
  lia.
Qed.

Lemma xor_loop_is_byte l : forall acc,
  bytes_ok l -> is_byte acc -> is_byte (fold_left Z.lxor l acc).
Proof.
  induction l as [|x l IH]; intros acc Hl Hacc; cbn [fold_left]; [exact Hacc|].
  apply Forall_cons in Hl as [Hx Hl]. apply IH; [exact Hl|].
  now apply lxor_is_byte.
Qed.

Lemma pack_H_ok v : 0 <= v < 65536 -> pack_H v = Some (be16 v).
Proof.
  intros Hv. unfold pack_H.
  destruct (Z.leb_spec 0 v), (Z.ltb_spec v 65536); try lia. reflexivity.
Qed.

Lemma pack_B_ok v : is_byte v -> pack_B v = Some [v].
Proof.
  unfold is_byte. intros Hv. unfold pack_B.
  destruct (Z.leb_spec 0 v), (Z.ltb_spec v 256); try lia. reflexivity.
Qed.

Lemma pack_L_ok v : 0 <= v < 4294967296 -> pack_L v = Some (be32 v).
Proof.
  intros Hv. unfold pack_L.
  destruct (Z.leb_spec 0 v), (Z.ltb_spec v 4294967296); try lia. reflexivity.
Qed.

Lemma be16_bytes v : 0 <= v < 65536 -> bytes_ok (be16 v).
Proof.
  intros Hv. repeat constructor; unfold is_byte; Z.div_mod_to_equations; lia.
Qed.

Lemma be32_bytes v : 0 <= v < 4294967296 -> bytes_ok (be32 v).
Proof.
  intros Hv. repeat constructor; unfold is_byte; Z.div_mod_to_equations; lia.
Qed.

(** The message that [send_data] builds for a command in range. *)
Definition message (cmd : Z) (byte_data : bytes) : bytes :=
  be16 cmd ++ be16 (len byte_data)
  ++ [checksum [ABytes (be16 cmd); ABytes (be16 (len byte_data)); ABytes byte_data]]
  ++ byte_data.

(** The object once the frame is on the wire. *)
Definition frame_sent (cmd : Z) (byte_data : bytes) (wait_response : option Z)
  (z : ZiGate) : ZiGate :=
  let z := with_last_status z (<[cmd := None]> (_last_status z)) in
  let z := match wait_response with
           | Some msg_type =>
               if msg_type =? 0 then z
               else with_last_response z (delete msg_type (_last_response z))
           | None => z
           end in
  with_connection z
    {| is_connected := is_connected (connection z);
       sent := sent (connection z)
               ++ [wrap_frame (zigate_encode (message cmd byte_data))] |}.

Lemma send_frame_run cmd byte_data wait_response z :
  is_connected (connection z) = true ->
  0 <= cmd < 65536 -> bytes_ok byte_data -> len byte_data < 65536 ->
  send_frame cmd byte_data wait_response z
  = Ok tt (frame_sent cmd byte_data wait_response z).
Proof.
  intros Hc Hcmd Hb Hl.
  assert (Hlen : 0 <= len byte_data < 65536) by (unfold len in *; lia).
  assert (Hk : is_byte (checksum [ABytes (be16 cmd); ABytes (be16 (len byte_data));
                                   ABytes byte_data])).
  { unfold checksum. cbn [fold_left checksum_arg].
    apply xor_loop_is_byte; [exact Hb|].
    apply xor_loop_is_byte; [exact (be16_bytes _ Hlen)|].
    apply xor_loop_is_byte; [exact (be16_bytes _ Hcmd)|]. unfold is_byte; lia. }
  unfold send_frame, frame_sent, _clear_response, send_to_transport, pack_msg.
  destruct z as [devs lr ls n ota [c snt] tr]. cbn [connection is_connected] in Hc.
  subst c. run_method.
  rewrite (pack_H_ok _ Hcmd), (pack_H_ok _ Hlen). cbn [option_bind]. run_method.
  destruct wait_response as [msg_type|]; [destruct (msg_type =? 0)|];
    cbn beta iota; rewrite (pack_B_ok _ Hk); cbn [option_bind]; run_method;
    reflexivity.
Qed.

(** The checksum that [decode_data] computes is the XOR of every byte of
    the decoded frame but the checksum byte. *)
Lemma computed_checksum_other_bytes decoded msg_type length checksum value rssi :
  unpack_frame decoded = Some (msg_type, length, checksum, value, rssi) ->
  Codec.checksum [ABytes (firstn 4 decoded); AInt rssi; ABytes value]
  = xor_fold (other_bytes decoded).
Proof.
  destruct decoded as [|m1 [|m0 [|l1 [|l0 [|c [|v rest]]]]]]; try discriminate.
  unfold unpack_frame. intros Hu.
  assert (Hv : removelast (v :: rest) = value) by congruence.
  assert (Hr : List.last (v :: rest) 0 = rssi) by congruence.
  assert (Hsplit : v :: rest = value ++ [rssi]).
  { rewrite <- Hv, <- Hr. apply app_removelast_last. discriminate. }
  unfold other_bytes. cbn [firstn skipn]. rewrite Hsplit.
  unfold Codec.checksum.
  rewrite (checksum_loop_perm [ABytes [m1; m0; l1; l0]; AInt rssi; ABytes value]
             [ABytes [m1; m0; l1; l0]; ABytes value; AInt rssi])
    by (apply perm_skip, perm_swap).
  unfold xor_fold. rewrite !fold_left_app. reflexivity.
Qed.

Lemma decode_data_short RESPONSES interpret_response packet z :
  unpack_frame (zigate_decode (strip_delimiters packet)) = None ->
  decode_data RESPONSES interpret_response packet z = Ok tt z.
Proof. intros Hu. unfold decode_data. rewrite Hu. reflexivity. Qed.

(** *** The status wait *)

(** The status that a tick leaves for [cmd], if it brings one: the last
    one stored wins. *)
Definition delivered (t : tick) (cmd : Z) : option Z :=
  fold_left (fun acc ks => if fst ks =? cmd then Some (snd ks) else acc)
            (statuses t) None.

(** The ticks [k], ..., [k + n - 1] applied in order. *)
Fixpoint deliver_upto (w : world) (k n : nat) (z : ZiGate) : ZiGate :=
  match n with
  | O => z
  | S n' => deliver_upto w (S k) n' (deliver (ticks w k) z)
  end.

(** [sleep(0.01)] suspends the caller for at least its argument: every
    round of a polling loop moves the clock on by at least [d] units. *)
Definition sleeps_at_least (d : Z) (w : world) : Prop :=
  0 < d /\ time0 w + d <= clock (ticks w 0)
  /\ forall k, clock (ticks w k) + d <= clock (ticks w (S k)).

Lemma delivered_loop_Some l cmd s :
  fold_left (fun acc (ks : Z * Z) => if fst ks =? cmd then Some (snd ks) else acc)
            l (Some s)
  = match fold_left (fun acc (ks : Z * Z) =>
                       if fst ks =? cmd then Some (snd ks) else acc) l None with
    | Some s' => Some s'
    | None => Some s
    end.
Proof.
  revert s. induction l as [|[k v] l IH]; intros s; cbn [fold_left fst snd].
  - reflexivity.
  - destruct (k =? cmd); [|apply IH].
    rewrite (IH v). destruct (fold_left _ l None); reflexivity.
Qed.

Lemma last_status_get_deliver t z cmd :
  last_status_get (deliver t z) cmd
  = match delivered t cmd with
    | Some s => Some s
    | None => last_status_get z cmd
    end.
Proof.
  unfold last_status_get, deliver, delivered.
  cbn [_last_status with_last_status with_last_response].
  generalize (_last_status z). induction (statuses t) as [|[k v] l IH]; intros m;
    cbn [fold_left fst snd].
  - reflexivity.
  - rewrite IH. destruct (Z.eqb_spec k cmd) as [->|Hne].
    + rewrite delivered_loop_Some.
      destruct (fold_left _ l None); [reflexivity|].
      now rewrite lookup_insert_eq.
    + destruct (fold_left _ l None); [reflexivity|].
      now rewrite lookup_insert_ne.
Qed.

Lemma deliver_upto_snoc w n : forall k z,
  deliver_upto w k (S n) z = deliver (ticks w (k + n)) (deliver_upto w k n z).
Proof.
  induction n as [|n IH]; intros k z.
  - cbn [deliver_upto]. now rewrite Nat.add_0_r.
  - change (deliver_upto w k (S (S n)) z)
      with (deliver_upto w (S k) (S n) (deliver (ticks w k) z)).
    rewrite IH. cbn [deliver_upto]. now rewrite Nat.add_succ_comm.
Qed.

Lemma deliver_upto_count w n : forall k z,
  _no_response_count (deliver_upto w k n z) = _no_response_count z.
Proof. induction n as [|n IH]; intros k z; cbn [deliver_upto]; [|rewrite IH]; reflexivity. Qed.

(** No status for [cmd] before round [k + m], and the clock first beyond
    the three seconds at that round: the loop gives up there, whatever the
    sleep of that round brought, since the clock is tested first. *)
Lemma _wait_status_loop_timeout w cmd t1 : forall m k z fuel,
  last_status_get z cmd = None ->
  (forall j, (k <= j < k + m)%nat -> delivered (ticks w j) cmd = None) ->
  (forall j, (k <= j < k + m)%nat -> clock (ticks w j) - t1 <= 3 * per_second w) ->
  3 * per_second w < clock (ticks w (k + m)) - t1 ->
  (m < fuel)%nat ->
  _wait_status_loop fuel w cmd t1 k z
  = Some (Ok None (with_no_response_count (deliver_upto w k (S m) z)
                                          (_no_response_count z + 1))).
Proof.
  induction m as [|m IH]; intros k z fuel Hst Hsil Hclk Hlate Hfuel;
    (destruct fuel as [|fuel]; [lia|]); cbn [_wait_status_loop]; rewrite Hst.
  - rewrite Nat.add_0_r in Hlate.
    destruct (Z.ltb_spec (3 * per_second w) (clock (ticks w k) - t1)); [|lia].
    reflexivity.
  - destruct (Z.ltb_spec (3 * per_second w) (clock (ticks w k) - t1)) as [Hl|_].
    { specialize (Hclk k ltac:(lia)). lia. }
    rewrite (IH (S k) _ fuel).
    + reflexivity.
    + rewrite last_status_get_deliver, (Hsil k) by lia. exact Hst.
    + intros j Hj. apply Hsil. lia.
    + intros j Hj. apply Hclk. lia.
    + now rewrite Nat.add_succ_comm.
    + lia.
Qed.

(** No status for [cmd] before round [k + m], the status [s] stored during
    the sleep of that round, every reading so far within the three
    seconds: the next test of the loop finds the status. *)
Lemma _wait_status_loop_status w cmd t1 s : forall m k z fuel,
  last_status_get z cmd = None ->
  (forall j, (k <= j < k + m)%nat -> delivered (ticks w j) cmd = None) ->
  (forall j, (k <= j <= k + m)%nat -> clock (ticks w j) - t1 <= 3 * per_second w) ->
  delivered (ticks w (k + m)) cmd = Some s ->
  (S m < fuel)%nat ->
  _wait_status_loop fuel w cmd t1 k z
  = Some (Ok (Some s) (with_no_response_count (deliver_upto w k (S m) z) 0)).
Proof.
  induction m as [|m IH]; intros k z fuel Hst Hsil Hclk Hgot Hfuel;
    (destruct fuel as [|fuel]; [lia|]); cbn [_wait_status_loop]; rewrite Hst;
    (destruct (Z.ltb_spec (3 * per_second w) (clock (ticks w k) - t1)) as [Hl|_];
     [specialize (Hclk k ltac:(lia)); lia|]).
  - rewrite Nat.add_0_r in Hgot. destruct fuel as [|fuel]; [lia|].
    cbn [_wait_status_loop deliver_upto].
    now rewrite last_status_get_deliver, Hgot.
  - rewrite (IH (S k) _ fuel).
    + reflexivity.
    + rewrite last_status_get_deliver, (Hsil k) by lia. exact Hst.
    + intros j Hj. apply Hsil. lia.
    + intros j Hj. apply Hclk. lia.
    + now rewrite Nat.add_succ_comm.
    + lia.
Qed.

(** A clock that passes the three seconds has a first reading beyond them. *)
Lemma first_late_reading w t1 N :
  3 * per_second w < clock (ticks w N) - t1 ->
  exists n, (n <= N)%nat /\ 3 * per_second w < clock (ticks w n) - t1
            /\ forall j, (j < n)%nat -> clock (ticks w j) - t1 <= 3 * per_second w.
Proof.
  assert (Hsearch : forall bound,
    (exists n, (n < bound)%nat /\ 3 * per_second w < clock (ticks w n) - t1
               /\ forall j, (j < n)%nat -> clock (ticks w j) - t1 <= 3 * per_second w)
    \/ (forall j, (j < bound)%nat -> clock (ticks w j) - t1 <= 3 * per_second w)).
  { induction bound as [|bound IHM]; [right; intros j Hj; lia|].
    destruct IHM as [(n & Hn & Hl & Hb)|Hall].
    - left. exists n. repeat split; [lia | exact Hl | exact Hb].
    - destruct (Z_lt_le_dec (3 * per_second w) (clock (ticks w bound) - t1)) as [Hl|Hle].
      + left. exists bound. repeat split; [lia | exact Hl | exact Hall].
      + right. intros j Hj. destruct (Nat.eq_dec j bound) as [->|]; [exact Hle|].
        apply Hall. lia. }
  intros Hlate. destruct (Hsearch (S N)) as [(n & Hn & Hl & Hb)|Hall].
  - exists n. repeat split; [lia | exact Hl | exact Hb].
  - specialize (Hall N ltac:(lia)). lia.
Qed.

Lemma sleeping_clock d w :
  sleeps_at_least d w -> forall k, time0 w + (Z.of_nat k + 1) * d <= clock (ticks w k).
Proof.
  intros (Hd & H0 & Hstep) k. induction k as [|k IH].
  - cbn. lia.
  - specialize (Hstep k). lia.
Qed.

Lemma sleeping_late d w :
  sleeps_at_least d w ->
  exists N, 3 * per_second w < clock (ticks w N) - time0 w.
Proof.
  intros Hs. exists (Z.to_nat (3 * per_second w)).
  pose proof (sleeping_clock d w Hs (Z.to_nat (3 * per_second w))) as Hc.
  destruct Hs as (Hd & _ & _).
  destruct (Z_lt_le_dec (3 * per_second w) 0).
  - assert (Hz : Z.to_nat (3 * per_second w) = 0%nat) by lia.
    rewrite Hz in *. cbn in Hc. lia.
  - rewrite Z2Nat.id in Hc by lia. nia.
Qed.

End Frames.

(* ===================================================================== *)
(** ** Requests addressed by a hexadecimal string *)
(* ===================================================================== *)

Module Requests.

Export Frames.

(** The value of a hexadecimal digit, in either case. *)
Definition hex_digit (c : ascii) : option Z :=
  let n := Z.of_N (N_of_ascii c) in
  if (48 <=? n) && (n <=? 57) then Some (n - 48)
  else if (97 <=? n) && (n <=? 102) then Some (n - 87)
  else if (65 <=? n) && (n <=? 70) then Some (n - 55)
  else None.

(** The blanks that [bytes.fromhex] skips in front of a byte: the space,
    and the tab, line feed, vertical tab, form feed and carriage return. *)
Definition is_space (c : ascii) : bool :=
  let n := Z.of_N (N_of_ascii c) in
  (n =? 32) || ((9 <=? n) && (n <=? 13)).

(** [bytes.fromhex(s)]: two hexadecimal digits per byte, blanks allowed in
    front of a byte and at the end; [None] is the [ValueError] of any other
    character and of a digit without its second. *)
Fixpoint bytes_fromhex (s : string) : option bytes :=
  match s with
  | EmptyString => Some []
  | String c s' =>
      if is_space c then bytes_fromhex s'
      else
        match s' with
        | EmptyString => None
        | String c' s'' =>
            match hex_digit c, hex_digit c' with
            | Some h, Some l => cons (16 * h + l) <$> bytes_fromhex s''
            | _, _ => None
            end
        end
  end.

(** The part of [send_data] up to [send_to_transport] for an [int] command
    and a payload that is not a [bytes] object: a [str] goes through
    [bytes.fromhex], anything else fails [assert type(byte_data) == bytes].
    The status is reset and the awaited response cleared before the
    payload is looked at. *)
Definition send_frame_value (cmd : Z) (data : pyval) (wait_response : option Z)
  : M unit :=
  modify (fun z => with_last_status z (<[cmd := None]> (_last_status z)));;
  match wait_response with
  | Some msg_type => if msg_type =? 0 then mret tt else _clear_response msg_type
  | None => mret tt
  end;;
  byte_cmd ← lift struct_error (pack_H cmd);
  byte_data ← match data with
              | PStr s => lift ValueError (bytes_fromhex s)
              | _ => raise AssertionError
              end;
  let length := len byte_data in
  byte_length ← lift struct_error (pack_H length);
  let checksum := checksum [ABytes byte_cmd; ABytes byte_length; ABytes byte_data] in
  msg ← lift struct_error (pack_msg cmd length checksum byte_data);
  let enc_msg := zigate_encode msg in
  let encoded_output := wrap_frame enc_msg in
  send_to_transport encoded_output.

(** [send_data(cmd, data, wait_response, wait_status)] for such a payload. *)
Definition send_data_value (fuel : nat) (w_status w_response : world) (cmd : Z)
  (data : pyval) (wait_response : option Z) (wait_status : bool)
  : W sent_result :=
  fun z =>
  match send_frame_value cmd data wait_response z with
  | Raise e z' => Some (Raise e z')
  | Ok _ z' =>
      if wait_status then
        match _wait_status fuel w_status cmd z' with
        | None => None
        | Some (Raise e z'') => Some (Raise e z'')
        | Some (Ok status z'') =>
            match wait_response, status with
            | Some msg_type, Some _ =>
                if msg_type =? 0 then Some (Ok (Status status) z'')
                else
                  match _wait_response fuel w_response msg_type z'' with
                  | None => None
                  | Some (Raise e z3) => Some (Raise e z3)
                  | Some (Ok r z3) => Some (Ok (Answer r) z3)
                  end
            | _, _ => Some (Ok (Status status) z'')
            end
        end
      else Some (Ok Not_waited z')
  end.

(** What the waits of a method meet: one [world] per wait, numbered in the
    order of the waits. *)
Definition worlds : Type := nat -> world.

(** The worlds left for what follows [n] waits. *)
Definition later (n : nat) (ws : worlds) : worlds := fun k => ws (n + k)%nat.

(** [ZiGate.node_descriptor_request(addr)] and
    [ZiGate.active_endpoint_request(addr)]: the address is handed to
    [send_data] as it comes. *)
Definition node_descriptor_request (fuel : nat) (w : world) (addr : pyval)
  : W sent_result :=
  send_data_value fuel w w 0x0042 addr None true.

Definition active_endpoint_request (fuel : nat) (w : world) (addr : pyval)
  : W sent_result :=
  send_data_value fuel w w 0x0045 addr None true.

(** [ZiGate.refresh_device(addr)]: the two requests, each with its wait
    for a status. *)
Definition refresh_device (fuel : nat) (ws : worlds) (addr : pyval) : W unit :=
  node_descriptor_request fuel (ws 0%nat) addr;;
  active_endpoint_request fuel (ws 1%nat) addr;;
  mret tt.

(** *** Running a method that waits *)

Ltac run_waiting :=
  unfold mbind, W_bind, bindW, W_of, mret, W_ret; cbn beta iota.

Ltac run_waiting_in H :=
  unfold mbind, W_bind, bindW, W_of, mret, W_ret in H; cbn beta iota in H.

(** An address that the requests of [refresh_device] can carry: a string
    that [bytes.fromhex] reads as [payload], short enough for the length
    field of a frame. *)
Definition hex_payload (addr : pyval) (payload : bytes) : Prop :=
  exists s, addr = PStr s /\ bytes_fromhex s = Some payload /\ len payload < 65536.

(** Each of the waits of a method sees the clock beyond the three seconds
    at its round [N] at the latest. *)
Definition clocks_move_on (N : nat) (ws : worlds) : Prop :=
  forall k, 3 * per_second (ws k) < clock (ticks (ws k) N) - time0 (ws k).

Lemma clocks_move_on_later N n ws : clocks_move_on N ws -> clocks_move_on N (later n ws).
Proof. intros H k. apply H. Qed.

Lemma hex_digit_range c d : hex_digit c = Some d -> 0 <= d < 16.
Proof.
  unfold hex_digit. set (n := Z.of_N (N_of_ascii c)).
  destruct (Z.leb_spec 48 n), (Z.leb_spec n 57); cbn [andb];
    try (intros [= <-]; lia);
    destruct (Z.leb_spec 97 n), (Z.leb_spec n 102); cbn [andb];
    try (intros [= <-]; lia);
    destruct (Z.leb_spec 65 n), (Z.leb_spec n 70); cbn [andb];
    try (intros [= <-]; lia); discriminate.
Qed.

Lemma bytes_fromhex_ok s : forall payload,
  bytes_fromhex s = Some payload -> bytes_ok payload.
Proof.
  assert (Hn : forall n s payload, (String.length s <= n)%nat ->
                 bytes_fromhex s = Some payload -> bytes_ok payload).
  { induction n as [|n IH]; intros [|c t] payload Hlen; cbn [bytes_fromhex];
      try (intros [= <-]; constructor); cbn [String.length] in Hlen; [lia|].
    destruct (is_space c); [apply IH; lia|].
    destruct t as [|c' t']; [discriminate|]. cbn [String.length] in Hlen.
    destruct (hex_digit c) as [h|] eqn:Hh; [|discriminate].
    destruct (hex_digit c') as [l|] eqn:Hl; [|discriminate].
    destruct (bytes_fromhex t') as [rest|] eqn:Hr; [|discriminate].
    intros [= <-]. apply hex_digit_range in Hh, Hl.
    apply Forall_cons. split; [unfold is_byte; lia|].
    apply (IH t'); [lia | exact Hr]. }
  intros payload. apply (Hn (String.length s)). lia.
Qed.

(** A hexadecimal string is sent as the bytes it spells. *)
Lemma send_frame_value_hex cmd s payload wait_response z :
  bytes_fromhex s = Some payload ->
  send_frame_value cmd (PStr s) wait_response z
  = send_frame cmd payload wait_response z.
Proof.
  intros Hs. unfold send_frame_value, send_frame. run_method. rewrite Hs.
  destruct wait_response as [m|]; [destruct (m =? 0)|];
    destruct (pack_H cmd); reflexivity.
Qed.

Lemma send_data_value_hex fuel w w' cmd s payload wait_response wait_status z :
  bytes_fromhex s = Some payload ->
  send_data_value fuel w w' cmd (PStr s) wait_response wait_status z
  = send_data fuel w w' cmd payload wait_response wait_status z.
Proof.
  intros Hs. unfold send_data_value, send_data.
  now rewrite (send_frame_value_hex cmd s payload wait_response z Hs).
Qed.

(** *** What sending and waiting leave alone *)

(** The fields of the object outside the bookkeeping of [send_data]. *)
Definition same_directory (z z' : ZiGate) : Prop :=
  _devices z' = _devices z /\ trace z' = trace z /\ _ota z' = _ota z.

Lemma same_directory_refl z : same_directory z z.
Proof. repeat split. Qed.

Lemma same_directory_trans z1 z2 z3 :
  same_directory z1 z2 -> same_directory z2 z3 -> same_directory z1 z3.
Proof. unfold same_directory. intuition congruence. Qed.

Lemma send_frame_same cmd byte_data wait_response z :
  same_directory z (state_of (send_frame cmd byte_data wait_response z)).
Proof.
  unfold send_frame, _clear_response, send_to_transport, pack_msg. run_method.
  destruct wait_response as [m|]; [destruct (m =? 0)|];
    destruct (pack_H cmd); cbn; try (repeat split; reflexivity);
    destruct (pack_H (len byte_data)); cbn; try (repeat split; reflexivity);
    destruct (pack_B _); cbn; try (repeat split; reflexivity);
    destruct (is_connected (connection z)); repeat split; reflexivity.
Qed.

Lemma send_frame_link cmd byte_data wait_response z :
  is_connected (connection (state_of (send_frame cmd byte_data wait_response z)))
  = is_connected (connection z).
Proof.
  unfold send_frame, _clear_response, send_to_transport, pack_msg. run_method.
  destruct wait_response as [m|]; [destruct (m =? 0)|];
    destruct (pack_H cmd); cbn; try reflexivity;
    destruct (pack_H (len byte_data)); cbn; try reflexivity;
    destruct (pack_B _); cbn; try reflexivity;
    destruct (is_connected (connection z)) eqn:Hc; cbn; congruence.
Qed.

(** Whatever the payload, [send_data] up to the transport leaves the
    devices, the signals, the upload session and the state of the link as
    they were. *)
Lemma send_frame_value_same cmd data wait_response z :
  same_directory z (state_of (send_frame_value cmd data wait_response z))
  /\ is_connected (connection (state_of (send_frame_value cmd data wait_response z)))
     = is_connected (connection z).
Proof.
  destruct data as [|i|s].
  - unfold send_frame_value, _clear_response. run_method.
    destruct wait_response as [m|]; [destruct (m =? 0)|];
      destruct (pack_H cmd); cbn; repeat split; reflexivity.
  - unfold send_frame_value, _clear_response. run_method.
    destruct wait_response as [m|]; [destruct (m =? 0)|];
      destruct (pack_H cmd); cbn; repeat split; reflexivity.
  - destruct (bytes_fromhex s) as [payload|] eqn:Hs.
    + rewrite (send_frame_value_hex cmd s payload wait_response z Hs).
      split; [apply send_frame_same | apply send_frame_link].
    + unfold send_frame_value, _clear_response. run_method. rewrite Hs.
      destruct wait_response as [m|]; [destruct (m =? 0)|];
        destruct (pack_H cmd); cbn; repeat split; reflexivity.
Qed.

Lemma _wait_status_loop_same w cmd t1 : forall fuel k z r,
  _wait_status_loop fuel w cmd t1 k z = Some r ->
  same_directory z (state_of r) /\ connection (state_of r) = connection z.
Proof.
  induction fuel as [|fuel IH]; intros k z r; cbn [_wait_status_loop]; [discriminate|].
  destruct (last_status_get z cmd).
  - intros [= <-]. repeat split.
  - destruct (_ <? _).
    + intros [= <-]. repeat split.
    + intros Hr. destruct (IH _ _ _ Hr) as [(H1 & H2 & H3) H4].
      repeat split; assumption.
Qed.

Lemma _wait_response_loop_same w msg_type t1 : forall fuel k z r,
  _wait_response_loop fuel w msg_type t1 k z = Some r ->
  same_directory z (state_of r) /\ connection (state_of r) = connection z.
Proof.
  induction fuel as [|fuel IH]; intros k z r; cbn [_wait_response_loop]; [discriminate|].
  destruct (_last_response z !! msg_type).
  - intros [= <-]. repeat split.
  - destruct (_ <? _).
    + intros [= <-]. repeat split.
    + intros Hr. destruct (IH _ _ _ Hr) as [(H1 & H2 & H3) H4].
      repeat split; assumption.
Qed.

(** The object when [send_data] finds the transport down: the status of
    the command is reset and the awaited response is cleared, nothing is
    sent. *)
Definition frame_unsent (cmd : Z) (wait_response : option Z) (z : ZiGate) : ZiGate :=
  let z := with_last_status z (<[cmd := None]> (_last_status z)) in
  match wait_response with
  | Some msg_type =>
      if msg_type =? 0 then z
      else with_last_response z (delete msg_type (_last_response z))
  | None => z
  end.

Lemma send_frame_not_connected cmd byte_data wait_response z :
  is_connected (connection z) = false ->
  0 <= cmd < 65536 -> bytes_ok byte_data -> len byte_data < 65536 ->
  send_frame cmd byte_data wait_response z
  = Raise Not_connected (frame_unsent cmd wait_response z).
Proof.
  intros Hconn Hcmd Hb Hl.
  assert (Hlen : 0 <= len byte_data < 65536) by (unfold len in *; lia).
  assert (Hk : is_byte (checksum [ABytes (be16 cmd); ABytes (be16 (len byte_data));
                                   ABytes byte_data])).
  { unfold checksum. cbn [fold_left checksum_arg].
    apply xor_loop_is_byte; [exact Hb|].
    apply xor_loop_is_byte; [exact (be16_bytes _ Hlen)|].
    apply xor_loop_is_byte; [exact (be16_bytes _ Hcmd)|]. unfold is_byte; lia. }
  unfold send_frame, frame_unsent, _clear_response, send_to_transport, pack_msg.
  destruct z as [devs lr ls n ota [c snt] tr]. cbn [connection is_connected] in Hconn.
  subst c. run_method.
  rewrite (pack_H_ok _ Hcmd), (pack_H_ok _ Hlen). cbn [option_bind]. run_method.
  destruct wait_response as [msg_type|]; [destruct (msg_type =? 0)|];
    cbn beta iota; rewrite (pack_B_ok _ Hk); cbn [option_bind]; run_method;
    reflexivity.
Qed.

(** Whatever [send_data] returns or raises, the devices, the dispatched
    signals and the upload session are as before the call. *)
Lemma send_data_same fuel w w' cmd byte_data wait_response wait_status z r :
  send_data fuel w w' cmd byte_data wait_response wait_status z = Some r ->
  same_directory z (state_of r).
Proof.
  unfold send_data.
  pose proof (send_frame_same cmd byte_data wait_response z) as Hs.
  destruct (send_frame cmd byte_data wait_response z) as [[] z1|e z1];
    cbn [state_of] in Hs; [|now intros [= <-]].
  destruct wait_status; [|now intros [= <-]].
  unfold _wait_status.
  destruct (_wait_status_loop fuel w cmd (time0 w) 0 z1) as [r1|] eqn:Hw;
    [|discriminate].
  apply _wait_status_loop_same in Hw as [Hw _].
  pose proof (same_directory_trans _ _ _ Hs Hw) as H2.
  destruct r1 as [status z2|e z2]; cbn [state_of] in H2; [|now intros [= <-]].
  destruct wait_response as [m|], status as [s|]; try (now intros [= <-]).
  destruct (m =? 0); [now intros [= <-]|].
  unfold _wait_response.
  destruct (_wait_response_loop fuel w' m (time0 w') 0 z2) as [r2|] eqn:Hr;
    [|discriminate].
  apply _wait_response_loop_same in Hr as [Hr _].
  pose proof (same_directory_trans _ _ _ H2 Hr) as H3.
  destruct r2 as [resp z3|e z3]; cbn [state_of] in H3; now intros [= <-].
Qed.

(** The same for a request sent for its status, whatever its payload. *)
Lemma send_data_value_same fuel w w' cmd data z r :
  send_data_value fuel w w' cmd data None true z = Some r ->
  same_directory z (state_of r)
  /\ is_connected (connection (state_of r)) = is_connected (connection z).
Proof.
  unfold send_data_value.
  destruct (send_frame_value_same cmd data None z) as [Hs Hc].
  destruct (send_frame_value cmd data None z) as [[] z1|e z1];
    cbn [state_of] in Hs, Hc; [|intros [= <-]; now split].
  unfold _wait_status.
  destruct (_wait_status_loop fuel w cmd (time0 w) 0 z1) as [r1|] eqn:Hw;
    [|discriminate].
  apply _wait_status_loop_same in Hw as [Hw Hc1].
  pose proof (same_directory_trans _ _ _ Hs Hw) as H2.
  destruct r1 as [status z2|e z2]; cbn [state_of] in H2, Hc1;
    intros [= <-]; cbn [state_of]; (split; [exact H2 | congruence]).
Qed.

(** Once the clock is seen beyond the three seconds the status wait is
    over: it has returned by then, with a status or without. *)
Lemma _wait_status_loop_returns w cmd t1 : forall m k z,
  3 * per_second w < clock (ticks w (k + m)) - t1 ->
  exists status z',
    forall fuel, (m < fuel)%nat ->
      _wait_status_loop fuel w cmd t1 k z = Some (Ok status z').
Proof.
  induction m as [|m IH]; intros k z Hlate.
  - rewrite Nat.add_0_r in Hlate.
    destruct (last_status_get z cmd) as [s|] eqn:Hs.
    + do 2 eexists. intros [|fuel] Hf; [lia|]. cbn [_wait_status_loop].
      rewrite Hs. reflexivity.
    + do 2 eexists. intros [|fuel] Hf; [lia|]. cbn [_wait_status_loop].
      rewrite Hs. destruct (Z.ltb_spec (3 * per_second w) (clock (ticks w k) - t1));
        [reflexivity | lia].
  - destruct (last_status_get z cmd) as [s|] eqn:Hs.
    + do 2 eexists. intros [|fuel] Hf; [lia|]. cbn [_wait_status_loop].
      rewrite Hs. reflexivity.
    + destruct (Z.ltb_spec (3 * per_second w) (clock (ticks w k) - t1)) as [Hl|Hl].
      * do 2 eexists. intros [|fuel] Hf; [lia|]. cbn [_wait_status_loop].
        rewrite Hs. destruct (Z.ltb_spec (3 * per_second w) (clock (ticks w k) - t1));
          [reflexivity | lia].
      * destruct (IH (S k) (deliver (ticks w k) z)) as (status & z' & Hrun).
        { now rewrite Nat.add_succ_comm. }
        exists status, z'. intros [|fuel] Hf; [lia|]. cbn [_wait_status_loop].
        rewrite Hs. destruct (Z.ltb_spec (3 * per_second w) (clock (ticks w k) - t1));
          [lia|]. apply Hrun. lia.
Qed.

(** A command sent over a connected transport for its status alone: with
    a clock that moves on, [send_data] returns, and the frame is on the
    wire. *)
Lemma send_data_returns w w' cmd byte_data z N :
  is_connected (connection z) = true -> 0 <= cmd < 65536 ->
  bytes_ok byte_data -> len byte_data < 65536 ->
  3 * per_second w < clock (ticks w N) - time0 w ->
  exists status z',
    (forall fuel, (N < fuel)%nat ->
       send_data fuel w w' cmd byte_data None true z = Some (Ok (Status status) z'))
    /\ same_directory z z'
    /\ is_connected (connection z') = true
    /\ sent (connection z')
       = sent (connection z) ++ [wrap_frame (zigate_encode (message cmd byte_data))].
Proof.
  intros Hconn Hcmd Hb Hl Hlate.
  pose proof (send_frame_run cmd byte_data None z Hconn Hcmd Hb Hl) as Hsend.
  destruct (_wait_status_loop_returns w cmd (time0 w) N 0
              (frame_sent cmd byte_data None z) Hlate) as (status & z' & Hrun).
  exists status, z'.
  assert (Hone : _wait_status_loop (S N) w cmd (time0 w) 0
                   (frame_sent cmd byte_data None z)
                 = Some (Ok status z')) by (apply Hrun; lia).
  apply _wait_status_loop_same in Hone as [Hsame Hc]. cbn [state_of] in Hsame, Hc.
  split; [|split; [|split]].
  - intros fuel Hf. unfold send_data. rewrite Hsend. unfold _wait_status.
    rewrite (Hrun fuel Hf). destruct status; reflexivity.
  - eapply same_directory_trans; [|exact Hsame]. repeat split.
  - rewrite Hc. exact Hconn.
  - rewrite Hc. reflexivity.
Qed.

(** A command without payload, sent over a connected transport for its
    status alone: with a clock that moves on, [send_data] returns. *)
Lemma send_data_status_returns w w' cmd z N :
  is_connected (connection z) = true -> 0 <= cmd < 65536 ->
  3 * per_second w < clock (ticks w N) - time0 w ->
  exists status z',
    (forall fuel, (N < fuel)%nat ->
       send_data fuel w w' cmd [] None true z = Some (Ok (Status status) z'))
    /\ same_directory z z'
    /\ sent (connection z')
       = sent (connection z) ++ [wrap_frame (zigate_encode (message cmd []))].
Proof.
  intros Hconn Hcmd Hlate.
  destruct (send_data_returns w w' cmd [] z N Hconn Hcmd ltac:(constructor)
              ltac:(vm_compute; reflexivity) Hlate)
    as (status & z' & Hrun & Hsame & _ & Hsent).
  exists status, z'. repeat split; try assumption; apply Hsame.
Qed.

(** With a clock that moves on, a request sent for its status returns or
    raises, whatever its payload and the state of the link. *)
Lemma send_data_value_ends w cmd data z N :
  3 * per_second w < clock (ticks w N) - time0 w ->
  exists r, forall fuel, (N < fuel)%nat ->
    send_data_value fuel w w cmd data None true z = Some r.
Proof.
  intros Hlate. unfold send_data_value.
  destruct (send_frame_value cmd data None z) as [[] z1|e z1].
  - destruct (_wait_status_loop_returns w cmd (time0 w) N 0 z1 Hlate)
      as (status & z' & Hrun).
    exists (Ok (Status status) z'). intros fuel Hf. unfold _wait_status.
    rewrite (Hrun fuel Hf). reflexivity.
  - exists (Raise e z1). intros fuel _. reflexivity.
Qed.

(** *** The refresh of a device *)

(** However [refresh_device] ends, the devices, the dispatched signals,
    the upload session and the state of the link are as before. *)
Lemma refresh_device_same fuel ws addr z r :
  refresh_device fuel ws addr z = Some r ->
  same_directory z (state_of r)
  /\ is_connected (connection (state_of r)) = is_connected (connection z).
Proof.
  unfold refresh_device, node_descriptor_request, active_endpoint_request.
  run_waiting.
  destruct (send_data_value fuel (ws 0%nat) (ws 0%nat) 0x0042 addr None true z)
    as [r1|] eqn:H1; [|discriminate].
  apply send_data_value_same in H1 as [Hs1 Hc1].
  destruct r1 as [v1 z1|e z1]; cbn [state_of] in Hs1, Hc1;
    [|intros [= <-]; now split].
  destruct (send_data_value fuel (ws 1%nat) (ws 1%nat) 0x0045 addr None true z1)
    as [r2|] eqn:H2; [|discriminate].
  apply send_data_value_same in H2 as [Hs2 Hc2].
  pose proof (same_directory_trans _ _ _ Hs1 Hs2) as Hs.
  destruct r2 as [v2 z2|e z2]; cbn [state_of] in Hs, Hc2;
    intros [= <-]; cbn [state_of]; (split; [exact Hs | congruence]).
Qed.

(** With clocks that move on, [refresh_device] returns or raises. *)
Lemma refresh_device_ends ws addr z N :
  clocks_move_on N ws ->
  exists r, forall fuel, (N < fuel)%nat -> refresh_device fuel ws addr z = Some r.
Proof.
  intros Hlate. unfold refresh_device, node_descriptor_request,
    active_endpoint_request. run_waiting.
  destruct (send_data_value_ends (ws 0%nat) 0x0042 addr z N (Hlate 0%nat))
    as [[v1 z1|e z1] H1].
  - destruct (send_data_value_ends (ws 1%nat) 0x0045 addr z1 N (Hlate 1%nat))
      as [[v2 z2|e z2] H2].
    + exists (Ok tt z2). intros fuel Hf. now rewrite (H1 fuel Hf), (H2 fuel Hf).
    + exists (Raise e z2). intros fuel Hf. now rewrite (H1 fuel Hf), (H2 fuel Hf).
  - exists (Raise e z1). intros fuel Hf. now rewrite (H1 fuel Hf).
Qed.

(** Over a connected transport, for an address that spells bytes and with
    clocks that move on, [refresh_device] returns: the node descriptor
    request (0x0042) and the active endpoint request (0x0045) are on the
    wire, in this order. *)
Lemma refresh_device_run ws addr payload z N :
  is_connected (connection z) = true ->
  hex_payload addr payload ->
  clocks_move_on N ws ->
  exists z',
    (forall fuel, (N < fuel)%nat -> refresh_device fuel ws addr z = Some (Ok tt z'))
    /\ same_directory z z'
    /\ is_connected (connection z') = true
    /\ sent (connection z')
       = sent (connection z)
         ++ [wrap_frame (zigate_encode (message 0x0042 payload));
             wrap_frame (zigate_encode (message 0x0045 payload))].
Proof.
  intros Hconn (s & -> & Hs & Hl) Hlate.
  pose proof (bytes_fromhex_ok s payload Hs) as Hb.
  destruct (send_data_returns (ws 0%nat) (ws 0%nat) 0x0042 payload z N Hconn
              ltac:(lia) Hb Hl (Hlate 0%nat))
    as (st1 & z1 & H1 & Hs1 & Hc1 & Hsent1).
  destruct (send_data_returns (ws 1%nat) (ws 1%nat) 0x0045 payload z1 N Hc1
              ltac:(lia) Hb Hl (Hlate 1%nat))
    as (st2 & z2 & H2 & Hs2 & Hc2 & Hsent2).
  exists z2. split; [|split; [|split]].
  - intros fuel Hf. unfold refresh_device, node_descriptor_request,
      active_endpoint_request. run_waiting.
    rewrite (send_data_value_hex _ _ _ _ s payload _ _ _ Hs), (H1 fuel Hf).
    rewrite (send_data_value_hex _ _ _ _ s payload _ _ _ Hs), (H2 fuel Hf).
    reflexivity.
  - exact (same_directory_trans _ _ _ Hs1 Hs2).
  - exact Hc2.
  - rewrite Hsent2, Hsent1, <- app_assoc. reflexivity.
Qed.

(** Over a transport that is down, [refresh_device] raises at its first
    request; nothing is sent. *)
Lemma refresh_device_down fuel ws addr payload z :
  is_connected (connection z) = false ->
  hex_payload addr payload ->
  refresh_device fuel ws addr z
  = Some (Raise Not_connected (frame_unsent 0x0042 None z)).
Proof.
  intros Hconn (s & -> & Hs & Hl).
  pose proof (bytes_fromhex_ok s payload Hs) as Hb.
  unfold refresh_device, node_descriptor_request. run_waiting.
  rewrite (send_data_value_hex _ _ _ _ s payload _ _ _ Hs). unfold send_data.
  rewrite send_frame_not_connected; [reflexivity | exact Hconn | lia | exact Hb | exact Hl].
Qed.

(** For an address that is no string, or a string that spells no bytes,
    [refresh_device] raises before anything is sent. *)
Lemma refresh_device_bad_address fuel ws addr z :
  match addr with
  | PStr s => bytes_fromhex s = None
  | _ => True
  end ->
  refresh_device fuel ws addr z
  = Some (Raise (match addr with PStr _ => ValueError | _ => AssertionError end)
                (frame_unsent 0x0042 None z)).
Proof.
  intros Hbad. unfold refresh_device, node_descriptor_request, send_data_value,
    send_frame_value, frame_unsent. run_waiting. run_method.
  destruct addr as [|i|s]; [reflexivity | reflexivity|]. now rewrite Hbad.
Qed.

End Requests.

(* ===================================================================== *)
(** ** The device directory *)
(* ===================================================================== *)

Module Directory.

Export Requests.
Import Datetime.

(** The loop of [get_device_from_ieee] over [self._devices.values()]; the
    key of the slot is kept next to the object found. *)
Definition find_ieee (ieee : pyval) (devs : odict pyval Device)
  : option (pyval * Device) :=
  List.find (fun kd => bool_decide (Device_ieee (snd kd) = ieee)) devs.

Definition get_device_from_ieee (z : ZiGate) (ieee : pyval)
  : option (pyval * Device) :=
  if truthy ieee then find_ieee ieee (_devices z) else None.

(** [del self._devices[addr]]. *)
Definition del_device (addr : pyval) : M unit :=
  z ← get;
  match od_get addr (_devices z) with
  | Some _ => modify (fun z => with_devices z (od_del addr (_devices z)))
  | None => raise KeyError
  end.

(** [ZiGate._set_device(device)]. In the rename branch [d] is the object
    already held by the directory, so [d.update(device)] is seen in its
    slot before the object is bound to the new address. The rename and add
    branches end with [refresh_device], whose two requests wait for their
    status in the worlds [ws]. *)
Definition _set_device (fuel : nat) (ws : worlds) (device : Device) : W unit :=
  addr ← W_of (lift KeyError (Device_addr device));
  z ← W_of get;
  match od_get addr (_devices z) with
  | Some existing =>
      let existing := Device_update existing device in
      W_of (modify (fun z => with_devices z (od_set addr existing (_devices z)));;
            dispatch_signal (ZIGATE_DEVICE_UPDATED existing))
  | None =>
      W_of (match get_device_from_ieee z (Device_ieee device) with
            | Some (slot, d) =>
                old_addr ← lift KeyError (Device_addr d);
                let new_addr := addr in
                let d := Device_update d device in
                modify (fun z => with_devices z (od_set slot d (_devices z)));;
                modify (fun z => with_devices z (od_set new_addr d (_devices z)));;
                del_device old_addr;;
                dispatch_signal (ZIGATE_DEVICE_RENAMED old_addr new_addr)
            | None =>
                modify (fun z => with_devices z (od_set addr device (_devices z)));;
                dispatch_signal (ZIGATE_DEVICE_ADDED device)
            end);;
      refresh_device fuel ws addr
  end.

(** [ZiGate._remove_device(addr)]: [self._devices.pop(addr)]. *)
Definition _remove_device (addr : pyval) : M unit :=
  z ← get;
  match od_get addr (_devices z) with
  | Some device =>
      modify (fun z => with_devices z (od_del addr (_devices z)));;
      dispatch_signal (ZIGATE_DEVICE_REMOVED addr device)
  | None => raise KeyError
  end.

(** [ZiGate._tag_missing(addr)], with [now] the reading of
    [datetime.datetime.now()]. The two timestamps are compared as strings;
    a [last_seen] that is not a string cannot be compared with one. *)
Definition _tag_missing (now : datetime) (addr : pyval) : M unit :=
  last_24h ← lift OverflowError (minus_24h now);
  let last_24h := strftime last_24h in
  z ← get;
  match od_get addr (_devices z) with
  | Some d =>
      let last_seen := Device_last_seen d in
      if truthy last_seen then
        match last_seen with
        | PStr s =>
            if String.ltb s last_24h then
              let d := set_missing d true in
              modify (fun z => with_devices z (od_set addr d (_devices z)));;
              dispatch_signal (ZIGATE_DEVICE_UPDATED d)
            else mret tt
        | _ => raise TypeError
        end
      else mret tt
  | None => mret tt
  end.

(** No two tracked devices share an IEEE that is set. *)
Definition ieee_unique (devs : odict pyval Device) : Prop :=
  forall k1 k2 d1 d2,
    od_get k1 devs = Some d1 -> od_get k2 devs = Some d2 ->
    truthy (Device_ieee d1) = true -> Device_ieee d1 = Device_ieee d2 ->
    k1 = k2.

(** The directory the rename branch counts on: one binding per address,
    each device bound to its own [addr], IEEEs unique. *)
Definition dir_wf (devs : odict pyval Device) : Prop :=
  List.NoDup (od_keys devs)
  /\ (forall k d, od_get k devs = Some d -> Device_addr d = Some k)
  /\ ieee_unique devs.

(** The states the directory operations lead to from the initial one. A
    call of [_set_device] whose refresh raises has written to the directory
    before, so the state it leaves counts as well as the one it returns
    in. *)
Inductive reachable : ZiGate -> Prop :=
  | reach_init : reachable init_ZiGate
  | reach_set_device z r fuel ws device :
      reachable z -> _set_device fuel ws device z = Some r ->
      reachable (state_of r)
  | reach_remove_device z z' addr :
      reachable z -> _remove_device addr z = Ok tt z' -> reachable z'
  | reach_tag_missing z z' now addr :
      reachable z -> _tag_missing now addr z = Ok tt z' -> reachable z'.

(** *** Running a method *)

Ltac run_method :=
  unfold mbind, M_bind, mret, M_ret, bind, ret, lift, raise, get, modify,
         dispatch_signal; cbn beta iota.

Ltac run_method_in H :=
  unfold mbind, M_bind, mret, M_ret, bind, ret, lift, raise, get, modify,
         dispatch_signal in H; cbn beta iota in H.

Lemma Device_update_ieee d device :
  truthy (Device_ieee device) = true ->
  Device_ieee (Device_update d device) = Device_ieee device.
Proof.
  unfold Device_ieee, dict_get, Device_update. cbn [info]. intros Ht.
  destruct (info device !! "ieee"%string) as [v|] eqn:Hv; [|discriminate].
  now rewrite (lookup_union_Some_l _ _ _ _ Hv).
Qed.

Lemma Device_update_addr d device a :
  Device_addr device = Some a -> Device_addr (Device_update d device) = Some a.
Proof.
  unfold Device_addr, Device_update. cbn [info]. intros Hv.
  now apply lookup_union_Some_l.
Qed.

Lemma Device_update_endpoints_kept d device k :
  od_get k (endpoints device) = None ->
  od_get k (endpoints (Device_update d device)) = od_get k (endpoints d).
Proof. intros Hk. unfold Device_update. cbn [endpoints]. now apply od_get_update_None. Qed.

(** *** What every reachable directory keeps *)

(** One binding per address, and each device bound to its own [addr]. *)
Definition dir_keyed (devs : odict pyval Device) : Prop :=
  List.NoDup (od_keys devs)
  /\ (forall k d, od_get k devs = Some d -> Device_addr d = Some k).

Lemma od_set_keyed devs addr d :
  dir_keyed devs -> Device_addr d = Some addr -> dir_keyed (od_set addr d devs).
Proof.
  intros [Hnd Hkey] Haddr. split; [now apply od_set_NoDup|].
  intros k x Hx. destruct (decide (k = addr)) as [->|Hk].
  - rewrite od_get_set_eq in Hx. congruence.
  - rewrite od_get_set_ne in Hx by assumption. now apply Hkey.
Qed.

Lemma od_del_keyed devs addr : dir_keyed devs -> dir_keyed (od_del addr devs).
Proof.
  intros [Hnd Hkey]. split; [now apply od_del_NoDup|].
  intros k x Hx. destruct (decide (k = addr)) as [->|Hk].
  - rewrite od_get_del_eq in Hx by assumption. discriminate.
  - rewrite od_get_del_ne in Hx by assumption. now apply Hkey.
Qed.

(** What the loop of [get_device_from_ieee] answers with is tracked, under
    the address the loop met it at, and carries the IEEE. *)
Lemma get_device_from_ieee_Some z ieee slot d :
  List.NoDup (od_keys (_devices z)) ->
  get_device_from_ieee z ieee = Some (slot, d) ->
  truthy ieee = true /\ od_get slot (_devices z) = Some d /\ Device_ieee d = ieee.
Proof.
  intros Hnd Hf. unfold get_device_from_ieee in Hf.
  destruct (truthy ieee); [|discriminate]. split; [reflexivity|].
  apply List.find_some in Hf as [Hin Hp]. cbn [snd] in Hp.
  apply bool_decide_eq_true in Hp. split; [now apply od_In_get | exact Hp].
Qed.

(** The loop stops at the first device that carries the IEEE. *)
Lemma find_ieee_first ieee devs old d :
  find_ieee ieee devs = Some (old, d) ->
  exists before after,
    devs = before ++ (old, d) :: after
    /\ forall k x, In (k, x) before -> Device_ieee x <> ieee.
Proof.
  unfold find_ieee.
  induction devs as [|[k x] devs IH]; cbn [List.find snd]; [discriminate|].
  destruct (bool_decide (Device_ieee x = ieee)) eqn:Hx.
  - intros [= -> ->]. exists [], devs. split; [reflexivity | intros ? ? []].
  - intros Hf. destruct (IH Hf) as (before & after & -> & Hb).
    exists ((k, x) :: before), after. split; [reflexivity|].
    intros k' x' [[= <- <-]|Hin]; [now apply bool_decide_eq_false in Hx|].
    now apply (Hb k').
Qed.

(** Some tracked device carries the IEEE: the loop finds one. *)
Lemma get_device_from_ieee_finds z ieee k d :
  truthy ieee = true -> od_get k (_devices z) = Some d -> Device_ieee d = ieee ->
  exists slot d0, get_device_from_ieee z ieee = Some (slot, d0).
Proof.
  intros Ht Hd Hi. unfold get_device_from_ieee, find_ieee. rewrite Ht.
  destruct (List.find _ (_devices z)) as [[slot d0]|] eqn:Hf; [now eauto|].
  exfalso. apply od_get_In in Hd.
  pose proof (List.find_none _ _ Hf _ Hd) as Hp. cbn [snd] in Hp.
  apply bool_decide_eq_false in Hp. now apply Hp.
Qed.

(** The directory after the rename branch. *)
Definition renamed_devices (devs : odict pyval Device) (old_addr new_addr : pyval)
  (d : Device) : odict pyval Device :=
  od_del old_addr (od_set new_addr d (od_set old_addr d devs)).

(** The object when [_set_device] calls [refresh_device]: after the
    rename, and after the device was added. *)
Definition after_rename (z : ZiGate) (old_addr new_addr : pyval) (d : Device)
  : ZiGate :=
  with_trace (with_devices z (renamed_devices (_devices z) old_addr new_addr d))
             (trace z ++ [Dispatched (ZIGATE_DEVICE_RENAMED old_addr new_addr)]).

Definition after_add (z : ZiGate) (addr : pyval) (device : Device) : ZiGate :=
  with_trace (with_devices z (od_set addr device (_devices z)))
             (trace z ++ [Dispatched (ZIGATE_DEVICE_ADDED device)]).

(** The object after the update branch. *)
Definition after_update (z : ZiGate) (addr : pyval) (merged : Device) : ZiGate :=
  with_trace (with_devices z (od_set addr merged (_devices z)))
             (trace z ++ [Dispatched (ZIGATE_DEVICE_UPDATED merged)]).

(** The update branch: the address is tracked. No request is sent. *)
Lemma _set_device_update_run fuel ws z device addr existing :
  Device_addr device = Some addr ->
  od_get addr (_devices z) = Some existing ->
  _set_device fuel ws device z
  = Some (Ok tt (after_update z addr (Device_update existing device))).
Proof.
  intros Haddr Hg. unfold _set_device. run_waiting. run_method.
  rewrite Haddr. run_method. rewrite Hg. reflexivity.
Qed.

(** The rename branch: the address is not tracked and the loop of
    [get_device_from_ieee] finds a device. *)
Lemma _set_device_rename_run fuel ws z device new_addr slot d :
  dir_keyed (_devices z) ->
  Device_addr device = Some new_addr ->
  od_get new_addr (_devices z) = None ->
  get_device_from_ieee z (Device_ieee device) = Some (slot, d) ->
  _set_device fuel ws device z
  = refresh_device fuel ws new_addr
      (after_rename z slot new_addr (Device_update d device)).
Proof.
  intros [Hnd Hkey] Haddr Hnew Hf.
  destruct (get_device_from_ieee_Some _ _ _ _ Hnd Hf) as (_ & Hslot & _).
  assert (Hne : slot <> new_addr) by congruence.
  unfold _set_device. run_waiting. run_method.
  rewrite Haddr. run_method. rewrite Hnew, Hf.
  rewrite (Hkey _ _ Hslot). unfold del_device. run_method.
  cbn [_devices with_devices].
  rewrite (od_get_set_ne new_addr slot) by exact Hne.
  rewrite od_get_set_eq. reflexivity.
Qed.

(** The add branch: an address that is not tracked and an IEEE that no
    tracked device carries. *)
Lemma _set_device_add_run fuel ws z device addr :
  Device_addr device = Some addr ->
  od_get addr (_devices z) = None ->
  get_device_from_ieee z (Device_ieee device) = None ->
  _set_device fuel ws device z
  = refresh_device fuel ws addr (after_add z addr device).
Proof.
  intros Haddr Hnew Hnone. unfold _set_device. run_waiting. run_method.
  rewrite Haddr. run_method. rewrite Hnew, Hnone. reflexivity.
Qed.

(** The directory after the rename branch, for a directory whose devices
    are bound to their own addresses. *)
Lemma renamed_devices_keyed devs device new_addr old_addr d :
  dir_keyed devs ->
  Device_addr device = Some new_addr ->
  od_get new_addr devs = None ->
  od_get old_addr devs = Some d ->
  let devs' := renamed_devices devs old_addr new_addr (Device_update d device) in
  od_get new_addr devs' = Some (Device_update d device)
  /\ od_get old_addr devs' = None
  /\ (forall k, k <> new_addr -> k <> old_addr -> od_get k devs' = od_get k devs)
  /\ List.length devs' = List.length devs
  /\ dir_keyed devs'.
Proof.
  intros [Hnd Hkey] Haddr Hnew Hold devs'.
  assert (Hne : old_addr <> new_addr) by congruence.
  set (d' := Device_update d device) in *.
  assert (Hnd' : List.NoDup (od_keys (od_set new_addr d' (od_set old_addr d' devs))))
    by (do 2 apply od_set_NoDup; exact Hnd).
  assert (Hg_new : od_get new_addr devs' = Some d').
  { unfold devs', renamed_devices. rewrite od_get_del_ne by congruence.
    apply od_get_set_eq. }
  assert (Hg_old : od_get old_addr devs' = None).
  { unfold devs', renamed_devices. now apply od_get_del_eq. }
  assert (Hg_other : forall k, k <> new_addr -> k <> old_addr ->
                               od_get k devs' = od_get k devs).
  { intros k Hk1 Hk2. unfold devs', renamed_devices.
    rewrite od_get_del_ne, !od_get_set_ne by assumption. reflexivity. }
  split; [exact Hg_new|]. split; [exact Hg_old|]. split; [exact Hg_other|]. split.
  - unfold devs', renamed_devices.
    pose proof (od_length_del old_addr (od_set new_addr d' (od_set old_addr d' devs)))
      as Hl.
    rewrite od_get_set_ne, od_get_set_eq in Hl by exact Hne.
    specialize (Hl ltac:(discriminate)).
    rewrite od_length_set_new in Hl
      by (rewrite od_get_set_ne by congruence; exact Hnew).
    rewrite od_length_set_old in Hl by congruence.
    now injection Hl.
  - split; [unfold devs', renamed_devices; now apply od_del_NoDup|].
    intros k x Hx. destruct (decide (k = new_addr)) as [->|Hk1].
    + rewrite Hg_new in Hx. injection Hx as <-. now apply Device_update_addr.
    + destruct (decide (k = old_addr)) as [->|Hk2]; [congruence|].
      rewrite Hg_other in Hx by assumption. now apply Hkey.
Qed.

Lemma renamed_devices_wf devs device new_addr old_addr d :
  dir_wf devs ->
  Device_addr device = Some new_addr ->
  od_get new_addr devs = None ->
  truthy (Device_ieee device) = true ->
  od_get old_addr devs = Some d ->
  Device_ieee d = Device_ieee device ->
  let devs' := renamed_devices devs old_addr new_addr (Device_update d device) in
  od_get new_addr devs' = Some (Device_update d device)
  /\ od_get old_addr devs' = None
  /\ (forall k, k <> new_addr -> k <> old_addr -> od_get k devs' = od_get k devs)
  /\ dir_wf devs'.
Proof.
  intros (Hnd & Hkey & Hu) Haddr Hnew Ht Hold Hieee devs'.
  assert (Hne : old_addr <> new_addr) by congruence.
  set (d' := Device_update d device) in *.
  assert (Hnd' : List.NoDup (od_keys (od_set new_addr d' (od_set old_addr d' devs))))
    by (do 2 apply od_set_NoDup; exact Hnd).
  assert (Hg_new : od_get new_addr devs' = Some d').
  { unfold devs', renamed_devices. rewrite od_get_del_ne by congruence.
    apply od_get_set_eq. }
  assert (Hg_old : od_get old_addr devs' = None).
  { unfold devs', renamed_devices. now apply od_get_del_eq. }
  assert (Hg_other : forall k, k <> new_addr -> k <> old_addr ->
                               od_get k devs' = od_get k devs).
  { intros k Hk1 Hk2. unfold devs', renamed_devices.
    rewrite od_get_del_ne, !od_get_set_ne by assumption. reflexivity. }
  assert (Hcase : forall k x, od_get k devs' = Some x ->
            (k = new_addr /\ x = d') \/
            (k <> new_addr /\ k <> old_addr /\ od_get k devs = Some x)).
  { intros k x Hx. destruct (decide (k = new_addr)) as [->|Hk1].
    - left. split; congruence.
    - destruct (decide (k = old_addr)) as [->|Hk2]; [congruence|].
      right. rewrite Hg_other in Hx by assumption. auto. }
  assert (Hi' : Device_ieee d' = Device_ieee d).
  { unfold d'. rewrite Device_update_ieee by exact Ht. congruence. }
  repeat split; try assumption.
  - unfold devs', renamed_devices. now apply od_del_NoDup.
  - intros k x Hx. destruct (Hcase _ _ Hx) as [[-> ->]|(_ & _ & Hx')].
    + now apply Device_update_addr.
    + now apply Hkey.
  - intros k1 k2 d1 d2 H1 H2 Ht1 Heq.
    destruct (Hcase _ _ H1) as [[-> ->]|(Hn1 & Ho1 & H1')];
      destruct (Hcase _ _ H2) as [[-> ->]|(Hn2 & Ho2 & H2')].
    + reflexivity.
    + exfalso. apply Ho2. symmetry. apply (Hu old_addr k2 d d2); congruence.
    + exfalso. apply Ho1. apply (Hu k1 old_addr d1 d); congruence.
    + now apply (Hu k1 k2 d1 d2).
Qed.

(** However a call of [_set_device] ends in a directory whose devices are
    bound to their own addresses: the device has no address and nothing
    has changed, or one of the three branches has run, the rename and add
    branches up to their refresh. *)
Lemma _set_device_outcome fuel ws device z r :
  dir_keyed (_devices z) ->
  _set_device fuel ws device z = Some r ->
  (Device_addr device = None /\ r = Raise KeyError z)
  \/ exists addr,
       Device_addr device = Some addr
       /\ ((exists existing,
              od_get addr (_devices z) = Some existing
              /\ r = Ok tt (after_update z addr (Device_update existing device)))
           \/ (exists slot d,
                 od_get addr (_devices z) = None
                 /\ get_device_from_ieee z (Device_ieee device) = Some (slot, d)
                 /\ refresh_device fuel ws addr
                      (after_rename z slot addr (Device_update d device)) = Some r)
           \/ (od_get addr (_devices z) = None
               /\ get_device_from_ieee z (Device_ieee device) = None
               /\ refresh_device fuel ws addr (after_add z addr device) = Some r)).
Proof.
  intros Hk Hrun.
  destruct (Device_addr device) as [addr|] eqn:Haddr.
  2: { left. split; [reflexivity|]. unfold _set_device in Hrun.
       run_waiting_in Hrun. run_method_in Hrun. rewrite Haddr in Hrun.
       now injection Hrun as <-. }
  right. exists addr. split; [reflexivity|].
  destruct (od_get addr (_devices z)) as [existing|] eqn:Hg.
  - left. exists existing. split; [reflexivity|].
    rewrite (_set_device_update_run fuel ws z device addr existing Haddr Hg) in Hrun.
    now injection Hrun as <-.
  - right.
    destruct (get_device_from_ieee z (Device_ieee device)) as [[slot d]|] eqn:Hf.
    + left. exists slot, d. split; [reflexivity|]. split; [reflexivity|].
      now rewrite <- (_set_device_rename_run fuel ws z device addr slot d Hk Haddr Hg Hf).
    + right. split; [reflexivity|]. split; [reflexivity|].
      now rewrite <- (_set_device_add_run fuel ws z device addr Haddr Hg Hf).
Qed.

(** However a call of [_set_device] ends, the directory still has one
    binding per address and each device under its own address. *)
Lemma _set_device_keyed fuel ws device z r :
  dir_keyed (_devices z) ->
  _set_device fuel ws device z = Some r ->
  dir_keyed (_devices (state_of r)).
Proof.
  intros Hk Hrun. pose proof Hk as [Hnd Hkey].
  destruct (_set_device_outcome fuel ws device z r Hk Hrun)
    as [[_ ->]|(addr & Haddr & [(existing & Hg & ->)
                               |[(slot & d & Hg & Hf & Hr)|(Hg & Hf & Hr)]])].
  - exact Hk.
  - cbn [state_of after_update _devices with_devices with_trace].
    apply od_set_keyed; [exact Hk | now apply Device_update_addr].
  - apply refresh_device_same in Hr as [(Hd & _) _]. rewrite Hd.
    cbn [after_rename _devices with_devices with_trace].
    destruct (get_device_from_ieee_Some _ _ _ _ Hnd Hf) as (_ & Hslot & _).
    apply (renamed_devices_keyed (_devices z) device addr slot d); assumption.
  - apply refresh_device_same in Hr as [(Hd & _) _]. rewrite Hd.
    cbn [after_add _devices with_devices with_trace].
    now apply od_set_keyed.
Qed.

Lemma need_refresh_loop eps : forall need,
  fold_left need_refresh_endpoint eps need
  = need || existsb (fun ep => bool_decide (device ep = PNone)
                               || bool_decide (in_clusters ep = None)) eps.
Proof.
  induction eps as [|ep eps IH]; intros need; cbn [fold_left existsb].
  - now rewrite orb_false_r.
  - rewrite IH. unfold need_refresh_endpoint.
    destruct need, (bool_decide (device ep = PNone)),
      (bool_decide (in_clusters ep = None)); reflexivity.
Qed.

(** An endpoint that [get_endpoint] creates has a device type and a
    cluster list. *)
Lemma get_endpoint_complete d endpoint_id :
  od_get endpoint_id (endpoints d) = None ->
  need_refresh_endpoint false (fst (get_endpoint d endpoint_id)) = false
  /\ od_get endpoint_id (endpoints (snd (get_endpoint d endpoint_id)))
     = Some default_endpoint.
Proof.
  intros Hg. unfold get_endpoint. rewrite Hg. cbn [fst snd endpoints].
  split; [reflexivity | apply od_get_set_eq].
Qed.

(** Whatever was announced, removed or tagged, the directory has one
    binding per address and each device is bound to its own address. *)
Lemma reachable_keyed z : reachable z -> dir_keyed (_devices z).
Proof.
  induction 1 as [|z r fuel ws device _ IH Hrun|z z' addr _ IH Hrun
                 |z z' now addr _ IH Hrun].
  - split; [constructor | discriminate].
  - exact (_set_device_keyed fuel ws device z r IH Hrun).
  - unfold _remove_device in Hrun. run_method_in Hrun.
    destruct (od_get addr (_devices z)) as [removed|]; [|discriminate].
    injection Hrun as <-. cbn [_devices with_devices with_trace].
    now apply od_del_keyed.
  - unfold _tag_missing in Hrun. run_method_in Hrun.
    destruct (Datetime.minus_24h now) as [cutoff|]; [|discriminate].
    run_method_in Hrun.
    destruct (od_get addr (_devices z)) as [tracked|] eqn:Hd;
      [|now injection Hrun as <-].
    destruct (truthy (Device_last_seen tracked)); [|now injection Hrun as <-].
    destruct (Device_last_seen tracked) as [| |s]; try discriminate.
    destruct (String.ltb s _); [|now injection Hrun as <-].
    injection Hrun as <-. cbn [_devices with_devices with_trace].
    apply od_set_keyed; [exact IH|]. destruct IH as [_ Hkey].
    exact (Hkey _ _ Hd).
Qed.

(** *** Tagging a device as missing *)

(** How the stored [last_seen] reads: nothing usable (no key, [None] or the
    empty string), or the print of the datetime the device was seen at. *)
Inductive last_seen_is (d : Device) : option datetime -> Prop :=
  | last_seen_absent :
      Device_last_seen d = PNone \/ Device_last_seen d = PStr EmptyString ->
      last_seen_is d None
  | last_seen_at ts :
      valid ts -> 1000 <= year ts ->
      Device_last_seen d = PStr (strftime ts) ->
      last_seen_is d (Some ts).

(** More than 24 hours lie between the two datetimes, counted in the whole
    seconds that the timestamps print. *)
Definition older_than_24h (now : datetime) (seen : option datetime) : Prop :=
  match seen with
  | Some ts => seconds_of now - seconds_of ts > 86400
  | None => False
  end.

(** The object after the device at [addr] was tagged: [missing] set, one
    "updated" signal more. *)
Definition tagged_missing (z : ZiGate) (addr : pyval) (d : Device) : ZiGate :=
  with_trace
    (with_devices z (od_set addr (set_missing d true) (_devices z)))
    (trace z ++ [Dispatched (ZIGATE_DEVICE_UPDATED (set_missing d true))]).

Lemma _tag_missing_run z now cutoff addr d :
  minus_24h now = Some cutoff ->
  od_get addr (_devices z) = Some d ->
  _tag_missing now addr z
  = match Device_last_seen d with
    | PNone => Ok tt z
    | PInt i => if i =? 0 then Ok tt z else Raise TypeError z
    | PStr s =>
        if String.eqb s EmptyString then Ok tt z
        else if String.ltb s (strftime cutoff) then Ok tt (tagged_missing z addr d)
        else Ok tt z
    end.
Proof.
  intros Hc Hd. unfold _tag_missing. run_method. rewrite Hc. run_method.
  rewrite Hd. destruct (Device_last_seen d) as [|i|s]; cbn [truthy].
  - reflexivity.
  - destruct (i =? 0); reflexivity.
  - destruct (String.eqb s EmptyString); cbn [negb]; [reflexivity|].
    destruct (String.ltb s (strftime cutoff)); reflexivity.
Qed.

End Directory.

(* ===================================================================== *)
(** ** The firmware upload session *)
(* ===================================================================== *)

Module Ota.

Export Requests.
Import Datetime.

(** The fields of an image block request (message 0x8501) that
    [_ota_send_image_data] reads with [request[key]]. *)
Record BlockRequest : Type := mkBlockRequest {
  request_addr : pyval;
  request_address_mode : Z;
  request_endpoint : Z;
  request_sequence : Z;
  request_file_offset : Z;
  request_image_version : Z;
  request_image_type : Z;
  request_manufacturer_code : Z;
  request_max_data_size : Z
}.

(** The field of an upgrade end request (message 0x8503) that
    [_ota_handle_upgrade_end_request] reads. *)
Record EndRequest : Type := mkEndRequest {
  request_status : Z
}.

(** [int(addr, 16)] on a string of hexadecimal digits; [None] is the
    [ValueError]. The sign, prefix, underscores and blanks that [int]
    also accepts are not covered: the model raises on them. *)
Fixpoint int_hex_loop (s : string) (acc : Z) : option Z :=
  match s with
  | EmptyString => Some acc
  | String c s' =>
      match hex_digit c with
      | Some d => int_hex_loop s' (acc * 16 + d)
      | None => None
      end
  end.

Definition int_hex (s : string) : option Z :=
  match s with
  | EmptyString => None
  | _ => int_hex_loop s 0
  end.

(** [ZiGate.__addr(addr)]: a string is read as hexadecimal, anything else
    is returned as it is. *)
Definition __addr (addr : pyval) : M pyval :=
  match addr with
  | PStr s => v ← lift ValueError (int_hex s); mret (PInt v)
  | _ => mret addr
  end.

(** [data[lo:hi]] with Python's rules for negative and oversized bounds. *)
Definition slice_index (n i : Z) : Z :=
  if i <? 0 then Z.max 0 (i + n) else Z.min i n.

Definition slice (b : bytes) (lo hi : Z) : bytes :=
  let lo := slice_index (len b) lo in
  let hi := slice_index (len b) hi in
  firstn (Z.to_nat (hi - lo)) (skipn (Z.to_nat lo) b).

(** [struct.pack('!BHBBBBLLHHB{}B'.format(data_size), ...)]; the address
    must be an [int]. The chunk comes out of a [bytes] object, so each of
    its elements packs as [B]. *)
Definition pack_image_block (address_mode : Z) (addr : pyval)
  (source_endpoint endpoint sequence ota_status file_offset image_version
   image_type manufacturer_code data_size : Z) (ota_data_to_send : bytes)
  : option bytes :=
  a ← pack_B address_mode;
  b ← match addr with PInt v => pack_H v | _ => None end;
  c ← pack_B source_endpoint;
  d ← pack_B endpoint;
  e ← pack_B sequence;
  f ← pack_B ota_status;
  g ← pack_L file_offset;
  h ← pack_L image_version;
  i ← pack_H image_type;
  j ← pack_H manufacturer_code;
  k ← pack_B data_size;
  Some (a ++ b ++ c ++ d ++ e ++ f ++ g ++ h ++ i ++ j ++ k ++ ota_data_to_send).

Definition with_transfered (o : OtaSession) (n : Z) : OtaSession :=
  {| image_header := image_header o; image_data := image_data o;
     active := active o; starttime := starttime o; transfered := n;
     ota_addr := ota_addr o |}.

(** [ZiGate._ota_reset_local_variables]. *)
Definition _ota_reset_local_variables : M unit :=
  modify (fun z => with_ota z _ota_reset_value).

(** [ZiGate.get_ota_status]: it only logs, but building the message
    measures the loaded data, subtracts the start time and divides by the
    image size. The division by [transfered] is guarded by the [try]. *)
Definition get_ota_status (now : datetime) : M unit :=
  z ← get;
  if active (_ota z) then
    image ← lift TypeError (image_data (_ota z));
    _ ← lift TypeError (starttime (_ota z));
    if len image =? 0 then raise ZeroDivisionError else mret tt
  else mret tt.

(** [ZiGate._ota_send_image_data(request)], with [now] the reading of
    [datetime.datetime.now()]. *)
Definition _ota_send_image_data (now : datetime) (request : BlockRequest)
  : M unit :=
  z ← get;
  match image_header (_ota z), image_data (_ota z) with
  | Some header, Some image =>
      let errors := false in
      let errors :=
        if negb (request_image_version request =? image_version header)
        then true else errors in
      let errors :=
        if negb (request_image_type request =? image_type header)
        then true else errors in
      let errors :=
        if negb (request_manufacturer_code request =? manufacturer_code header)
        then true else errors in
      if errors then mret tt
      else
        modify (fun z =>
          match starttime (_ota z), active (_ota z) with
          | None, false =>
              with_ota z {| image_header := image_header (_ota z);
                            image_data := image_data (_ota z);
                            active := true; starttime := Some now;
                            transfered := 0;
                            ota_addr := request_addr request |}
          | _, _ => z
          end);;
        let source_endpoint := 0x01 in
        let ota_status := 0x00 in
        modify (fun z => with_ota z (with_transfered (_ota z)
                                       (request_file_offset request)));;
        let end_position :=
          request_file_offset request + request_max_data_size request in
        let ota_data_to_send :=
          slice image (request_file_offset request) end_position in
        let data_size := len ota_data_to_send in
        get_ota_status now;;
        addr ← __addr (request_addr request);
        payload ← lift struct_error
          (pack_image_block (request_address_mode request) addr source_endpoint
             (request_endpoint request) (request_sequence request) ota_status
             (request_file_offset request) (image_version header)
             (image_type header) (manufacturer_code header)
             data_size ota_data_to_send);
        send_data_no_wait 0x0502 payload;;
        mret tt
  | _, _ => mret tt
  end.

(** [ZiGate._ota_handle_upgrade_end_request(request)]: the branches on the
    status only log; the one for [0x00] prints the seconds since the
    start. *)
Definition _ota_handle_upgrade_end_request (now : datetime) (request : EndRequest)
  : M unit :=
  z ← get;
  if active (_ota z) then
    (if request_status request =? 0x00
     then _ ← lift TypeError (starttime (_ota z)); mret tt
     else mret tt);;
    _ota_reset_local_variables
  else mret tt.

(** What the session keeps true of itself: a transfer that is active has
    its start time, and an image that is loaded is not empty
    ([ota_load_image] refuses files shorter than the 69 bytes of a
    header). *)
Definition ota_consistent (o : OtaSession) : Prop :=
  (active o = true -> starttime o <> None)
  /\ (forall image, image_data o = Some image -> image <> []).

(** *** Facts about the session *)

(** The number [__addr] makes of an address. *)
Definition addr_value (addr : pyval) : option Z :=
  match addr with
  | PStr s => int_hex s
  | PInt v => Some v
  | PNone => None
  end.

(** A block request as it comes off the wire: one byte each for address
    mode, endpoint, sequence number and maximum data size, two for the
    short address, image type and manufacturer code, four for offset and
    image version. *)
Definition request_wf (request : BlockRequest) (a : Z) : Prop :=
  addr_value (request_addr request) = Some a /\ 0 <= a < 65536
  /\ is_byte (request_address_mode request)
  /\ is_byte (request_endpoint request)
  /\ is_byte (request_sequence request)
  /\ 0 <= request_file_offset request < 4294967296
  /\ 0 <= request_image_version request < 4294967296
  /\ 0 <= request_image_type request < 65536
  /\ 0 <= request_manufacturer_code request < 65536
  /\ is_byte (request_max_data_size request).

(** The request names the image that is loaded. *)
Definition request_matches (request : BlockRequest) (header : ImageHeader) : Prop :=
  request_image_version request = image_version header
  /\ request_image_type request = image_type header
  /\ request_manufacturer_code request = manufacturer_code header.

(** The payload of the image block response (command 0x0502). *)
Definition block_payload (request : BlockRequest) (a : Z) (header : ImageHeader)
  (chunk : bytes) : bytes :=
  [request_address_mode request] ++ be16 a ++ [0x01]
  ++ [request_endpoint request] ++ [request_sequence request] ++ [0x00]
  ++ be32 (request_file_offset request) ++ be32 (image_version header)
  ++ be16 (image_type header) ++ be16 (manufacturer_code header)
  ++ [len chunk] ++ chunk.

(** The session once a block request was served at [now]. *)
Definition serving (now : datetime) (request : BlockRequest) (o : OtaSession)
  : OtaSession :=
  with_transfered
    (match starttime o, active o with
     | None, false =>
         {| image_header := image_header o; image_data := image_data o;
            active := true; starttime := Some now; transfered := 0;
            ota_addr := request_addr request |}
     | _, _ => o
     end)
    (request_file_offset request).

Lemma slice_nonneg b lo n :
  0 <= lo -> 0 <= n ->
  slice b lo (lo + n) = firstn (Z.to_nat n) (skipn (Z.to_nat lo) b).
Proof.
  intros Hlo Hn. unfold slice, slice_index, len.
  destruct (Z.ltb_spec lo 0); [lia|]. destruct (Z.ltb_spec (lo + n) 0); [lia|].
  destruct (Z_le_gt_dec lo (Z.of_nat (List.length b))) as [Hin|Hout].
  - rewrite (Z.min_l lo) by lia.
    destruct (Z_le_gt_dec (lo + n) (Z.of_nat (List.length b))).
    + rewrite Z.min_l by lia. f_equal. lia.
    + rewrite Z.min_r by lia.
      rewrite !firstn_all2; [reflexivity| |]; rewrite length_skipn; lia.
  - rewrite !Z.min_r by lia. rewrite !skipn_all2 by lia.
    now rewrite !firstn_nil.
Qed.

Lemma slice_short b lo n :
  0 <= lo -> 0 <= n -> len (slice b lo (lo + n)) <= n.
Proof.
  intros Hlo Hn. rewrite slice_nonneg by assumption. unfold len.
  pose proof (firstn_le_length (Z.to_nat n) (skipn (Z.to_nat lo) b)). lia.
Qed.

Lemma slice_bytes b lo hi : bytes_ok b -> bytes_ok (slice b lo hi).
Proof.
  intros Hb. unfold slice, bytes_ok in *. now apply Forall_take, Forall_drop.
Qed.

Lemma pack_image_block_ok request a header chunk :
  request_wf request a -> request_matches request header ->
  len chunk <= request_max_data_size request ->
  pack_image_block (request_address_mode request) (PInt a) 0x01
    (request_endpoint request) (request_sequence request) 0x00
    (request_file_offset request) (image_version header) (image_type header)
    (manufacturer_code header) (len chunk) chunk
  = Some (block_payload request a header chunk).
Proof.
  intros (_ & Ha & Hm & He & Hs & Ho & Hv & Ht & Hc & Hx) (Ev & Et & Ec) Hl.
  rewrite Ev in Hv. rewrite Et in Ht. rewrite Ec in Hc.
  assert (Hk : is_byte (len chunk)) by (unfold is_byte, len in *; lia).
  unfold pack_image_block.
  rewrite !pack_B_ok, (pack_H_ok a), !pack_L_ok, !pack_H_ok
    by (assumption || (unfold is_byte; lia)).
  reflexivity.
Qed.

Lemma block_payload_bytes request a header chunk :
  request_wf request a -> request_matches request header ->
  bytes_ok chunk -> len chunk <= request_max_data_size request ->
  bytes_ok (block_payload request a header chunk)
  /\ len (block_payload request a header chunk) < 65536.
Proof.
  intros (_ & Ha & Hm & He & Hs & Ho & Hv & Ht & Hc & Hx) (Ev & Et & Ec) Hb Hl.
  rewrite Ev in Hv. rewrite Et in Ht. rewrite Ec in Hc.
  assert (Hk : is_byte (len chunk)) by (unfold is_byte, len in *; lia).
  split.
  - unfold block_payload, bytes_ok.
    repeat (apply Forall_app; split);
      try (now apply be16_bytes); try (now apply be32_bytes); try exact Hb;
      unfold is_byte in *; repeat constructor; lia.
  - unfold block_payload, len in *. rewrite !length_app. cbn [List.length be16 be32].
    unfold is_byte in *. lia.
Qed.

Lemma __addr_run addr a z :
  addr_value addr = Some a -> __addr addr z = Ok (PInt a) z.
Proof.
  destruct addr as [|v|s]; cbn [addr_value]; intros Ha; try discriminate.
  - now injection Ha as ->.
  - unfold __addr. run_method. rewrite Ha. reflexivity.
Qed.

Lemma get_ota_status_ok now z image :
  ota_consistent (_ota z) -> image_data (_ota z) = Some image ->
  get_ota_status now z = Ok tt z.
Proof.
  intros [Hst Hdata] Himg. unfold get_ota_status. run_method.
  destruct (active (_ota z)) eqn:Hact; [|reflexivity].
  rewrite Himg. run_method.
  destruct (starttime (_ota z)) eqn:Hs; [|now exfalso; apply Hst].
  run_method. specialize (Hdata _ Himg).
  destruct (Z.eqb_spec (len image) 0) as [Hz|_]; [|reflexivity].
  destruct image; [congruence | discriminate].
Qed.

Lemma serving_consistent now request o :
  ota_consistent o -> ota_consistent (serving now request o).
Proof.
  intros [Hst Hdata]. unfold serving, with_transfered, ota_consistent.
  destruct (starttime o) eqn:Hs, (active o) eqn:Ha;
    cbn [active starttime image_data]; rewrite ?Hs, ?Ha; split;
    solve [ congruence | exact Hdata | intros _; now apply Hst ].
Qed.

Lemma serving_image now request o :
  image_header (serving now request o) = image_header o
  /\ image_data (serving now request o) = image_data o
  /\ transfered (serving now request o) = request_file_offset request.
Proof.
  unfold serving, with_transfered.
  destruct (starttime o), (active o); repeat split; reflexivity.
Qed.

(** A request for another image than the loaded one is dropped. *)
Lemma _ota_send_image_data_mismatch now request z header image :
  image_header (_ota z) = Some header -> image_data (_ota z) = Some image ->
  ~ request_matches request header ->
  _ota_send_image_data now request z = Ok tt z.
Proof.
  intros Hh Hd Hno. unfold _ota_send_image_data. run_method. rewrite Hh, Hd.
  destruct (Z.eqb_spec (request_image_version request) (image_version header));
    destruct (Z.eqb_spec (request_image_type request) (image_type header));
    destruct (Z.eqb_spec (request_manufacturer_code request) (manufacturer_code header));
    cbn [negb]; try reflexivity.
  exfalso. apply Hno. repeat split; assumption.
Qed.

(** A request for the loaded image is answered with the chunk asked for. *)
Lemma _ota_send_image_data_run now request z header image a :
  image_header (_ota z) = Some header -> image_data (_ota z) = Some image ->
  ota_consistent (_ota z) -> bytes_ok image ->
  request_wf request a -> request_matches request header ->
  is_connected (connection z) = true ->
  _ota_send_image_data now request z
  = Ok tt (frame_sent 0x0502
             (block_payload request a header
                (slice image (request_file_offset request)
                       (request_file_offset request + request_max_data_size request)))
             None
             (with_ota z (serving now request (_ota z)))).
Proof.
  intros Hh Hd Hcons Hb Hwf Hmatch Hconn.
  pose proof Hwf as (Haddr & _ & _ & _ & _ & Ho & _ & _ & _ & Hx).
  pose proof Hmatch as (Ev & Et & Ec).
  set (chunk := slice image (request_file_offset request)
                  (request_file_offset request + request_max_data_size request)).
  assert (Hlen : len chunk <= request_max_data_size request)
    by (apply slice_short; unfold is_byte in Hx; lia).
  pose proof (block_payload_bytes request a header chunk Hwf Hmatch
                (slice_bytes _ _ _ Hb) Hlen) as [Hpb Hpl].
  unfold _ota_send_image_data. run_method. rewrite Hh, Hd, Ev, Et, Ec, !Z.eqb_refl.
  cbn [negb]. run_method.
  set (z1 := with_ota _ (with_transfered _ _)).
  assert (Hz1 : z1 = with_ota z (serving now request (_ota z))).
  { subst z1. unfold serving. destruct (starttime (_ota z)), (active (_ota z)); reflexivity. }
  rewrite Hz1.
  rewrite (get_ota_status_ok now _ image).
  2: { cbn [_ota with_ota]. now apply serving_consistent. }
  2: { cbn [_ota with_ota]. destruct (serving_image now request (_ota z)) as (_ & -> & _).
       exact Hd. }
  rewrite (__addr_run _ a) by exact Haddr.
  fold chunk. rewrite (pack_image_block_ok request a header chunk Hwf Hmatch Hlen).
  unfold send_data_no_wait. run_method.
  rewrite send_frame_run; [reflexivity| | lia | exact Hpb | exact Hpl].
  exact Hconn.
Qed.

(** *** The session stays consistent *)

Lemma send_frame_ota cmd byte_data wait_response z :
  _ota (state_of (send_frame cmd byte_data wait_response z)) = _ota z.
Proof.
  unfold send_frame, _clear_response, send_to_transport, pack_msg. run_method.
  destruct wait_response as [m|]; [destruct (m =? 0)|];
    destruct (pack_H cmd); cbn; try reflexivity;
    destruct (pack_H (len byte_data)); cbn; try reflexivity;
    destruct (pack_B _); cbn; try reflexivity;
    destruct (is_connected (connection z)); reflexivity.
Qed.

Lemma get_ota_status_state now z : state_of (get_ota_status now z) = z.
Proof.
  unfold get_ota_status. run_method.
  destruct (active (_ota z)); [|reflexivity].
  destruct (image_data (_ota z)); [|reflexivity]. run_method.
  destruct (starttime (_ota z)); [|reflexivity]. run_method.
  destruct (len _ =? 0); reflexivity.
Qed.

Lemma __addr_state addr z : state_of (__addr addr z) = z.
Proof.
  destruct addr as [|v|s]; try reflexivity.
  unfold __addr. run_method. destruct (int_hex s); reflexivity.
Qed.

Lemma _ota_send_image_data_ota now request z :
  _ota (state_of (_ota_send_image_data now request z)) = _ota z
  \/ _ota (state_of (_ota_send_image_data now request z))
     = serving now request (_ota z).
Proof.
  unfold _ota_send_image_data. run_method.
  destruct (image_header (_ota z)) as [header|]; [|now left].
  destruct (image_data (_ota z)) as [image|]; [|now left].
  destruct (negb (request_image_version request =? image_version header)),
    (negb (request_image_type request =? image_type header)),
    (negb (request_manufacturer_code request =? manufacturer_code header));
    cbv zeta iota; try (now left).
  right. run_method.
  set (z1 := with_ota _ (with_transfered _ _)).
  assert (Hz1 : _ota z1 = serving now request (_ota z)).
  { subst z1. unfold serving.
    destruct (starttime (_ota z)), (active (_ota z)); reflexivity. }
  pose proof (get_ota_status_state now z1) as Hg.
  destruct (get_ota_status now z1) as [[] z2|e z2]; cbn [state_of] in Hg; subst z2;
    [|exact Hz1].
  pose proof (__addr_state (request_addr request) z1) as Ha.
  destruct (__addr (request_addr request) z1) as [addr z2|e z2];
    cbn [state_of] in Ha; subst z2; [|exact Hz1].
  destruct (pack_image_block _ _ _ _ _ _ _ _ _ _ _ _) as [payload|];
    [|exact Hz1].
  unfold send_data_no_wait. run_method.
  pose proof (send_frame_ota 0x0502 payload None z1) as Hs.
  destruct (send_frame 0x0502 payload None z1) as [[] z2|e z2];
    cbn [state_of] in Hs |- *; congruence.
Qed.

(** The session is consistent when the driver starts and stays so through
    every block request and every upgrade end request, also when one of
    them raises. *)
Lemma ota_consistent_invariant :
  ota_consistent (_ota init_ZiGate)
  /\ (forall now request z,
        ota_consistent (_ota z) ->
        ota_consistent (_ota (state_of (_ota_send_image_data now request z))))
  /\ (forall now request z,
        ota_consistent (_ota z) ->
        ota_consistent (_ota (state_of (_ota_handle_upgrade_end_request now request z)))).
Proof.
  assert (H0 : ota_consistent _ota_reset_value) by (split; discriminate).
  split; [exact H0|]. split.
  - intros now request z Hc.
    destruct (_ota_send_image_data_ota now request z) as [-> | ->];
      [exact Hc | now apply serving_consistent].
  - intros now request z Hc.
    unfold _ota_handle_upgrade_end_request, _ota_reset_local_variables. run_method.
    destruct (active (_ota z)); [|exact Hc].
    destruct (request_status request =? 0); [|exact H0].
    destruct (starttime (_ota z)); [exact H0 | exact Hc].
Qed.

End Ota.

(* ===================================================================== *)
(** ** Housekeeping and the handlers of inbound messages *)
(* ===================================================================== *)

Module Handlers.

Export Directory.
Export Ota.

(** [ZiGate.get_device_from_addr(addr)]: [self._devices.get(addr)]. *)
Definition get_device_from_addr (z : ZiGate) (addr : pyval) : option Device :=
  od_get addr (_devices z).

(** The truth value of a device in [if d:] and [not d] is that of
    [Device.__len__], the number of keys of [info]: an empty [info] is false. *)
Definition Device_bool (d : Device) : bool := negb (bool_decide (info d = ∅)).

(** [ZiGate.get_missing]. *)
Definition get_missing (z : ZiGate) : list Device :=
  List.filter missing (od_values (_devices z)).

(** [for a in l: f(a)]. *)
Fixpoint for_each {A} (f : A -> M unit) (l : list A) : M unit :=
  match l with
  | [] => mret tt
  | a :: l' => f a;; for_each f l'
  end.

(** The list comprehension [[f(a) for a in l]]. *)
Fixpoint comprehension {A B} (f : A -> M B) (l : list A) : M (list B) :=
  match l with
  | [] => mret []
  | a :: l' => b ← f a; bs ← comprehension f l'; mret (b :: bs)
  end.

(** [ZiGate.cleanup_devices]: the addresses are collected first, then the
    devices are removed one by one. *)
Definition cleanup_devices : M unit :=
  z ← get;
  to_remove ← comprehension (fun device => lift KeyError (Device_addr device))
                            (get_missing z);
  for_each _remove_device to_remove.

(** [ZiGate.get_devices_list(wait)]; the result of [send_data] is dropped. *)
Definition get_devices_list (fuel : nat) (w_status w_response : world)
  (wait : bool) (z : ZiGate) : option (result unit) :=
  let wait_response := if wait then Some 0x8015 else None in
  match send_data fuel w_status w_response 0x0015 [] wait_response true z with
  | None => None
  | Some (Ok _ z') => Some (Ok tt z')
  | Some (Raise e z') => Some (Raise e z')
  end.

(** [ZiGate._get_device(addr)]: the device at [addr], created when the
    directory has none or one that is empty. The two waits of
    [_set_device] come first, then the wait of [get_devices_list]. *)
Definition _get_device (fuel : nat) (ws : worlds) (addr : pyval) : W Device :=
  z ← W_of get;
  let create :=
    let d := new_Device {[ "addr"%string := addr ]} in
    _set_device fuel ws d;;
    get_devices_list fuel (ws 2%nat) (ws 2%nat) false;;
    mret d in
  match get_device_from_addr z addr with
  | Some d => if Device_bool d then mret d else create
  | None => create
  end.



(** [ZiGate.erase_persistent] and [ZiGate.factory_reset]: the directory is
    emptied, then the command is sent. *)
Definition erase_persistent (fuel : nat) (w_status w_response : world) (z : ZiGate)
  : option (result sent_result) :=
  send_data fuel w_status w_response 0x0012 [] None true (with_devices z []).

Definition factory_reset (fuel : nat) (w_status w_response : world) (z : ZiGate)
  : option (result sent_result) :=
  send_data fuel w_status w_response 0x0013 [] None true (with_devices z []).

(** *** Removing several devices *)

(** The signal of one removal. *)
Definition removed (kd : pyval * Device) : effect :=
  Dispatched (ZIGATE_DEVICE_REMOVED (fst kd) (snd kd)).

Lemma comprehension_addr (l : odict pyval Device) z :
  (forall kd, In kd l -> Device_addr (snd kd) = Some (fst kd)) ->
  comprehension (fun device => lift KeyError (Device_addr device)) (map snd l) z
  = Ok (map fst l) z.
Proof.
  set (f := fun device => lift KeyError (Device_addr device)).
  induction l as [|[k d] l IH]; intros Hkey; cbn [map comprehension fst snd].
  - reflexivity.
  - pose proof (Hkey (k, d) (or_introl eq_refl)) as Hk. cbn [fst snd] in Hk.
    unfold mbind, M_bind, bind. unfold f at 1. rewrite Hk. cbn [lift]. unfold ret at 1.
    rewrite IH by (intros kd Hin; apply Hkey; now right).
    reflexivity.
Qed.

Lemma for_each_remove_run (l : odict pyval Device) : forall z,
  List.NoDup (map fst l) ->
  (forall kd, In kd l -> od_get (fst kd) (_devices z) = Some (snd kd)) ->
  for_each _remove_device (map fst l) z
  = Ok tt (with_trace
             (with_devices z (fold_left (fun acc k => od_del k acc) (map fst l)
                                        (_devices z)))
             (trace z ++ map removed l)).
Proof.
  induction l as [|[k d] l IH]; intros z Hnd Hget; cbn [map for_each fold_left fst].
  - rewrite app_nil_r. destruct z; reflexivity.
  - apply List.NoDup_cons_iff in Hnd as [Hni Hnd].
    pose proof (Hget (k, d) (or_introl eq_refl)) as Hk. cbn [fst snd] in Hk.
    assert (Hone : _remove_device k z
                   = Ok tt (with_trace (with_devices z (od_del k (_devices z)))
                                       (trace z ++ [removed (k, d)]))).
    { unfold _remove_device. run_method. rewrite Hk. reflexivity. }
    unfold mbind, M_bind, bind. rewrite Hone, IH.
    + cbn [_devices with_devices with_trace trace map]. rewrite <- app_assoc.
      reflexivity.
    + exact Hnd.
    + intros [k' d'] Hin. cbn [fst snd _devices with_devices with_trace].
      rewrite od_get_del_ne.
      * apply (Hget (k', d')). now right.
      * intros ->. apply Hni. exact (in_map fst l (k, d') Hin).
Qed.

Lemma fold_del_head (ks : list pyval) : forall (k : pyval) (d : Device) devs,
  ~ In k ks ->
  fold_left (fun acc k => od_del k acc) ks ((k, d) :: devs)
  = (k, d) :: fold_left (fun acc k => od_del k acc) ks devs.
Proof.
  induction ks as [|k0 ks IH]; intros k d devs Hni; cbn [fold_left]; [reflexivity|].
  cbn [od_del]. destruct (decide (k0 = k)) as [->|Hne].
  - exfalso. apply Hni. now left.
  - apply IH. intros Hin. apply Hni. now right.
Qed.

Lemma fold_del_filter (p : pyval * Device -> bool) (devs : odict pyval Device) :
  List.NoDup (od_keys devs) ->
  fold_left (fun acc k => od_del k acc) (map fst (List.filter p devs)) devs
  = List.filter (fun kd => negb (p kd)) devs.
Proof.
  induction devs as [|[k d] devs IH]; [reflexivity|].
  cbn [od_keys map fst]. intros Hnd. apply List.NoDup_cons_iff in Hnd as [Hni Hnd].
  cbn [List.filter]. destruct (p (k, d)); cbn [negb map fold_left fst].
  - cbn [od_del]. destruct (decide (k = k)); [|congruence]. now apply IH.
  - rewrite fold_del_head; [f_equal; now apply IH|].
    intros Hin. apply Hni. apply in_map_iff in Hin as (kd & <- & Hkd).
    apply List.filter_In in Hkd as [Hkd _]. now apply in_map.
Qed.

Lemma NoDup_keys_filter (p : pyval * Device -> bool) (devs : odict pyval Device) :
  List.NoDup (map fst devs) -> List.NoDup (map fst (List.filter p devs)).
Proof.
  induction devs as [|kd devs IH]; cbn [map List.filter]; [trivial|].
  intros Hnd. apply List.NoDup_cons_iff in Hnd as [Hni Hnd].
  destruct (p kd); cbn [map]; [|now apply IH].
  apply List.NoDup_cons_iff. split; [|now apply IH].
  intros Hin. apply Hni. apply in_map_iff in Hin as (kd' & <- & Hkd).
  apply List.filter_In in Hkd as [Hkd _]. now apply in_map.
Qed.

Lemma filter_values (p : Device -> bool) (devs : odict pyval Device) :
  List.filter p (od_values devs) = map snd (List.filter (fun kd => p (snd kd)) devs).
Proof.
  induction devs as [|[k d] devs IH]; [reflexivity|].
  cbn [od_values map List.filter snd]. fold (od_values devs). rewrite IH.
  destruct (p d); reflexivity.
Qed.

(** [cleanup_devices] on a directory whose devices are bound to their own
    addresses. *)
Lemma cleanup_devices_run z :
  dir_keyed (_devices z) ->
  cleanup_devices z
  = Ok tt (with_trace
             (with_devices z (List.filter (fun kd => negb (missing (snd kd)))
                                          (_devices z)))
             (trace z ++ map removed
                           (List.filter (fun kd => missing (snd kd)) (_devices z)))).
Proof.
  intros [Hnd Hkey]. unfold cleanup_devices, get_missing. run_method.
  rewrite filter_values.
  rewrite comprehension_addr.
  2: { intros [k d] Hin. cbn [fst snd]. apply List.filter_In in Hin as [Hin _].
       apply Hkey. now apply od_In_get. }
  rewrite for_each_remove_run.
  - now rewrite (fold_del_filter (fun kd => missing (snd kd))).
  - now apply NoDup_keys_filter.
  - intros [k d] Hin. cbn [fst snd]. apply List.filter_In in Hin as [Hin _].
    now apply od_In_get.
Qed.

End Handlers.

(* ===================================================================== *)
(** ** The device list *)
(* ===================================================================== *)

Module DeviceList.

Export Handlers.
Import Datetime.

(** The IEEE of a slot of the device table that holds no device. *)
Definition zero_ieee : pyval := PStr "0000000000000000".

(** The body of the loop [for d in response['devices']] of the device
    list branch (0x8015) of [interpret_response]. *)
Definition set_reported (fuel : nat) (ws : worlds) (d : gmap string pyval)
  : W unit :=
  ieee ← W_of (lift KeyError (d !! "ieee"%string));
  if bool_decide (ieee = zero_ieee) then mret tt
  else _set_device fuel ws (new_Device d).

(** [for a in l: f(a)] for a body with up to [waits] waits: each round has
    its own worlds. *)
Fixpoint for_each_waiting {A} (waits : nat) (f : worlds -> A -> W unit)
  (ws : worlds) (l : list A) : W unit :=
  match l with
  | [] => mret tt
  | a :: l' => f ws a;; for_each_waiting waits f (later waits ws) l'
  end.

(** The device list branch of [interpret_response]. [missing] is the set
    [keys.difference(known_addr)]; Python iterates a set in an order of its
    own, so the addresses that are tagged come as the list [missing_order],
    and what is proved holds for every such list. *)
Definition interpret_device_list (now : datetime) (fuel : nat) (ws : worlds)
  (missing_order : list pyval) (devices : list (gmap string pyval)) : W unit :=
  _ ← W_of (comprehension (fun d => lift KeyError (d !! "addr"%string)) devices);
  W_of (for_each (_tag_missing now) missing_order);;
  for_each_waiting 2 (fun ws => set_reported fuel ws) ws devices.

(** Two directories with the same addresses in the same order, whose
    devices differ at most in the tag [missing]. *)
Definition same_but_missing (devs devs' : odict pyval Device) : Prop :=
  od_keys devs' = od_keys devs
  /\ forall k d', od_get k devs' = Some d' ->
                  exists d, od_get k devs = Some d /\ info d' = info d.

Lemma same_but_missing_refl devs : same_but_missing devs devs.
Proof. split; [reflexivity|]. intros k d' Hd. now exists d'. Qed.

Lemma same_but_missing_trans devs1 devs2 devs3 :
  same_but_missing devs1 devs2 -> same_but_missing devs2 devs3 ->
  same_but_missing devs1 devs3.
Proof.
  intros [Hk1 Hg1] [Hk2 Hg2]. split; [congruence|].
  intros k d3 H3. destruct (Hg2 _ _ H3) as (d2 & H2 & Hi2).
  destruct (Hg1 _ _ H2) as (d1 & H1 & Hi1). exists d1. split; congruence.
Qed.

Lemma same_but_missing_keyed devs devs' :
  same_but_missing devs devs' -> dir_keyed devs -> dir_keyed devs'.
Proof.
  intros [Hk Hg] [Hnd Hkey]. split; [now rewrite Hk|].
  intros k d' Hd'. destruct (Hg _ _ Hd') as (d & Hd & Hi).
  unfold Device_addr. rewrite Hi. now apply Hkey.
Qed.

Lemma same_but_missing_length devs devs' :
  same_but_missing devs devs' -> List.length devs' = List.length devs.
Proof.
  intros [Hk _]. apply (f_equal (@List.length pyval)) in Hk.
  unfold od_keys in Hk. now rewrite !length_map in Hk.
Qed.

(** No tracked device has a number for [last_seen]. *)
Definition last_seen_printed (devs : odict pyval Device) : Prop :=
  forall k d i, od_get k devs = Some d -> Device_last_seen d <> PInt i.

Lemma same_but_missing_printed devs devs' :
  same_but_missing devs devs' -> last_seen_printed devs -> last_seen_printed devs'.
Proof.
  intros [_ Hg] Hp k d' i Hd'. destruct (Hg _ _ Hd') as (d & Hd & Hi).
  unfold Device_last_seen. rewrite Hi. exact (Hp k d i Hd).
Qed.

Lemma _tag_missing_keeps now cutoff addr z :
  minus_24h now = Some cutoff -> last_seen_printed (_devices z) ->
  exists z',
    _tag_missing now addr z = Ok tt z'
    /\ same_but_missing (_devices z) (_devices z')
    /\ connection z' = connection z.
Proof.
  intros Hc Hp.
  destruct (od_get addr (_devices z)) as [d|] eqn:Hd.
  2: { exists z. split; [|split; [apply same_but_missing_refl | reflexivity]].
       unfold _tag_missing. run_method. rewrite Hc. run_method. now rewrite Hd. }
  rewrite (_tag_missing_run z now cutoff addr d Hc Hd).
  pose proof (Hp addr d) as Hint.
  assert (Htagged : same_but_missing (_devices z) (_devices (tagged_missing z addr d))).
  { unfold tagged_missing. cbn [_devices with_devices with_trace]. split.
    - rewrite od_keys_set, Hd. reflexivity.
    - intros k d' Hd'. destruct (decide (k = addr)) as [->|Hk].
      + rewrite od_get_set_eq in Hd'. injection Hd' as <-. now exists d.
      + rewrite od_get_set_ne in Hd' by exact Hk. now exists d'. }
  destruct (Device_last_seen d) as [|i|s].
  - exists z. split; [reflexivity|]. split; [apply same_but_missing_refl | reflexivity].
  - exfalso. now apply (Hint i).
  - destruct (String.eqb s EmptyString).
    + exists z. split; [reflexivity|].
      split; [apply same_but_missing_refl | reflexivity].
    + destruct (String.ltb s (strftime cutoff)).
      * eexists. split; [reflexivity|]. split; [exact Htagged | reflexivity].
      * exists z. split; [reflexivity|].
        split; [apply same_but_missing_refl | reflexivity].
Qed.

Lemma tag_each now cutoff (order : list pyval) : forall z,
  minus_24h now = Some cutoff -> last_seen_printed (_devices z) ->
  exists z',
    for_each (_tag_missing now) order z = Ok tt z'
    /\ same_but_missing (_devices z) (_devices z')
    /\ connection z' = connection z.
Proof.
  induction order as [|addr order IH]; intros z Hc Hp.
  - exists z. split; [reflexivity|]. split; [apply same_but_missing_refl | reflexivity].
  - destruct (_tag_missing_keeps now cutoff addr z Hc Hp) as (z1 & Hrun & Hsame & Hc1).
    destruct (IH z1 Hc (same_but_missing_printed _ _ Hsame Hp))
      as (z' & Hrest & Hsame' & Hc').
    exists z'. split; [|split; [exact (same_but_missing_trans _ _ _ Hsame Hsame')
                              | congruence]].
    cbn [for_each]. unfold mbind, M_bind, bind. now rewrite Hrun.
Qed.

(** One call of [_set_device] in a directory whose devices are bound to
    their own addresses, over a connected transport, for an address that
    spells bytes and with clocks that move on: it returns; the device is
    tracked under its address and carries what was announced; a device
    under another address is as before, unless it is the one that carried
    the announced IEEE and was moved. *)
Lemma _set_device_step ws device addr payload z N :
  dir_keyed (_devices z) -> Device_addr device = Some addr ->
  is_connected (connection z) = true ->
  hex_payload addr payload ->
  clocks_move_on N ws ->
  exists z',
    (forall fuel, (N < fuel)%nat -> _set_device fuel ws device z = Some (Ok tt z'))
    /\ dir_keyed (_devices z')
    /\ is_connected (connection z') = true
    /\ (List.length (_devices z) <= List.length (_devices z'))%nat
    /\ (exists d', od_get addr (_devices z') = Some d' /\ info device ⊆ info d')
    /\ (forall k d, od_get k (_devices z) = Some d -> k <> addr ->
                    truthy (Device_ieee device) = false
                    \/ Device_ieee d <> Device_ieee device ->
                    od_get k (_devices z') = Some d).
Proof.
  intros Hk Haddr Hconn Hhex Hlate. pose proof Hk as [Hnd Hkey].
  destruct (od_get addr (_devices z)) as [existing|] eqn:Hg.
  - (* update *)
    eexists. split.
    { intros fuel _. apply (_set_device_update_run fuel ws z device addr existing Haddr Hg). }
    cbn [after_update _devices with_devices with_trace connection].
    split; [apply od_set_keyed; [exact Hk | now apply Device_update_addr]|].
    split; [exact Hconn|].
    split; [rewrite od_length_set_old by congruence; lia|]. split.
    + eexists. split; [apply od_get_set_eq|]. unfold Device_update. cbn [info].
      apply map_union_subseteq_l.
    + intros k d Hd Hne _. now rewrite od_get_set_ne.
  - destruct (get_device_from_ieee z (Device_ieee device)) as [[slot d]|] eqn:Hf.
    + (* rename *)
      destruct (get_device_from_ieee_Some _ _ _ _ Hnd Hf) as (Ht & Hslot & Hp).
      set (d' := Device_update d device).
      destruct (renamed_devices_keyed (_devices z) device addr slot d Hk Haddr Hg Hslot)
        as (Hnew & Hold & Hother & Hlen & Hk').
      fold d' in Hnew, Hold, Hother, Hlen, Hk'.
      destruct (refresh_device_run ws addr payload (after_rename z slot addr d') N
                  Hconn Hhex Hlate) as (z' & Hrun & (Hd & _) & Hc & _).
      cbn [after_rename _devices with_devices with_trace] in Hd.
      exists z'. split.
      { intros fuel Hf'.
        rewrite (_set_device_rename_run fuel ws z device addr slot d Hk Haddr Hg Hf).
        exact (Hrun fuel Hf'). }
      rewrite Hd. split; [exact Hk'|]. split; [exact Hc|].
      split; [rewrite Hlen; lia|]. split.
      * exists d'. split; [exact Hnew|].
        unfold d', Device_update. cbn [info]. apply map_union_subseteq_l.
      * intros k x Hx Hk1 Hi.
        assert (Hk2 : k <> slot).
        { intros ->. rewrite Hslot in Hx. injection Hx as <-.
          destruct Hi as [Hi|Hi]; [congruence | now apply Hi]. }
        now rewrite Hother.
    + (* add *)
      destruct (refresh_device_run ws addr payload (after_add z addr device) N
                  Hconn Hhex Hlate) as (z' & Hrun & (Hd & _) & Hc & _).
      cbn [after_add _devices with_devices with_trace] in Hd.
      exists z'. split.
      { intros fuel Hf'.
        rewrite (_set_device_add_run fuel ws z device addr Haddr Hg Hf).
        exact (Hrun fuel Hf'). }
      rewrite Hd. split; [now apply od_set_keyed|]. split; [exact Hc|].
      split; [rewrite od_length_set_new by exact Hg; lia|]. split.
      * exists device. split; [apply od_get_set_eq | reflexivity].
      * intros k d Hd' Hne _. now rewrite od_get_set_ne.
Qed.

(** The reported entries that stand for a device. *)
Definition reported_real (d : gmap string pyval) : bool :=
  negb (bool_decide (d !! "ieee"%string = Some zero_ieee)).

Lemma comprehension_lift {A B} (e : exn) (g : A -> option B) (l : list A) z :
  (forall a, In a l -> g a <> None) ->
  exists bs, comprehension (fun a => lift e (g a)) l z = Ok bs z.
Proof.
  set (f := fun a => lift e (g a)).
  induction l as [|a l IH]; intros Hall; cbn [comprehension].
  - now eexists.
  - destruct IH as [bs Hbs]; [intros x Hx; apply Hall; now right|].
    destruct (g a) as [b|] eqn:Hg; [|now destruct (Hall a (or_introl eq_refl))].
    exists (b :: bs). unfold mbind, M_bind, bind. unfold f at 1. rewrite Hg.
    cbn [lift]. unfold ret at 1. now rewrite Hbs.
Qed.

Lemma report_each N (devices : list (gmap string pyval)) : forall ws z,
  dir_keyed (_devices z) ->
  is_connected (connection z) = true ->
  clocks_move_on N ws ->
  (forall d, In d devices ->
     d !! "ieee"%string <> None
     /\ exists addr payload, d !! "addr"%string = Some addr /\ hex_payload addr payload) ->
  List.NoDup (map (fun d => d !! "addr"%string) devices) ->
  List.NoDup (map (fun d => d !! "ieee"%string) (List.filter reported_real devices)) ->
  exists z',
    (forall fuel, (N < fuel)%nat ->
       for_each_waiting 2 (fun ws => set_reported fuel ws) ws devices z
       = Some (Ok tt z'))
    /\ dir_keyed (_devices z')
    /\ (List.length (_devices z) <= List.length (_devices z'))%nat
    /\ (forall d, In d devices -> reported_real d = true ->
          exists addr d',
            d !! "addr"%string = Some addr
            /\ od_get addr (_devices z') = Some d' /\ d ⊆ info d')
    /\ (forall k x, od_get k (_devices z) = Some x ->
          ~ In (Some k) (map (fun d => d !! "addr"%string) devices) ->
          ~ In (info x !! "ieee"%string)
               (map (fun d => d !! "ieee"%string) (List.filter reported_real devices)) ->
          od_get k (_devices z') = Some x).
Proof.
  induction devices as [|d devices IH]; intros ws z Hk Hconn Hlate Hkeys Hna Hni.
  - exists z. split; [reflexivity|]. split; [exact Hk|]. split; [lia|].
    split; [intros d []|]. intros k x Hx _ _. exact Hx.
  - destruct (Hkeys d (or_introl eq_refl)) as [Hi (addr & payload & Haddr & Hhex)].
    destruct (d !! "ieee"%string) as [ieee|] eqn:Hieee; [|contradiction].
    cbn [map] in Hna. rewrite Haddr in Hna.
    apply List.NoDup_cons_iff in Hna as [Hna1 Hna].
    assert (Hkeys' : forall d0, In d0 devices ->
              d0 !! "ieee"%string <> None
              /\ exists addr payload,
                   d0 !! "addr"%string = Some addr /\ hex_payload addr payload)
      by (intros d0 H0; apply Hkeys; now right).
    pose proof (clocks_move_on_later N 2 ws Hlate) as Hlate'.
    cbn [List.filter] in Hni.
    destruct (reported_real d) eqn:Hreal.
    + (* an entry that stands for a device *)
      cbn [map] in Hni. rewrite Hieee in Hni.
      apply List.NoDup_cons_iff in Hni as [Hni1 Hni].
      assert (Hnz : bool_decide (ieee = zero_ieee) = false).
      { unfold reported_real in Hreal. rewrite Hieee in Hreal.
        apply negb_true_iff, bool_decide_eq_false in Hreal.
        apply bool_decide_eq_false. congruence. }
      destruct (_set_device_step ws (new_Device d) addr payload z N Hk Haddr Hconn
                  Hhex Hlate)
        as (z1 & Hrun & Hk1 & Hc1 & Hlen1 & (d1 & Hd1 & Hsub) & Hkept).
      cbn [new_Device info] in Hsub.
      destruct (IH (later 2 ws) z1 Hk1 Hc1 Hlate' Hkeys' Hna Hni)
        as (z' & Hrest & Hk' & Hlen' & Hall & Hpres).
      assert (Hi1 : info d1 !! "ieee"%string = Some ieee)
        by (eapply lookup_weaken; eassumption).
      exists z'. split; [|split; [exact Hk'|split; [lia|split]]].
      * intros fuel Hf. cbn [for_each_waiting]. unfold mbind, W_bind, bindW.
        unfold set_reported at 1. run_waiting. run_method. rewrite Hieee.
        unfold ret. cbn beta iota. rewrite Hnz, (Hrun fuel Hf). exact (Hrest fuel Hf).
      * intros d0 [<-|Hin] Hr0.
        { exists addr, d1. split; [exact Haddr|]. split; [|exact Hsub].
          apply Hpres; [exact Hd1 | exact Hna1 | now rewrite Hi1]. }
        apply Hall; assumption.
      * intros k x Hx Hnk Hnx. cbn [map] in Hnk, Hnx.
        rewrite Haddr in Hnk. cbn [List.filter] in Hnx. rewrite Hreal in Hnx.
        cbn [map] in Hnx. rewrite Hieee in Hnx.
        apply Hpres.
        { apply Hkept; [exact Hx | intros ->; apply Hnk; now left|].
          unfold Device_ieee, dict_get. cbn [new_Device info]. rewrite Hieee.
          destruct (info x !! "ieee"%string) as [v|] eqn:Hv; simpl.
          - right. intros Heq. apply Hnx. left. congruence.
          - destruct ieee as [|i|s]; [now left | right; discriminate
                                     | right; discriminate]. }
        { intros Hin. apply Hnk. now right. }
        { intros Hin. apply Hnx. now right. }
    + (* an entry for an empty slot *)
      assert (Hz : bool_decide (ieee = zero_ieee) = true).
      { unfold reported_real in Hreal. rewrite Hieee in Hreal.
        apply negb_false_iff, bool_decide_eq_true in Hreal.
        apply bool_decide_eq_true. congruence. }
      destruct (IH (later 2 ws) z Hk Hconn Hlate' Hkeys' Hna Hni)
        as (z' & Hrest & Hk' & Hlen' & Hall & Hpres).
      exists z'. split; [|split; [exact Hk'|split; [exact Hlen'|split]]].
      * intros fuel Hf. cbn [for_each_waiting]. unfold mbind, W_bind, bindW.
        unfold set_reported at 1. run_waiting. run_method. rewrite Hieee.
        unfold ret. cbn beta iota. rewrite Hz. exact (Hrest fuel Hf).
      * intros d0 [<-|Hin] Hr0; [congruence|]. apply Hall; assumption.
      * intros k x Hx Hnk Hnx. cbn [map] in Hnk. rewrite Haddr in Hnk.
        cbn [List.filter] in Hnx. rewrite Hreal in Hnx.
        apply Hpres; [exact Hx | |exact Hnx]. intros Hin. apply Hnk. now right.
Qed.

End DeviceList.

(* ===================================================================== *)
(** ** Loading a firmware image *)
(* ===================================================================== *)

Module OtaImage.

Export Handlers.
Import Datetime.

(** What [ota_load_image] returns: [None] or [False]. *)
Inductive load_result : Type :=
  | Load_None
  | Load_False.

(** A byte string read as one little-endian integer (the [<] formats of
    [struct.unpack]). *)
Definition le (bs : bytes) : Z := fold_right (fun b acc => b + 256 * acc) 0 bs.

(** [content[off:off + n]], for a slice inside the content. *)
Definition sub (content : bytes) (off n : nat) : bytes :=
  firstn n (skipn off content).

(** The values of [header_data]: the 46 values that
    [struct.unpack('<LHHHHHLH32BLBQHH', ota_file_content[:69])] gives, the
    32 bytes of the header string kept together. *)
Record FileHeader : Type := mkFileHeader {
  file_id : Z;
  header_version : Z;
  header_length : Z;
  header_fctl : Z;
  file_manufacturer_code : Z;
  file_image_type : Z;
  file_image_version : Z;
  stack_version : Z;
  header_str : bytes;
  file_size : Z;
  security_cred_version : Z;
  upgrade_file_dest : Z;
  min_hw_version : Z;
  max_hw_version : Z
}.

Definition unpack_header (content : bytes) : FileHeader :=
  {| file_id := le (sub content 0 4);
     header_version := le (sub content 4 2);
     header_length := le (sub content 6 2);
     header_fctl := le (sub content 8 2);
     file_manufacturer_code := le (sub content 10 2);
     file_image_type := le (sub content 12 2);
     file_image_version := le (sub content 14 4);
     stack_version := le (sub content 18 2);
     header_str := sub content 20 32;
     file_size := le (sub content 52 4);
     security_cred_version := le (sub content 56 1);
     upgrade_file_dest := le (sub content 57 8);
     min_hw_version := le (sub content 65 2);
     max_hw_version := le (sub content 67 2) |}.

(** The loop [for i in range(8, 40)]: a null character of the header
    string becomes a space. *)
Definition fix_header_str (h : FileHeader) : FileHeader :=
  {| file_id := file_id h;
     header_version := header_version h;
     header_length := header_length h;
     header_fctl := header_fctl h;
     file_manufacturer_code := file_manufacturer_code h;
     file_image_type := file_image_type h;
     file_image_version := file_image_version h;
     stack_version := stack_version h;
     header_str := map (fun b => if b =? 0x00 then 0x20 else b) (header_str h);
     file_size := file_size h;
     security_cred_version := security_cred_version h;
     upgrade_file_dest := upgrade_file_dest h;
     min_hw_version := min_hw_version h;
     max_hw_version := max_hw_version h |}.

(** The entries of the [header] dictionary that the transfer reads. *)
Definition header_dict (h : FileHeader) : ImageHeader :=
  {| manufacturer_code := file_manufacturer_code h;
     image_type := file_image_type h;
     image_version := file_image_version h;
     size := file_size h |}.

(** The formats [l] (signed), [Q] and a run of [B] of [struct.pack]. *)
Definition pack_l (v : Z) : option bytes :=
  if (-2147483648 <=? v) && (v <? 2147483648)
  then Some (be32 (v mod 4294967296)) else None.

Definition be64 (v : Z) : bytes :=
  [v / 72057594037927936; (v / 281474976710656) mod 256;
   (v / 1099511627776) mod 256; (v / 4294967296) mod 256;
   (v / 16777216) mod 256; (v / 65536) mod 256; (v / 256) mod 256; v mod 256].

Definition pack_Q (v : Z) : option bytes :=
  if (0 <=? v) && (v <? 18446744073709551616) then Some (be64 v) else None.

Definition pack_Bs (l : bytes) : option bytes :=
  if forallb (fun v => (0 <=? v) && (v <? 256)) l then Some l else None.

(** [struct.pack('!BHlHHHHHLH32BLBQHH', 0x02, 0x0000, *header_data)]. *)
Definition pack_header (h : FileHeader) : option bytes :=
  a ← pack_B 0x02;
  b ← pack_H 0x0000;
  c ← pack_l (file_id h);
  d ← pack_H (header_version h);
  e ← pack_H (header_length h);
  f ← pack_H (header_fctl h);
  g ← pack_H (file_manufacturer_code h);
  i ← pack_H (file_image_type h);
  j ← pack_L (file_image_version h);
  k ← pack_H (stack_version h);
  l ← pack_Bs (header_str h);
  m ← pack_L (file_size h);
  n ← pack_B (security_cred_version h);
  o ← pack_Q (upgrade_file_dest h);
  p ← pack_H (min_hw_version h);
  q ← pack_H (max_hw_version h);
  Some (a ++ b ++ c ++ d ++ e ++ f ++ g ++ i ++ j ++ k ++ l ++ m ++ n ++ o ++ p ++ q).

(** The session that a successful load leaves. *)
Definition loaded_session (header : ImageHeader) (content : bytes) : OtaSession :=
  {| image_header := Some header; image_data := Some content; active := false;
     starttime := None; transfered := 0; ota_addr := PNone |}.

(** [ZiGate.ota_load_image(path_to_file)]. [file] is what reading the path
    gives: the content, or [None] for the [OSError] of a file that cannot
    be read; [now] is the clock reading of [get_ota_status]. *)
Definition ota_load_image (now : datetime) (fuel : nat) (w_status w_response : world)
  (file : option bytes) (z : ZiGate) : option (result load_result) :=
  if active (_ota z) then
    match get_ota_status now z with
    | Ok _ z' => Some (Ok Load_None z')
    | Raise e z' => Some (Raise e z')
    end
  else
    match file with
    | None => Some (Ok Load_False z)
    | Some ota_file_content =>
        if len ota_file_content <? 69 then Some (Ok Load_False z)
        else
          let header_data := fix_header_str (unpack_header ota_file_content) in
          let header := header_dict header_data in
          if negb (size header =? len ota_file_content) then Some (Ok Load_False z)
          else
            match pack_header header_data with
            | None => Some (Raise struct_error z)
            | Some data =>
                match send_data fuel w_status w_response 0x0500 data None true z with
                | None => None
                | Some (Raise e z') => Some (Raise e z')
                | Some (Ok response z') =>
                    match response with
                    | Status (Some 0) =>
                        Some (Ok Load_None
                                (with_ota z' (loaded_session header ota_file_content)))
                    | _ => Some (Ok Load_None z')
                    end
                end
            end
    end.

(** *** The header on the wire *)


















End OtaImage.

(* ===================================================================== *)
(** ** Addresses and channels *)
(* ===================================================================== *)

Module Commands.

Export Handlers.

(** [ZiGate.__haddr(int_addr, length)]: ['{0:0{1}x}'.format(int_addr,
    length)], lower-case hexadecimal digits, zero padded to [length]
    places; the sign of a negative number takes one of the places. *)
Definition hex_char (d : Z) : ascii :=
  if d <? 10 then ascii_of_N (Z.to_N (48 + d)) else ascii_of_N (Z.to_N (87 + d)).

Fixpoint hex_digits (w : nat) (n : Z) : string :=
  match w with
  | O => EmptyString
  | S w' =>
      String (hex_char (n / 16 ^ Z.of_nat w')) (hex_digits w' (n mod 16 ^ Z.of_nat w'))
  end.

(** The number of hexadecimal digits of [n >= 0]. *)
Definition hex_width (n : Z) : nat := S (Z.to_nat (Z.log2 n / 4)).

Definition __haddr (int_addr : Z) (length : nat) : string :=
  if int_addr <? 0
  then String "-" (hex_digits (Nat.max (hex_width (- int_addr)) (length - 1))
                              (- int_addr))
  else hex_digits (Nat.max (hex_width int_addr) length) int_addr.

(** The argument of [set_channel]: nothing, one channel, or a list. *)
Inductive channels_arg : Type :=
  | Channels_None
  | Channel (c : Z)
  | Channels (l : list Z).

(** [channels or [11, 14, 15, 19, 20, 24, 25]], made a list. *)
Definition channel_list (channels : channels_arg) : list Z :=
  match channels with
  | Channels_None => [11; 14; 15; 19; 20; 24; 25]
  | Channel c => if c =? 0 then [11; 14; 15; 19; 20; 24; 25] else [c]
  | Channels [] => [11; 14; 15; 19; 20; 24; 25]
  | Channels l => l
  end.

(** [functools.reduce(lambda acc, x: acc ^ 2 ** x, channels, 0)]; [None] is
    the [TypeError] of [^] on the float that a negative exponent gives. *)
Definition channel_mask (channels : list Z) : option Z :=
  fold_left (fun acc x =>
               match acc with
               | Some acc => if x <? 0 then None else Some (Z.lxor acc (2 ^ x))
               | None => None
               end)
            channels (Some 0).

(** [ZiGate.set_channel(channels)]. *)
Definition set_channel (fuel : nat) (w_status w_response : world)
  (channels : channels_arg) (z : ZiGate) : option (result sent_result) :=
  match channel_mask (channel_list channels) with
  | None => Some (Raise TypeError z)
  | Some mask =>
      match pack_L mask with
      | None => Some (Raise struct_error z)
      | Some mask => send_data fuel w_status w_response 0x0021 mask None true z
      end
  end.

End Commands.

(* ===================================================================== *)
(** ** Properties of the codec *)
(* ===================================================================== *)

Module CodecProperties.

Import Codec.

(** C2. The frame codec round-trips: decoding the encoding of any sequence
    gives the sequence back, and a sequence whose bytes are all at least
    0x10 is its own encoding. The statement holds for every list of
    integers, the byte sequences among them. *)
Theorem zigate_decode_encode (x : bytes) :
  zigate_decode (zigate_encode x) = x
  /\ (Forall (fun b => 0x10 <= b) x -> zigate_encode x = x).
Proof.
  split.
  - apply zigate_decode_encode_id.
  - intros Hx. rewrite zigate_encode_flat.
    induction Hx as [|b l Hb _ IH]; [reflexivity|].
    cbn [flat_map]. rewrite IH. unfold encode_byte.
    destruct (Z.ltb_spec b 16); [lia | reflexivity].
Qed.

(** C9, as the spec states it, fails: no arguments exist for which
    [checksum(a, b, c)] and [checksum(c, b, a)] differ, whether the
    arguments are ints of any size or byte sequences; so it is with a
    two-byte int among them. *)
Lemma checksum_reversal_never_differs :
  (~ exists a b c : arg, checksum [a; b; c] <> checksum [c; b; a])
  /\ checksum [AInt 0x0102; ABytes [0x03; 0x04]; AInt 0x0506]
     = checksum [AInt 0x0506; ABytes [0x03; 0x04]; AInt 0x0102].
Proof.
  split; [|reflexivity].
  intros (a & b & c & Hne). apply Hne. unfold checksum.
  apply checksum_loop_perm.
  change [a; b; c] with ([a; b] ++ [c]). change [c; b; a] with ([c] ++ [b; a]).
  etransitivity; [apply Permutation_app_comm|].
  apply perm_skip, perm_swap.
Qed.

(** C9 (amended). [checksum] gives the same value for every order of its
    arguments: an int is XORed in as one value, a byte sequence byte by
    byte, and XOR commutes; so [checksum(a, b, c) == checksum(c, b, a)]
    always holds, and the value is the XOR of what each argument
    contributes. *)
Theorem checksum_permutation (args args' : list arg) :
  Permutation args args' ->
  checksum args = checksum args'
  /\ checksum args = fold_right (fun a acc => Z.lxor (checksum_arg 0 a) acc) 0 args.
Proof.
  intros Hp. split.
  - unfold checksum. now apply checksum_loop_perm.
  - unfold checksum. rewrite checksum_loop. apply Z.lxor_0_l.
Qed.

Lemma checksum_permutation_witness :
  checksum [AInt 0x0102; ABytes [0x03; 0x04]; ABytes [0x05]]
  = checksum [ABytes [0x05]; ABytes [0x03; 0x04]; AInt 0x0102]
  /\ checksum [AInt 0x0102; ABytes [0x03; 0x04]; ABytes [0x05]] = 0x0100.
Proof.
  split; [|reflexivity].
  apply (checksum_permutation
           [AInt 0x0102; ABytes [0x03; 0x04]; ABytes [0x05]]
           [ABytes [0x05]; ABytes [0x03; 0x04]; AInt 0x0102]).
  change [AInt 258; ABytes [3; 4]; ABytes [5]]
    with ([AInt 258; ABytes [3; 4]] ++ [ABytes [5]]).
  change [ABytes [5]; ABytes [3; 4]; AInt 258]
    with ([ABytes [5]] ++ [ABytes [3; 4]; AInt 258]).
  etransitivity; [apply Permutation_app_comm|].
  apply perm_skip, perm_swap.
Defined.

Lemma encode_byte_shape b :
  is_byte b -> Forall (fun e => e = 0x02 \/ 0x10 <= e < 256) (encode_byte b).
Proof.
  unfold is_byte, encode_byte. intros Hb.
  destruct (Z.ltb_spec b 16) as [Hlt|Hge].
  - rewrite xor_0x10_low by lia. repeat constructor; lia.
  - repeat constructor; lia.
Qed.

(** C10. Every byte of an encoding is the escape marker 0x02 or at least
    0x10, so the delimiters 0x01 and 0x03 do not occur in it: in the frame
    that [send_data] builds, 0x01 stands at the first place only and 0x03
    at the last place only. *)
Theorem zigate_encode_no_delimiter (x : bytes) :
  bytes_ok x ->
  Forall (fun e => e = 0x02 \/ 0x10 <= e < 256) (zigate_encode x)
  /\ ~ In 0x01 (zigate_encode x) /\ ~ In 0x03 (zigate_encode x)
  /\ (forall i, nth_error (wrap_frame (zigate_encode x)) i = Some 0x01
                <-> i = 0%nat)
  /\ (forall i, nth_error (wrap_frame (zigate_encode x)) i = Some 0x03
                <-> i = S (List.length (zigate_encode x))).
Proof.
  intros Hx.
  assert (Hshape : Forall (fun e => e = 0x02 \/ 0x10 <= e < 256) (zigate_encode x)).
  { induction Hx as [|b l Hb _ IH]; [constructor|].
    rewrite zigate_encode_cons. apply Forall_app. split; [|exact IH].
    now apply encode_byte_shape. }
  assert (Hno : forall v, v = 0x01 \/ v = 0x03 -> ~ In v (zigate_encode x)).
  { intros v Hv Hin. rewrite List.Forall_forall in Hshape.
    specialize (Hshape v Hin). lia. }
  split; [exact Hshape|]. split; [apply Hno; lia|]. split; [apply Hno; lia|].
  unfold wrap_frame. split; intros i; split.
  - destruct i as [|i]; [reflexivity|]. cbn [nth_error]. intros Hn.
    apply nth_error_In, in_app_or in Hn as [Hin|[Heq|[]]]; [|discriminate].
    exfalso. apply (Hno 1); [lia | exact Hin].
  - intros ->. reflexivity.
  - destruct i as [|i]; [discriminate|]. cbn [nth_error]. intros Hn.
    destruct (Nat.lt_ge_cases i (List.length (zigate_encode x))) as [Hlt|Hge].
    + rewrite nth_error_app1 in Hn by exact Hlt. apply nth_error_In in Hn.
      exfalso. apply (Hno 3); [lia | exact Hn].
    + assert (Hsome : nth_error (zigate_encode x ++ [3]) i <> None) by congruence.
      apply nth_error_Some in Hsome. rewrite length_app in Hsome.
      cbn [List.length] in Hsome. f_equal. lia.
  - intros ->. cbn [nth_error]. rewrite nth_error_app2 by lia.
    now rewrite Nat.sub_diag.
Qed.

Lemma zigate_encode_no_delimiter_witness :
  bytes_ok [0x01; 0x03; 0x02; 0x10; 0xff]
  /\ ~ In 0x01 (zigate_encode [0x01; 0x03; 0x02; 0x10; 0xff])
  /\ ~ In 0x03 (zigate_encode [0x01; 0x03; 0x02; 0x10; 0xff]).
Proof.
  assert (Hb : bytes_ok [0x01; 0x03; 0x02; 0x10; 0xff])
    by (repeat constructor; unfold is_byte; lia).
  split; [exact Hb|].
  destruct (zigate_encode_no_delimiter _ Hb) as (_ & H1 & H3 & _).
  split; [exact H1 | exact H3].
Defined.

End CodecProperties.

(* ===================================================================== *)
(** ** Properties of the device directory *)
(* ===================================================================== *)

Module DirectoryProperties.

Import Directory Datetime.

(** A device as [Device(info)] builds it from an address and an IEEE. *)
Definition announced (addr ieee : string) : Device :=
  new_Device (<["addr"%string := PStr addr]> (<["ieee"%string := PStr ieee]> ∅)).

(** A gateway that acknowledges the two requests of a refresh during the
    first sleep of each wait; the caller reads a millisecond clock every
    10 ms. *)
Definition prompt : worlds :=
  fun _ => {| per_second := 1000; time0 := 0;
              ticks := fun k => mkTick [(0x0042, 0); (0x0045, 0)] []
                                       (10 * (Z.of_nat k + 1)) |}.

Lemma prompt_clocks : clocks_move_on 300 prompt.
Proof. intros k. vm_compute. reflexivity. Qed.

(** The directory after the devices "0001" (IEEE "A") and "0002" (IEEE
    "B") were announced to a fresh driver. *)
Definition one_device : ZiGate :=
  state_after init_ZiGate (_set_device 2 prompt (announced "0001" "A") init_ZiGate).

Definition two_devices : ZiGate :=
  state_after one_device (_set_device 2 prompt (announced "0002" "B") one_device).

Lemma two_devices_reachable : reachable two_devices.
Proof.
  assert (H1 : _set_device 2 prompt (announced "0001" "A") init_ZiGate
               = Some (Ok tt one_device)) by (vm_compute; reflexivity).
  assert (H2 : _set_device 2 prompt (announced "0002" "B") one_device
               = Some (Ok tt two_devices)) by (vm_compute; reflexivity).
  exact (reach_set_device _ _ _ _ _ (reach_set_device _ _ _ _ _ reach_init H1) H2).
Qed.

(** C1, as stated, fails. From the reachable directory [two_devices], the
    device "0002" is announced with the IEEE "A" of the device tracked
    under "0001": the address is known, so the update branch runs. Nothing
    is moved or renamed, "0001" is still tracked, and "0001" and "0002"
    now share the IEEE "A" in a state that is reachable too. *)
Lemma set_device_tracked_addr_duplicates_ieee :
  reachable two_devices
  /\ Device_ieee <$> od_get (PStr "0001") (_devices two_devices) = Some (PStr "A")
  /\ exists z' d1 d2,
      _set_device 2 prompt (announced "0002" "A") two_devices = Some (Ok tt z')
      /\ reachable z'
      /\ od_get (PStr "0001") (_devices z') = Some d1
      /\ od_get (PStr "0002") (_devices z') = Some d2
      /\ Device_ieee d1 = PStr "A" /\ Device_ieee d2 = PStr "A"
      /\ trace z' = trace two_devices ++ [Dispatched (ZIGATE_DEVICE_UPDATED d2)]
      /\ ~ ieee_unique (_devices z').
Proof.
  split; [exact two_devices_reachable|].
  split; [vm_compute; reflexivity|].
  assert (Hrun : exists z',
            _set_device 2 prompt (announced "0002" "A") two_devices = Some (Ok tt z'))
    by (eexists; vm_compute; reflexivity).
  destruct Hrun as [z' Hrun]. exists z'.
  pose proof (reach_set_device _ _ _ _ _ two_devices_reachable Hrun) as Hreach.
  cbn [state_of] in Hreach. clear Hreach.
  assert (Hreach : reachable z').
  { exact (reach_set_device _ _ _ _ _ two_devices_reachable Hrun). }
  vm_compute in Hrun. injection Hrun as Hz'.
  do 2 eexists. split; [now rewrite <- Hz'|]. split; [exact Hreach|].
  rewrite <- Hz'.
  split; [vm_compute; reflexivity|]. split; [vm_compute; reflexivity|].
  split; [vm_compute; reflexivity|]. split; [vm_compute; reflexivity|].
  split; [vm_compute; reflexivity|].
  intros Hu.
  assert (Heq : PStr "0001" = PStr "0002"); [|discriminate Heq].
  eapply Hu; vm_compute; reflexivity.
Qed.

(** C1 (amended). In every reachable state, and in every directory with
    one binding per address and each device bound to its own [addr],
    [_set_device] is called with a device whose address is not tracked and
    whose IEEE is set and carried by a tracked device. Then the first such
    device in the order of the directory, merged with the incoming one, is
    moved to the new address before anything is sent: every endpoint the
    incoming device does not bring is kept, the old address is deleted, the
    other devices stay, exactly one "renamed" signal is dispatched, no
    device is added, and IEEEs that were unique stay unique. The call goes
    on with the refresh of the new address, and however that ends the
    directory and the signals are as the rename left them. With clocks that
    move on the call ends. Over a connected transport and for an address
    that spells bytes it returns, the node descriptor request (0x0042) and
    the active endpoint request (0x0045) sent in this order; over a
    transport that is down, and for an address that is no string or spells
    no bytes, it raises, nothing sent, the device moved all the same. *)
Theorem set_device_untracked_addr_renames ws z device new_addr :
  reachable z \/ dir_keyed (_devices z) ->
  Device_addr device = Some new_addr ->
  od_get new_addr (_devices z) = None ->
  truthy (Device_ieee device) = true ->
  (exists k d0, od_get k (_devices z) = Some d0
                /\ Device_ieee d0 = Device_ieee device) ->
  exists old_addr d moved z1,
    (exists before after,
       _devices z = before ++ (old_addr, d) :: after
       /\ forall k x, In (k, x) before -> Device_ieee x <> Device_ieee device)
    /\ od_get old_addr (_devices z) = Some d
    /\ Device_ieee d = Device_ieee device
    /\ (forall fuel, _set_device fuel ws device z
                     = refresh_device fuel ws new_addr z1)
    /\ od_get new_addr (_devices z1) = Some moved
    /\ (forall key v, info device !! key = Some v -> info moved !! key = Some v)
    /\ (forall key, info device !! key = None -> info moved !! key = info d !! key)
    /\ missing moved = missing d
    /\ (forall k, od_get k (endpoints device) = None ->
                  od_get k (endpoints moved) = od_get k (endpoints d))
    /\ od_get old_addr (_devices z1) = None
    /\ (forall k, k <> new_addr -> k <> old_addr ->
                  od_get k (_devices z1) = od_get k (_devices z))
    /\ trace z1 = trace z ++ [Dispatched (ZIGATE_DEVICE_RENAMED old_addr new_addr)]
    /\ List.length (_devices z1) = List.length (_devices z)
    /\ dir_keyed (_devices z1)
    /\ (ieee_unique (_devices z) -> ieee_unique (_devices z1))
    /\ connection z1 = connection z
    /\ (forall fuel r, _set_device fuel ws device z = Some r ->
          _devices (state_of r) = _devices z1 /\ trace (state_of r) = trace z1)
    /\ (forall N, clocks_move_on N ws ->
          exists r, forall fuel, (N < fuel)%nat ->
            _set_device fuel ws device z = Some r)
    /\ (forall N payload,
          is_connected (connection z) = true -> hex_payload new_addr payload ->
          clocks_move_on N ws ->
          exists z',
            (forall fuel, (N < fuel)%nat ->
               _set_device fuel ws device z = Some (Ok tt z'))
            /\ sent (connection z')
               = sent (connection z)
                 ++ [wrap_frame (zigate_encode (message 0x0042 payload));
                     wrap_frame (zigate_encode (message 0x0045 payload))])
    /\ (forall payload,
          is_connected (connection z) = false -> hex_payload new_addr payload ->
          exists z',
            (forall fuel, _set_device fuel ws device z = Some (Raise Not_connected z'))
            /\ sent (connection z') = sent (connection z))
    /\ (match new_addr with PStr s => bytes_fromhex s = None | _ => True end ->
        exists z',
          (forall fuel,
             _set_device fuel ws device z
             = Some (Raise (match new_addr with
                            | PStr _ => ValueError
                            | _ => AssertionError
                            end) z'))
          /\ sent (connection z') = sent (connection z)).
Proof.
  intros Hreach Haddr Hnew Ht (k & d0 & Hd0 & Hi0).
  assert (Hk : dir_keyed (_devices z)).
  { destruct Hreach as [Hreach|Hk]; [now apply reachable_keyed | exact Hk]. }
  pose proof Hk as [Hnd Hkey].
  destruct (get_device_from_ieee_finds z (Device_ieee device) k d0 Ht Hd0 Hi0)
    as (old_addr & d & Hf).
  destruct (get_device_from_ieee_Some _ _ _ _ Hnd Hf) as (_ & Hold & Hieee).
  destruct (renamed_devices_keyed (_devices z) device new_addr old_addr d
              Hk Haddr Hnew Hold) as (Hg_new & Hg_old & Hg_other & Hlen & Hk').
  set (z1 := after_rename z old_addr new_addr (Device_update d device)).
  assert (Hrun : forall fuel, _set_device fuel ws device z
                              = refresh_device fuel ws new_addr z1).
  { intros fuel.
    exact (_set_device_rename_run fuel ws z device new_addr old_addr d Hk Haddr Hnew Hf). }
  exists old_addr, d, (Device_update d device), z1.
  split.
  { unfold get_device_from_ieee in Hf. rewrite Ht in Hf.
    exact (find_ieee_first _ _ _ _ Hf). }
  split; [exact Hold|]. split; [exact Hieee|]. split; [exact Hrun|].
  split; [exact Hg_new|].
  split. { intros key v Hv. unfold Device_update. cbn [info].
           now apply lookup_union_Some_l. }
  split. { intros key Hv. unfold Device_update. cbn [info].
           now apply lookup_union_r. }
  split; [reflexivity|].
  split. { intros k0 Hk0. now apply Device_update_endpoints_kept. }
  split; [exact Hg_old|]. split; [exact Hg_other|]. split; [reflexivity|].
  split; [exact Hlen|]. split; [exact Hk'|].
  split.
  { intros Hu.
    apply (renamed_devices_wf (_devices z) device new_addr old_addr d);
      [repeat split; assumption | assumption..]. }
  split; [reflexivity|].
  split.
  { intros fuel r Hr. rewrite Hrun in Hr.
    apply refresh_device_same in Hr as [(Hd & Htr & _) _]. now split. }
  split.
  { intros N Hlate. destruct (refresh_device_ends ws new_addr z1 N Hlate) as [r Hr].
    exists r. intros fuel Hfuel. rewrite Hrun. now apply Hr. }
  split; [|split].
  - intros N payload Hconn Hhex Hlate.
    destruct (refresh_device_run ws new_addr payload z1 N Hconn Hhex Hlate)
      as (z' & Hr & _ & _ & Hsent).
    exists z'. split; [|exact Hsent].
    intros fuel Hfuel. rewrite Hrun. now apply Hr.
  - intros payload Hconn Hhex. eexists. split.
    + intros fuel. rewrite Hrun.
      apply (refresh_device_down fuel ws new_addr payload z1 Hconn Hhex).
    + reflexivity.
  - intros Hbad. eexists. split.
    + intros fuel. rewrite Hrun.
      apply (refresh_device_bad_address fuel ws new_addr z1 Hbad).
    + reflexivity.
Qed.

Lemma set_device_untracked_addr_renames_witness :
  exists z',
    _set_device 301 prompt (announced "0003" "A") two_devices = Some (Ok tt z')
    /\ od_get (PStr "0001") (_devices z') = None
    /\ Device_ieee <$> od_get (PStr "0003") (_devices z') = Some (PStr "A")
    /\ List.length (_devices z') = 2%nat
    /\ List.length (sent (connection z')) = 6%nat.
Proof.
  destruct (set_device_untracked_addr_renames prompt two_devices
              (announced "0003" "A") (PStr "0003")
              (or_introl two_devices_reachable) eq_refl eq_refl eq_refl
              (ex_intro _ (PStr "0001")
                 (ex_intro _ (announced "0001" "A") (conj eq_refl eq_refl))))
    as (old_addr & d & moved & z1 & (before & after & Hsplit & Hfirst) & _ & _ & _
        & Hnew & Hinfo & _ & _ & _ & Hold & _ & _ & Hlen & _ & _ & _ & Hany & _
        & Hup & _ & _).
  assert (Hfound : old_addr = PStr "0001").
  { destruct before as [|[k0 x0] before].
    - vm_compute in Hsplit. now injection Hsplit as <- _ _.
    - exfalso. apply (Hfirst k0 x0 (or_introl eq_refl)).
      vm_compute in Hsplit. now injection Hsplit as _ <- _. }
  subst old_addr.
  destruct (Hup 300%nat [0; 3] eq_refl
              (ex_intro _ "0003"%string (conj eq_refl (conj eq_refl eq_refl)))
              prompt_clocks) as (z' & Hrun & Hsent).
  specialize (Hrun 301%nat ltac:(lia)).
  destruct (Hany _ _ Hrun) as [Hd _]. cbn [state_of] in Hd.
  exists z'. split; [exact Hrun|]. rewrite Hd.
  split; [exact Hold|].
  split.
  { rewrite Hnew. cbn [fmap option_fmap option_map]. unfold Device_ieee, dict_get.
    now rewrite (Hinfo "ieee"%string (PStr "A") eq_refl). }
  split; [rewrite Hlen; reflexivity|]. rewrite Hsent. reflexivity.
Defined.

(** The time from [ts] to [now], in microseconds. *)
Definition micros_between (ts now : datetime) : Z :=
  (seconds_of now * 1000000 + microsecond now)
  - (seconds_of ts * 1000000 + microsecond ts).

(** A directory with one device, last seen on 2024-01-01 at 12:00:00. *)
Definition seen_new_year : datetime := mkDatetime 2024 1 1 12 0 0 0.

Definition silent_device : Device :=
  new_Device (<["addr"%string := PStr "0001"]>
              (<["last_seen"%string := PStr (strftime seen_new_year)]> ∅)).

Definition one_silent_device : ZiGate :=
  with_devices init_ZiGate [(PStr "0001", silent_device)].

(** C7, as stated, fails. The device "0001" was last seen on 2024-01-01 at
    12:00:00, and [_tag_missing] runs on 2024-01-02 at 12:00:00.999999:
    the timestamp is older than 24 hours, by 999999 microseconds, yet the
    device is not tagged and no signal is dispatched. The cutoff is printed
    in whole seconds, so the microseconds of the clock reading are
    dropped before the comparison. *)
Lemma _tag_missing_spares_older_by_less_than_a_second :
  last_seen_is silent_device (Some seen_new_year)
  /\ 24 * 3600 * 1000000
     < micros_between seen_new_year (mkDatetime 2024 1 2 12 0 0 999999)
  /\ _tag_missing (mkDatetime 2024 1 2 12 0 0 999999) (PStr "0001") one_silent_device
     = Ok tt one_silent_device
  /\ missing <$> od_get (PStr "0001") (_devices one_silent_device) = Some false.
Proof.
  split; [|split; [|split]]; [|vm_compute; reflexivity..].
  apply last_seen_at; [unfold valid; cbn; lia | cbn; lia | reflexivity].
Qed.

(** C7 (amended). For a tracked device, [_tag_missing] returns. When the
    device has a [last_seen] and it lies more than 24 hours before the
    clock reading, both counted in the whole seconds they are printed
    with, the device at the address has [missing] set, its [info] and
    endpoints are as before, the other devices and the order of the
    directory are untouched, exactly one "updated" signal carrying the
    device is dispatched and nothing is sent. Otherwise, and when
    [last_seen] is absent, the object is left as it was. In exact time: a
    device that is tagged was last seen more than 24 hours ago, and a
    device last seen 24 hours and one second ago or earlier is tagged. *)
Theorem _tag_missing_older_than_24h z now addr d seen :
  valid now -> 1000 < year now ->
  od_get addr (_devices z) = Some d ->
  last_seen_is d seen ->
  exists z',
    _tag_missing now addr z = Ok tt z'
    /\ (older_than_24h now seen ->
        exists d',
          od_get addr (_devices z') = Some d'
          /\ missing d' = true /\ info d' = info d /\ endpoints d' = endpoints d
          /\ od_keys (_devices z') = od_keys (_devices z)
          /\ (forall k, k <> addr -> od_get k (_devices z') = od_get k (_devices z))
          /\ trace z' = trace z ++ [Dispatched (ZIGATE_DEVICE_UPDATED d')]
          /\ connection z' = connection z)
    /\ (~ older_than_24h now seen -> z' = z)
    /\ (forall ts, seen = Some ts ->
          (older_than_24h now seen -> 24 * 3600 * 1000000 < micros_between ts now)
          /\ ((24 * 3600 + 1) * 1000000 <= micros_between ts now ->
              older_than_24h now seen)).
Proof.
  intros Hnow Hyear Hd Hseen.
  destruct (minus_24h_seconds now Hnow ltac:(lia)) as (cutoff & Hc & Hvc & Hyc & Hsec).
  rewrite (_tag_missing_run z now cutoff addr d Hc Hd).
  assert (Htagged : exists d',
            od_get addr (_devices (tagged_missing z addr d)) = Some d'
            /\ missing d' = true /\ info d' = info d /\ endpoints d' = endpoints d
            /\ od_keys (_devices (tagged_missing z addr d)) = od_keys (_devices z)
            /\ (forall k, k <> addr ->
                  od_get k (_devices (tagged_missing z addr d)) = od_get k (_devices z))
            /\ trace (tagged_missing z addr d)
               = trace z ++ [Dispatched (ZIGATE_DEVICE_UPDATED d')]
            /\ connection (tagged_missing z addr d) = connection z).
  { exists (set_missing d true). unfold tagged_missing.
    cbn [_devices with_devices with_trace trace connection].
    split; [apply od_get_set_eq|]. split; [reflexivity|]. split; [reflexivity|].
    split; [reflexivity|]. split; [rewrite od_keys_set, Hd; reflexivity|].
    split; [|split; reflexivity]. intros k Hk. now apply od_get_set_ne. }
  destruct Hseen as [[Hls|Hls]|ts Hts Hyts Hls]; rewrite Hls.
  - exists z. split; [reflexivity|]. split; [intros []|].
    split; [reflexivity | intros ts [=]].
  - exists z. split; [reflexivity|]. split; [intros []|].
    split; [reflexivity | intros ts [=]].
  - change (String.eqb (strftime ts) EmptyString) with false. cbv iota.
    unfold String.ltb. rewrite (strftime_compare ts cutoff Hts Hvc).
    rewrite <- (seconds_of_compare ts cutoff Hts Hvc).
    assert (Hexact : forall ts0, Some ts = Some ts0 ->
              (older_than_24h now (Some ts)
               -> 24 * 3600 * 1000000 < micros_between ts0 now)
              /\ ((24 * 3600 + 1) * 1000000 <= micros_between ts0 now
                  -> older_than_24h now (Some ts))).
    { intros ts0 [= <-]. unfold older_than_24h, micros_between.
      destruct Hts as (_ & _ & _ & _ & _ & _ & Hus).
      destruct Hnow as (_ & _ & _ & _ & _ & _ & Hus').
      split; lia. }
    unfold older_than_24h in Hexact |- *.
    destruct (Z.compare_spec (seconds_of ts) (seconds_of cutoff)) as [He|Hl|Hg].
    + exists z. split; [reflexivity|]. split; [lia|].
      split; [reflexivity | exact Hexact].
    + eexists. split; [reflexivity|]. split; [intros _; exact Htagged|].
      split; [lia | exact Hexact].
    + exists z. split; [reflexivity|]. split; [lia|].
      split; [reflexivity | exact Hexact].
Qed.

Lemma _tag_missing_older_than_24h_witness :
  (exists z' d',
     _tag_missing (mkDatetime 2024 1 2 12 0 1 0) (PStr "0001") one_silent_device
     = Ok tt z'
     /\ od_get (PStr "0001") (_devices z') = Some d'
     /\ missing d' = true
     /\ trace z' = [Dispatched (ZIGATE_DEVICE_UPDATED d')])
  /\ _tag_missing (mkDatetime 2024 1 2 12 0 0 0) (PStr "0001") one_silent_device
     = Ok tt one_silent_device.
Proof.
  assert (Hv : forall s us, 0 <= s < 60 -> 0 <= us < 1000000 ->
                            valid (mkDatetime 2024 1 2 12 0 s us)).
  { intros s us Hs Hus. unfold valid. cbn. lia. }
  assert (Hseen : last_seen_is silent_device (Some seen_new_year)).
  { apply last_seen_at; [unfold valid; cbn; lia | cbn; lia | reflexivity]. }
  split.
  - destruct (_tag_missing_older_than_24h one_silent_device
                (mkDatetime 2024 1 2 12 0 1 0) (PStr "0001") silent_device
                (Some seen_new_year) (Hv 1 0 ltac:(lia) ltac:(lia))
                ltac:(cbn; lia) eq_refl Hseen) as (z' & Hrun & Hold & _ & _).
    destruct Hold as (d' & Hg & Hm & _ & _ & _ & _ & Htr & _);
      [vm_compute; reflexivity|].
    exists z', d'. split; [exact Hrun|]. split; [exact Hg|]. split; [exact Hm|].
    exact Htr.
  - destruct (_tag_missing_older_than_24h one_silent_device
                (mkDatetime 2024 1 2 12 0 0 0) (PStr "0001") silent_device
                (Some seen_new_year) (Hv 0 0 ltac:(lia) ltac:(lia))
                ltac:(cbn; lia) eq_refl Hseen) as (z' & Hrun & _ & Hyoung & _).
    rewrite Hrun. f_equal. apply Hyoung. vm_compute. intros Hgt. discriminate Hgt.
Defined.

(** *** The reasons of [need_refresh], in the spec's words *)

(** The values that count as unknown: [None], zero and the empty string. *)
Definition falsy (v : pyval) : Prop := v = PNone \/ v = PInt 0 \/ v = PStr "".

(** The attribute at position [k] of the cluster at position [j] of the
    endpoint at position [i], each counted in the order the dictionary was
    filled. *)
Definition attribute_at (d : Device) (i j k : nat) (a : Attribute) : Prop :=
  exists ke ep kc c ka,
    nth_error (endpoints d) i = Some (ke, ep)
    /\ nth_error (clusters ep) j = Some (kc, c)
    /\ nth_error (attributes c) k = Some (ka, a).

(** The position [(i', j', k')] comes before [(i, j, k)]. *)
Definition before_position (i' j' k' i j k : nat) : Prop :=
  (i' < i)%nat \/ (i' = i /\ ((j' < j)%nat \/ (j' = j /\ (k' < k)%nat))).

(** The type of a device is known when the first of its attributes that
    is named "type" has a value that is not unknown. *)
Definition type_known (d : Device) : Prop :=
  exists i j k a v,
    attribute_at d i j k a
    /\ a !! "name"%string = Some (PStr "type")
    /\ (forall i' j' k' a',
          attribute_at d i' j' k' a' -> before_position i' j' k' i j k ->
          a' !! "name"%string <> Some (PStr "type"))
    /\ a !! "value"%string = Some v
    /\ ~ falsy v.

Definition type_unknown (d : Device) : Prop := ~ type_known d.

(** The IEEE is unknown when [info] has no entry for it, or one whose
    value is unknown. *)
Definition ieee_unknown (d : Device) : Prop :=
  match info d !! "ieee"%string with
  | None => True
  | Some v => falsy v
  end.

Definition no_endpoints (d : Device) : Prop := endpoints d = [].

Definition endpoint_incomplete (ep : Endpoint) : Prop :=
  device ep = PNone \/ in_clusters ep = None.

Lemma truthy_falsy v : truthy v = false <-> falsy v.
Proof.
  unfold falsy. destruct v as [|i|s]; cbn [truthy].
  - split; [now left | reflexivity].
  - destruct (Z.eqb_spec i 0) as [->|Hne]; cbn [negb].
    + split; [intros _; right; now left | reflexivity].
    + split; [discriminate | intros [H|[H|H]]; congruence].
  - destruct s as [|c s]; cbn [String.eqb negb].
    + split; [intros _; right; now right | reflexivity].
    + split; [discriminate | intros [H|[H|H]]; discriminate].
Qed.

Section first_match.
Context {K X B : Type} (p : B -> bool).

Lemma find_app_first (l1 l2 : list B) :
  List.find p (l1 ++ l2)
  = match List.find p l1 with Some b => Some b | None => List.find p l2 end.
Proof.
  induction l1 as [|x l1 IH]; cbn [app List.find]; [reflexivity|].
  destruct (p x); [reflexivity | exact IH].
Qed.

Lemma find_values_None (l : list (K * B)) :
  List.find p (map snd l) = None
  <-> forall n k b, nth_error l n = Some (k, b) -> p b = false.
Proof.
  induction l as [|[k0 b0] l IH]; cbn [map snd List.find].
  - split; [intros _ [|n] k b; discriminate | reflexivity].
  - destruct (p b0) eqn:Hb.
    + split; [discriminate|]. intros H. specialize (H 0%nat k0 b0 eq_refl). congruence.
    + rewrite IH. split.
      * intros H [|n] k b; cbn [nth_error]; [intros [= <- <-]; exact Hb | apply H].
      * intros H n k b Hn. exact (H (S n) k b Hn).
Qed.

Lemma find_values_Some (l : list (K * B)) b :
  List.find p (map snd l) = Some b
  <-> exists n k,
        nth_error l n = Some (k, b) /\ p b = true
        /\ forall m k' b', (m < n)%nat -> nth_error l m = Some (k', b') -> p b' = false.
Proof.
  induction l as [|[k0 b0] l IH]; cbn [map snd List.find].
  - split; [discriminate|]. intros ([|n] & k & Hn & _); discriminate.
  - destruct (p b0) eqn:Hb.
    + split.
      * intros [= <-]. exists 0%nat, k0. repeat split; [exact Hb|]. intros m k' b' Hm. lia.
      * intros ([|n] & k & Hn & Hp & Hbefore); cbn [nth_error] in Hn.
        -- now injection Hn as _ <-.
        -- specialize (Hbefore 0%nat k0 b0 ltac:(lia) eq_refl). congruence.
    + rewrite IH. split.
      * intros (n & k & Hn & Hp & Hbefore). exists (S n), k.
        split; [exact Hn|]. split; [exact Hp|].
        intros [|m] k' b' Hm; cbn [nth_error].
        -- intros [= <- <-]. exact Hb.
        -- apply Hbefore. lia.
      * intros ([|n] & k & Hn & Hp & Hbefore); cbn [nth_error] in Hn.
        -- injection Hn as _ <-. congruence.
        -- exists n, k. split; [exact Hn|]. split; [exact Hp|].
           intros m k' b' Hm Hm'. apply (Hbefore (S m) k' b'); [lia | exact Hm'].
Qed.

Lemma find_nested_None (f : X -> list B) (l : list (K * X)) :
  List.find p (flat_map f (map snd l)) = None
  <-> forall n k x, nth_error l n = Some (k, x) -> List.find p (f x) = None.
Proof.
  induction l as [|[k0 x0] l IH]; cbn [map snd flat_map].
  - split; [intros _ [|n] k x; discriminate | reflexivity].
  - rewrite find_app_first. destruct (List.find p (f x0)) as [b|] eqn:Hx.
    + split; [discriminate|]. intros H. specialize (H 0%nat k0 x0 eq_refl). congruence.
    + rewrite IH. split.
      * intros H [|n] k x; cbn [nth_error]; [intros [= <- <-]; exact Hx | apply H].
      * intros H n k x Hn. exact (H (S n) k x Hn).
Qed.

Lemma find_nested_Some (f : X -> list B) (l : list (K * X)) b :
  List.find p (flat_map f (map snd l)) = Some b
  <-> exists n k x,
        nth_error l n = Some (k, x) /\ List.find p (f x) = Some b
        /\ forall m k' y, (m < n)%nat -> nth_error l m = Some (k', y) ->
                          List.find p (f y) = None.
Proof.
  induction l as [|[k0 x0] l IH]; cbn [map snd flat_map].
  - split; [discriminate|]. intros ([|n] & k & x & Hn & _); discriminate.
  - rewrite find_app_first. destruct (List.find p (f x0)) as [b0|] eqn:Hx.
    + split.
      * intros [= <-]. exists 0%nat, k0, x0. repeat split; [exact Hx|].
        intros m k' y Hm. lia.
      * intros ([|n] & k & x & Hn & Hf & Hbefore); cbn [nth_error] in Hn.
        -- injection Hn as _ <-. congruence.
        -- specialize (Hbefore 0%nat k0 x0 ltac:(lia) eq_refl). congruence.
    + rewrite IH. split.
      * intros (n & k & x & Hn & Hf & Hbefore). exists (S n), k, x.
        split; [exact Hn|]. split; [exact Hf|].
        intros [|m] k' y Hm; cbn [nth_error].
        -- intros [= <- <-]. exact Hx.
        -- apply Hbefore. lia.
      * intros ([|n] & k & x & Hn & Hf & Hbefore); cbn [nth_error] in Hn.
        -- injection Hn as _ <-. congruence.
        -- exists n, k, x. split; [exact Hn|]. split; [exact Hf|].
           intros m k' y Hm Hm'. apply (Hbefore (S m) k' y); [lia | exact Hm'].
Qed.

End first_match.

Lemma named_type (a : gmap string pyval) :
  bool_decide (dict_get a "name" = PStr "type") = true
  <-> a !! "name"%string = Some (PStr "type").
Proof.
  rewrite bool_decide_eq_true. unfold dict_get.
  destruct (a !! "name"%string) as [v|]; simpl;
    split; congruence.
Qed.

Lemma not_named_type (a : gmap string pyval) :
  bool_decide (dict_get a "name" = PStr "type") = false
  <-> a !! "name"%string <> Some (PStr "type").
Proof.
  rewrite <- named_type. destruct (bool_decide _); split; congruence.
Qed.

(** The loops of [get_property('type')] stop at the first attribute named
    "type", by position. *)
Lemma get_property_type_first d a :
  get_property d (PStr "type") = Some a
  <-> exists i j k,
        attribute_at d i j k a
        /\ a !! "name"%string = Some (PStr "type")
        /\ forall i' j' k' a',
             attribute_at d i' j' k' a' -> before_position i' j' k' i j k ->
             a' !! "name"%string <> Some (PStr "type").
Proof.
  unfold get_property, all_attributes, od_values, attribute_at, before_position.
  unfold Attribute in *.
  set (p := fun a : gmap string pyval => bool_decide (dict_get a "name" = PStr "type")).
  set (G := fun c : Cluster => map snd (attributes c)).
  set (F := fun ep : Endpoint => flat_map G (map snd (clusters ep))).
  assert (HG : forall c, List.find p (G c) = None
                         <-> forall n k b, nth_error (attributes c) n = Some (k, b)
                                           -> b !! "name"%string <> Some (PStr "type")).
  { intros c. unfold G. rewrite find_values_None. split; intros H n k b Hn.
    - apply not_named_type. exact (H n k b Hn).
    - apply not_named_type. exact (H n k b Hn). }
  assert (HF : forall ep, List.find p (F ep) = None
                          <-> forall j kc c n k b,
                                nth_error (clusters ep) j = Some (kc, c) ->
                                nth_error (attributes c) n = Some (k, b) ->
                                b !! "name"%string <> Some (PStr "type")).
  { intros ep. unfold F. rewrite find_nested_None. split.
    - intros H j kc c n k b Hj Hn. exact (proj1 (HG c) (H j kc c Hj) n k b Hn).
    - intros H j kc c Hj. apply HG. intros n k b Hn. exact (H j kc c n k b Hj Hn). }
  rewrite find_nested_Some. split.
  - intros (i & ke & ep & Hi & Hep & Heps). unfold F in Hep.
    apply find_nested_Some in Hep as (j & kc & c & Hj & Hc & Hcs).
    unfold G in Hc. apply find_values_Some in Hc as (k & ka & Hk & Hp & Hks).
    exists i, j, k. split; [now exists ke, ep, kc, c, ka|].
    split; [now apply named_type|].
    intros i' j' k' a' (ke' & ep' & kc' & c' & ka' & Hi' & Hj' & Hk') Hbefore.
    destruct Hbefore as [Hlt|[-> [Hlt|[-> Hlt]]]].
    + exact (proj1 (HF ep') (Heps i' ke' ep' Hlt Hi') j' kc' c' k' ka' a' Hj' Hk').
    + rewrite Hi in Hi'. injection Hi' as <- <-.
      exact (proj1 (HG c') (Hcs j' kc' c' Hlt Hj') k' ka' a' Hk').
    + rewrite Hi in Hi'. injection Hi' as <- <-.
      rewrite Hj in Hj'. injection Hj' as <- <-.
      apply not_named_type. exact (Hks k' ka' a' Hlt Hk').
  - intros (i & j & k & (ke & ep & kc & c & ka & Hi & Hj & Hk) & Hn & Hfirst).
    exists i, ke, ep. split; [exact Hi|]. split.
    + unfold F. apply find_nested_Some. exists j, kc, c. split; [exact Hj|]. split.
      * unfold G. apply find_values_Some. exists k, ka. split; [exact Hk|].
        split; [now apply named_type|].
        intros m k' b' Hm Hm'. apply not_named_type.
        apply (Hfirst i j m b'); [now exists ke, ep, kc, c, k' | right; split; [reflexivity|]].
        right. split; [reflexivity | exact Hm].
      * intros m k' y Hm Hm'. apply HG. intros n k0 b Hn0.
        apply (Hfirst i m n b); [now exists ke, ep, k', y, k0 | right; split; [reflexivity|]].
        left. exact Hm.
    + intros m k' y Hm Hm'. apply HF. intros j0 kc0 c0 n k0 b Hj0 Hn0.
      apply (Hfirst m j0 n b); [now exists k', y, kc0, c0, k0 | left; exact Hm].
Qed.

(** What [get_property_value('type')] tells of the type. *)
Lemma type_value_known d :
  truthy (get_property_value d (PStr "type") PNone) = true <-> type_known d.
Proof.
  unfold get_property_value, type_known.
  destruct (get_property d (PStr "type")) as [a|] eqn:Hf.
  - apply get_property_type_first in Hf as (i & j & k & Hat & Hn & Hfirst).
    unfold Attribute in *.
    assert (Hne : bool_decide (a = ∅) = false).
    { apply bool_decide_eq_false. intros ->. rewrite lookup_empty in Hn. discriminate. }
    rewrite Hne. split.
    + intros Ht. destruct (a !! "value"%string) as [v|] eqn:Hv; [|discriminate].
      simpl in Ht. exists i, j, k, a, v. repeat split; try assumption.
      intros Hfalsy. apply truthy_falsy in Hfalsy. congruence.
    + intros (i0 & j0 & k0 & a0 & v & Hat0 & Hn0 & Hfirst0 & Hv & Hnf).
      assert (Hsame : get_property d (PStr "type") = Some a0).
      { apply get_property_type_first. now exists i0, j0, k0. }
      assert (Hfa : get_property d (PStr "type") = Some a).
      { apply get_property_type_first. now exists i, j, k. }
      rewrite Hsame in Hfa. injection Hfa as <-. rewrite Hv. simpl.
      destruct (truthy v) eqn:Ht; [reflexivity|].
      apply truthy_falsy in Ht. contradiction.
  - split; [discriminate|].
    intros (i & j & k & a & v & Hat & Hn & Hfirst & _).
    assert (Hsome : get_property d (PStr "type") = Some a).
    { apply get_property_type_first. now exists i, j, k. }
    congruence.
Qed.

(** C8, as stated, fails. A device built without an address has no
    endpoint, so the claim has [need_refresh] return true; the method
    formats the device for its log line first, which reads [self.addr],
    and raises [KeyError]. *)
Lemma need_refresh_raises_without_addr :
  no_endpoints (new_Device ∅)
  /\ info (new_Device ∅) !! "addr"%string = None
  /\ need_refresh (new_Device ∅) = None.
Proof. repeat split. Qed.

(** C8 (amended). For a device that has no address, [need_refresh] raises
    [KeyError]. For every other device it returns, and it answers true if
    and only if the type of the device is unknown, or its IEEE is unknown,
    or it has no endpoint, or one of its endpoints lacks a device type or a
    cluster list. *)
Theorem need_refresh_iff (d : Device) :
  match info d !! "addr"%string with
  | None => need_refresh d = None
  | Some _ =>
      exists need,
        need_refresh d = Some need
        /\ (need = true
            <-> type_unknown d \/ ieee_unknown d \/ no_endpoints d
                \/ exists k ep, In (k, ep) (endpoints d) /\ endpoint_incomplete ep)
  end.
Proof.
  unfold need_refresh, Device_str, Device_addr.
  destruct (info d !! "addr"%string) as [addr|]; [|reflexivity].
  cbn [mbind option_bind].
  eexists. split; [reflexivity|].
  rewrite need_refresh_loop.
  assert (Hex : existsb (fun ep => bool_decide (device ep = PNone)
                                   || bool_decide (in_clusters ep = None))
                        (od_values (endpoints d)) = true
                <-> exists k ep, In (k, ep) (endpoints d) /\ endpoint_incomplete ep).
  { rewrite existsb_exists. unfold endpoint_incomplete, od_values. split.
    - intros (ep & Hin & Hep). apply in_map_iff in Hin as ([k ep'] & Heq & Hin).
      cbn [snd] in Heq. subst ep'. exists k, ep. split; [exact Hin|].
      apply orb_true_iff in Hep as [H|H]; apply bool_decide_eq_true in H; auto.
    - intros (k & ep & Hin & Hep). exists ep.
      split; [exact (in_map snd _ _ Hin)|]. apply orb_true_iff.
      destruct Hep as [H|H]; [left | right]; now apply bool_decide_eq_true. }
  assert (Htype : truthy (get_property_value d (PStr "type") PNone) = false
                  <-> type_unknown d).
  { unfold type_unknown. rewrite <- type_value_known.
    destruct (truthy _); split; congruence. }
  assert (Hieee : truthy (Device_ieee d) = false <-> ieee_unknown d).
  { unfold ieee_unknown, Device_ieee, dict_get.
    destruct (info d !! "ieee"%string) as [v|]; simpl;
      [apply truthy_falsy | tauto]. }
  assert (Hnone : bool_decide (endpoints d = []) = true <-> no_endpoints d)
    by apply bool_decide_eq_true.
  rewrite <- Htype, <- Hieee, <- Hnone, <- Hex.
  destruct (truthy (get_property_value d (PStr "type") PNone)),
    (truthy (Device_ieee d)), (bool_decide (endpoints d = [])),
    (existsb _ (od_values (endpoints d))); cbn [negb orb]; intuition congruence.
Qed.

(** A device with an address and an IEEE, one endpoint with a device type
    and a cluster list, and the attribute "type" in its basic cluster. *)
Definition typed_device : Device :=
  {| info := <["addr"%string := PStr "0001"]> (<["ieee"%string := PStr "A"]> ∅);
     endpoints :=
       [(1, {| clusters :=
                 [(0, {| attributes :=
                           [(5, <["name"%string := PStr "type"]>
                                (<["value"%string := PStr "lumi.plug"]> ∅))] |})];
               profile := PInt 260; device := PInt 81;
               in_clusters := Some [0]; out_clusters := Some [] |})];
     missing := false |}.

Lemma typed_device_known : type_known typed_device.
Proof.
  exists 0%nat, 0%nat, 0%nat,
    (<["name"%string := PStr "type"]> (<["value"%string := PStr "lumi.plug"]> ∅)),
    (PStr "lumi.plug").
  split.
  { unfold attribute_at, typed_device. cbn [endpoints].
    eexists _, _, _, _, _. repeat split. }
  split; [reflexivity|]. split.
  { intros i' j' k' a' _ [H|[_ [H|[_ H]]]]; lia. }
  split; [reflexivity|]. intros [H|[H|H]]; discriminate.
Qed.

Lemma need_refresh_iff_witness :
  need_refresh typed_device = Some false
  /\ need_refresh (new_Device {[ "addr"%string := PStr "0001" ]}) = Some true.
Proof.
  split.
  - pose proof (need_refresh_iff typed_device) as H.
    change (info typed_device !! "addr"%string) with (Some (PStr "0001")) in H.
    destruct H as ([|] & Hrun & Hiff); [exfalso|exact Hrun].
    destruct (proj1 Hiff eq_refl) as [Hty|[Hi|[He|(k & ep & Hin & Hep)]]].
    + exact (Hty typed_device_known).
    + vm_compute in Hi. destruct Hi as [Hi|[Hi|Hi]]; discriminate Hi.
    + discriminate He.
    + destruct Hin as [Hin|[]]. injection Hin as _ <-.
      destruct Hep as [Hep|Hep]; discriminate Hep.
  - pose proof (need_refresh_iff (new_Device {[ "addr"%string := PStr "0001" ]})) as H.
    change (info (new_Device {[ "addr"%string := PStr "0001" ]}) !! "addr"%string)
      with (Some (PStr "0001")) in H.
    destruct H as (need & Hrun & Hiff). rewrite Hrun. f_equal.
    apply Hiff. right. right. left. reflexivity.
Defined.

End DirectoryProperties.

(* ===================================================================== *)
(** ** Properties of the frame layer *)
(* ===================================================================== *)

Module FramesProperties.

Import Frames.

(** C3. A packet whose decoded frame announces a length other than
    [len(payload) + 1], or carries a checksum byte other than the XOR of
    the frame's other bytes, is dropped by [decode_data]: the call returns
    without an exception and leaves the whole object as it was, so no
    device is created, updated, removed or renamed, no response is cached
    and no signal is dispatched. This holds whatever the response decoders
    and the subscribers are. *)
Theorem decode_data_discards RESPONSES interpret_response packet
  msg_type length chk value rssi z :
  unpack_frame (zigate_decode (strip_delimiters packet))
  = Some (msg_type, length, chk, value, rssi) ->
  length <> len value + 1
  \/ chk <> xor_fold (other_bytes (zigate_decode (strip_delimiters packet))) ->
  decode_data RESPONSES interpret_response packet z = Ok tt z.
Proof.
  intros Hu Hbad. unfold decode_data. rewrite Hu.
  destruct (Z.eqb_spec length (len value + 1)) as [Hlen|Hlen]; cbn [negb];
    [|reflexivity].
  rewrite (computed_checksum_other_bytes _ _ _ _ _ _ Hu).
  destruct (Z.eqb_spec chk
              (xor_fold (other_bytes (zigate_decode (strip_delimiters packet)))))
    as [Hchk|Hchk]; cbn [negb]; [|reflexivity].
  destruct Hbad; contradiction.
Qed.

(** A status frame (0x8000) whose length field says 5 for a payload of 3
    bytes and an rssi, and one whose checksum byte is off by one bit. *)
Definition bad_length_packet : bytes :=
  wrap_frame (zigate_encode [0x80; 0x00; 0x00; 0x05; 0x8c; 0x01; 0x02; 0x03; 0x09]).

Definition bad_checksum_packet : bytes :=
  wrap_frame (zigate_encode [0x80; 0x00; 0x00; 0x04; 0x8c; 0x01; 0x02; 0x03; 0x09]).

Lemma decode_data_discards_witness :
  decode_data (fun m _ _ => Some (mkResponse m ∅)) (fun _ => raise KeyError)
              bad_length_packet init_ZiGate = Ok tt init_ZiGate
  /\ decode_data (fun m _ _ => Some (mkResponse m ∅)) (fun _ => raise KeyError)
                 bad_checksum_packet init_ZiGate = Ok tt init_ZiGate.
Proof.
  split.
  - apply (decode_data_discards _ _ bad_length_packet
             0x8000 0x05 0x8c [0x01; 0x02; 0x03] 0x09).
    + vm_compute. reflexivity.
    + left. vm_compute. intros H. discriminate H.
  - apply (decode_data_discards _ _ bad_checksum_packet
             0x8000 0x04 0x8c [0x01; 0x02; 0x03] 0x09).
    + vm_compute. reflexivity.
    + right. vm_compute. intros H. discriminate H.
Defined.

Lemma frame_sent_status cmd byte_data wait_response z :
  last_status_get (frame_sent cmd byte_data wait_response z) cmd = None
  /\ _no_response_count (frame_sent cmd byte_data wait_response z)
     = _no_response_count z.
Proof.
  unfold frame_sent, last_status_get.
  destruct wait_response as [m|]; [destruct (m =? 0)|];
    cbn [_last_status _no_response_count with_last_status with_last_response
         with_connection];
    rewrite lookup_insert_eq; split; reflexivity.
Qed.

(** *** The status wait and the clock *)

(** A status written by the event loop, with the clock reading at which it
    was written. *)
Record arrival : Type := mkArrival {
  at_clock : Z;
  for_cmd : Z;
  with_status : Z
}.

(** What a caller meets whose [k]-th sleep ends at the reading
    [readings k]: after each sleep it finds the statuses written since the
    reading before. *)
Definition world_of (units t0 : Z) (readings : nat -> Z) (arrivals : list arrival)
  : world :=
  {| per_second := units; time0 := t0;
     ticks := fun k =>
       let since := match k with O => t0 | S k' => readings k' end in
       mkTick (map (fun a => (for_cmd a, with_status a))
                   (List.filter (fun a => (since <? at_clock a)
                                          && (at_clock a <=? readings k))
                                arrivals))
              [] (readings k) |}.

(** A caller that polls every 10 ms of a millisecond clock and wakes up
    5 ms late from its 300th sleep on; the status 0 of command 0x0015 is
    written 2995 ms after the command was sent. *)
Definition acknowledged : arrival := mkArrival 2995 0x0015 0.

Definition late_wakeup : world :=
  world_of 1000 0
    (fun k => 10 * (Z.of_nat k + 1) + if (k <? 299)%nat then 0 else 5)
    [acknowledged].

(** A transport that stays silent while the caller polls every 10 ms of a
    millisecond clock, and one that brings the status 0 of command 0x0015
    during the third sleep. *)
Definition silent_world : world :=
  {| per_second := 1000; time0 := 0;
     ticks := fun k => mkTick [] [] (10 * (Z.of_nat k + 1)) |}.

Definition answering_world : world :=
  {| per_second := 1000; time0 := 0;
     ticks := fun k => mkTick (if Nat.eqb k 2 then [(0x0015, 0)] else []) []
                              (10 * (Z.of_nat k + 1)) |}.

(** C6, as stated, fails. The status of command 0x0015 is written 2995 ms
    after the command was sent, within the three seconds. The caller is
    asleep then and reads the clock at 3005 ms; the loop tests the clock
    before it looks at the status again, so the wait gives up: [send_data]
    returns an absent status and the counter of commands without response
    goes up, with the status stored in [_last_status]. *)
Lemma status_in_time_met_late :
  at_clock acknowledged - time0 late_wakeup <= 3 * per_second late_wakeup
  /\ exists z',
       send_data 301 late_wakeup silent_world 0x0015 [] None true init_ZiGate
       = Some (Ok (Status None) z')
       /\ _no_response_count z' = _no_response_count init_ZiGate + 1
       /\ last_status_get z' 0x0015 = Some 0.
Proof.
  split; [vm_compute; discriminate|].
  assert (Hrun : exists r,
            send_data 301 late_wakeup silent_world 0x0015 [] None true init_ZiGate
            = Some r) by (eexists; vm_compute; reflexivity).
  destruct Hrun as [r Hrun]. pose proof Hrun as Hr. vm_compute in Hr.
  injection Hr as Hr. rewrite <- Hr in Hrun.
  eexists. split; [exact Hrun|]. split; vm_compute; reflexivity.
Qed.

Lemma last_status_get_count z n cmd :
  last_status_get (with_no_response_count z n) cmd = last_status_get z cmd.
Proof. reflexivity. Qed.

(** C6 (amended). A command sent with [wait_status=True] over a connected
    transport:
    - when no status for the command ever arrives, and each round of the
      polling loop sleeps for some time, the wait ends at the first clock
      reading that lies more than three seconds after the start, not
      before; [send_data] returns an absent status, without an exception,
      and the counter of commands without response has gone up by one;
    - when a status arrives during a sleep and the clock reading that
      follows this sleep is still within the three seconds, the wait
      returns that status and the counter is back at zero; [send_data]
      returns the status when no response was asked for;
    - when a status arrives during a sleep and the clock reading that
      follows this sleep is the first beyond the three seconds, the wait
      gives up all the same: [send_data] returns an absent status and the
      counter has gone up by one, the status left in [_last_status]. *)
Theorem send_data_wait_status w w' cmd byte_data wait_response z :
  is_connected (connection z) = true ->
  0 <= cmd < 65536 -> bytes_ok byte_data -> len byte_data < 65536 ->
  ((forall k, delivered (ticks w k) cmd = None) ->
   forall d, sleeps_at_least d w ->
   exists n z',
     (forall fuel, (n < fuel)%nat ->
        send_data fuel w w' cmd byte_data wait_response true z
        = Some (Ok (Status None) z'))
     /\ _no_response_count z' = _no_response_count z + 1
     /\ 3 * per_second w < clock (ticks w n) - time0 w
     /\ (forall j, (j < n)%nat -> clock (ticks w j) - time0 w <= 3 * per_second w))
  /\ (forall n s,
        (forall j, (j < n)%nat -> delivered (ticks w j) cmd = None) ->
        delivered (ticks w n) cmd = Some s ->
        (forall j, (j <= n)%nat -> clock (ticks w j) - time0 w <= 3 * per_second w) ->
        exists z',
          (forall fuel, (S n < fuel)%nat ->
             _wait_status fuel w cmd (frame_sent cmd byte_data wait_response z)
             = Some (Ok (Some s) z'))
          /\ _no_response_count z' = 0
          /\ (forall fuel, (S n < fuel)%nat ->
                wait_response = None \/ wait_response = Some 0 ->
                send_data fuel w w' cmd byte_data wait_response true z
                = Some (Ok (Status (Some s)) z')))
  /\ (forall n s,
        (forall j, (j < n)%nat -> delivered (ticks w j) cmd = None) ->
        delivered (ticks w n) cmd = Some s ->
        (forall j, (j < n)%nat -> clock (ticks w j) - time0 w <= 3 * per_second w) ->
        3 * per_second w < clock (ticks w n) - time0 w ->
        exists z',
          (forall fuel, (n < fuel)%nat ->
             send_data fuel w w' cmd byte_data wait_response true z
             = Some (Ok (Status None) z'))
          /\ _no_response_count z' = _no_response_count z + 1
          /\ last_status_get z' cmd = Some s).
Proof.
  intros Hconn Hcmd Hb Hl.
  pose proof (send_frame_run cmd byte_data wait_response z Hconn Hcmd Hb Hl) as Hsend.
  destruct (frame_sent_status cmd byte_data wait_response z) as [Hst Hcnt].
  split; [|split].
  - intros Hsilent d Hsleep.
    destruct (sleeping_late d w Hsleep) as [N HN].
    destruct (first_late_reading w (time0 w) N HN) as (n & _ & Hlate & Hearly).
    exists n. eexists. split; [|split; [|split; [exact Hlate | exact Hearly]]].
    + intros fuel Hfuel. unfold send_data. rewrite Hsend. unfold _wait_status.
      rewrite (_wait_status_loop_timeout w cmd (time0 w) n 0
                 (frame_sent cmd byte_data wait_response z) fuel Hst);
        [ | intros j _; apply Hsilent
          | intros j Hj; apply Hearly; lia | exact Hlate | exact Hfuel ].
      destruct wait_response; reflexivity.
    + cbn [_no_response_count with_no_response_count]. now rewrite Hcnt.
  - intros n s Hsilent Hgot Hearly. eexists.
    assert (Hwait : forall fuel, (S n < fuel)%nat ->
              _wait_status fuel w cmd (frame_sent cmd byte_data wait_response z)
              = Some (Ok (Some s)
                        (with_no_response_count
                           (deliver_upto w 0 (S n)
                              (frame_sent cmd byte_data wait_response z)) 0))).
    { intros fuel Hfuel. unfold _wait_status.
      apply (_wait_status_loop_status w cmd (time0 w) s n 0); try assumption.
      - intros j Hj. apply Hsilent. lia.
      - intros j Hj. apply Hearly. lia. }
    split; [exact Hwait|]. split; [reflexivity|].
    intros fuel Hfuel Hnone. unfold send_data. rewrite Hsend, (Hwait fuel Hfuel).
    destruct Hnone as [->| ->]; reflexivity.
  - intros n s Hsilent Hgot Hearly Hlate. eexists. split; [|split].
    + intros fuel Hfuel. unfold send_data. rewrite Hsend. unfold _wait_status.
      rewrite (_wait_status_loop_timeout w cmd (time0 w) n 0
                 (frame_sent cmd byte_data wait_response z) fuel Hst);
        [ | intros j Hj; apply Hsilent; lia
          | intros j Hj; apply Hearly; lia | exact Hlate | exact Hfuel ].
      destruct wait_response; reflexivity.
    + cbn [_no_response_count with_no_response_count]. now rewrite Hcnt.
    + rewrite last_status_get_count, deliver_upto_snoc, last_status_get_deliver.
      cbn [Nat.add]. now rewrite Hgot.
Qed.

Lemma late_wakeup_readings :
  (forall j, (j < 299)%nat -> delivered (ticks late_wakeup j) 0x0015 = None)
  /\ delivered (ticks late_wakeup 299) 0x0015 = Some 0
  /\ (forall j, (j < 299)%nat ->
        clock (ticks late_wakeup j) - time0 late_wakeup <= 3 * per_second late_wakeup)
  /\ 3 * per_second late_wakeup
     < clock (ticks late_wakeup 299) - time0 late_wakeup.
Proof.
  split; [|split; [vm_compute; reflexivity|split; [|vm_compute; reflexivity]]].
  - intros j Hj. unfold late_wakeup, world_of, delivered, acknowledged.
    cbn [ticks statuses List.filter at_clock].
    destruct (Nat.ltb_spec j 299) as [_|]; [|lia].
    destruct (Z.leb_spec 2995 (10 * (Z.of_nat j + 1) + 0)) as [Hle|_]; [lia|].
    rewrite andb_false_r. reflexivity.
  - intros j Hj. unfold late_wakeup, world_of.
    cbn [ticks clock time0 per_second].
    destruct (Nat.ltb_spec j 299) as [_|]; lia.
Qed.

Lemma send_data_wait_status_witness :
  (exists n z',
     send_data (S n) silent_world silent_world 0x0015 [] None true init_ZiGate
     = Some (Ok (Status None) z')
     /\ _no_response_count z' = 1)
  /\ (exists z',
        send_data 4 answering_world silent_world 0x0015 [] None true init_ZiGate
        = Some (Ok (Status (Some 0)) z')
        /\ _no_response_count z' = 0)
  /\ (exists z',
        send_data 300 late_wakeup silent_world 0x0015 [] None true init_ZiGate
        = Some (Ok (Status None) z')
        /\ _no_response_count z' = 1
        /\ last_status_get z' 0x0015 = Some 0).
Proof.
  split; [|split].
  - destruct (send_data_wait_status silent_world silent_world 0x0015 [] None
                init_ZiGate eq_refl ltac:(lia) ltac:(constructor)
                ltac:(vm_compute; reflexivity)) as [Htimeout _].
    destruct (Htimeout (fun k => eq_refl) 10) as (n & z' & Hrun & Hcount & _).
    { unfold sleeps_at_least, silent_world. cbn [time0 ticks clock].
      repeat split; intros; lia. }
    exists n, z'. split; [apply Hrun; lia | exact Hcount].
  - destruct (send_data_wait_status answering_world silent_world 0x0015 [] None
                init_ZiGate eq_refl ltac:(lia) ltac:(constructor)
                ltac:(vm_compute; reflexivity)) as (_ & Hstatus & _).
    destruct (Hstatus 2%nat 0) as (z' & _ & Hcount & Hrun).
    { intros j Hj. destruct j as [|[|j]]; [reflexivity | reflexivity | lia]. }
    { reflexivity. }
    { intros j Hj. unfold answering_world. cbn [time0 ticks clock per_second]. lia. }
    exists z'. split; [apply Hrun; [lia | now left] | exact Hcount].
  - destruct (send_data_wait_status late_wakeup silent_world 0x0015 [] None
                init_ZiGate eq_refl ltac:(lia) ltac:(constructor)
                ltac:(vm_compute; reflexivity)) as (_ & _ & Hlate).
    destruct late_wakeup_readings as (Hsilent & Hgot & Hearly & Hbeyond).
    destruct (Hlate 299%nat 0 Hsilent Hgot Hearly Hbeyond)
      as (z' & Hrun & Hcount & Hstored).
    exists z'. split; [apply Hrun; lia|]. split; [exact Hcount | exact Hstored].
Defined.

End FramesProperties.

(* ===================================================================== *)
(** ** Properties of the firmware upload session *)
(* ===================================================================== *)

Module OtaProperties.

Import Ota Datetime.

Lemma strip_wrap_frame enc : strip_delimiters (wrap_frame enc) = enc.
Proof. unfold strip_delimiters, wrap_frame. cbn [tl]. apply removelast_last. Qed.

(** C4. An image block request received while a header and the image are
    loaded, over a connected transport:
    - when its image version, image type and manufacturer code equal those
      of the loaded header, one frame is sent: the 0x0502 message whose
      payload carries the sequence number of the request and the bytes
      [image_data[file_offset : file_offset + max_data_size]], and which
      the receiver decodes back from the frame; the counter of transferred
      bytes is set to the file offset, the loaded image stays;
    - when one of the three differs, nothing is sent and the object, the
      session included, is left as it was. *)
Theorem _ota_send_image_data_serves now request z header image a :
  image_header (_ota z) = Some header -> image_data (_ota z) = Some image ->
  ota_consistent (_ota z) -> bytes_ok image ->
  request_wf request a ->
  is_connected (connection z) = true ->
  (request_matches request header ->
   exists z' frame,
     _ota_send_image_data now request z = Ok tt z'
     /\ sent (connection z') = sent (connection z) ++ [frame]
     /\ zigate_decode (strip_delimiters frame)
        = message 0x0502
            (block_payload request a header
               (firstn (Z.to_nat (request_max_data_size request))
                       (skipn (Z.to_nat (request_file_offset request)) image)))
     /\ transfered (_ota z') = request_file_offset request
     /\ image_header (_ota z') = Some header
     /\ image_data (_ota z') = Some image
     /\ _devices z' = _devices z)
  /\ (~ request_matches request header ->
      _ota_send_image_data now request z = Ok tt z).
Proof.
  intros Hh Hd Hcons Hb Hwf Hconn. split.
  - intros Hmatch.
    pose proof Hwf as (_ & _ & _ & _ & _ & Ho & _ & _ & _ & Hx).
    rewrite <- (slice_nonneg image (request_file_offset request)
                  (request_max_data_size request))
      by (unfold is_byte in Hx; lia).
    do 2 eexists.
    split; [apply (_ota_send_image_data_run now request z header image a);
            assumption|].
    destruct (serving_image now request (_ota z)) as (Eh & Ed & Et).
    unfold frame_sent.
    cbn [connection sent with_connection with_last_status with_ota _ota _devices].
    split; [reflexivity|].
    split; [rewrite strip_wrap_frame; apply zigate_decode_encode_id|].
    split; [exact Et|]. split; [congruence|]. split; [congruence | reflexivity].
  - intros Hno.
    apply (_ota_send_image_data_mismatch now request z header image); assumption.
Qed.

(** The example of the spec: a loaded image of 200 bytes with version 5,
    type 1 and manufacturer code 9. *)
Definition image_200 : bytes := map Z.of_nat (seq 0 200).

Definition loaded : ZiGate :=
  with_ota init_ZiGate
    {| image_header := Some (mkImageHeader 9 1 5 200);
       image_data := Some image_200;
       active := false; starttime := None; transfered := 0; ota_addr := PNone |}.

Definition block_100_50 (version : Z) : BlockRequest :=
  mkBlockRequest (PStr "ab12") 2 1 7 100 version 1 9 50.

Lemma loaded_facts :
  ota_consistent (_ota loaded) /\ bytes_ok image_200
  /\ forall version, 0 <= version < 4294967296 ->
                     request_wf (block_100_50 version) 0xab12.
Proof.
  split; [|split].
  - split; [discriminate|]. intros image [= <-]. discriminate.
  - unfold bytes_ok, image_200. apply List.Forall_forall. intros x Hx.
    apply in_map_iff in Hx as (n & <- & Hn). apply in_seq in Hn.
    unfold is_byte. lia.
  - intros version Hv. unfold request_wf, is_byte. cbn. repeat split; lia.
Qed.

Lemma _ota_send_image_data_serves_witness :
  (exists z' frame,
     _ota_send_image_data (mkDatetime 2024 1 2 3 4 5 0) (block_100_50 5) loaded
     = Ok tt z'
     /\ sent (connection z') = [frame]
     /\ transfered (_ota z') = 100
     /\ skipn 20 (skipn 5 (zigate_decode (strip_delimiters frame)))
        = map Z.of_nat (seq 100 50))
  /\ _ota_send_image_data (mkDatetime 2024 1 2 3 4 5 0) (block_100_50 6) loaded
     = Ok tt loaded.
Proof.
  destruct loaded_facts as (Hcons & Hbytes & Hwf).
  split.
  - destruct (_ota_send_image_data_serves (mkDatetime 2024 1 2 3 4 5 0)
                (block_100_50 5) loaded (mkImageHeader 9 1 5 200) image_200 0xab12
                eq_refl eq_refl Hcons Hbytes (Hwf 5 ltac:(lia)) eq_refl)
      as [Hserve _].
    destruct Hserve as (z' & frame & Hrun & Hsent & Hdec & Htr & _).
    { repeat split. }
    exists z', frame. split; [exact Hrun|]. split; [exact Hsent|].
    split; [exact Htr|]. rewrite Hdec. vm_compute. reflexivity.
  - destruct (_ota_send_image_data_serves (mkDatetime 2024 1 2 3 4 5 0)
                (block_100_50 6) loaded (mkImageHeader 9 1 5 200) image_200 0xab12
                eq_refl eq_refl Hcons Hbytes (Hwf 6 ltac:(lia)) eq_refl)
      as [_ Hdrop].
    apply Hdrop. intros (Hv & _). discriminate Hv.
Defined.

(** C5. An upgrade end request received while the session is active resets
    the session whatever its status says: header and image are cleared,
    [active] is false, the start time is forgotten, the counter of
    transferred bytes is 0 and the target address is cleared; nothing else
    of the object changes. *)
Theorem _ota_handle_upgrade_end_request_resets now request z :
  active (_ota z) = true -> ota_consistent (_ota z) ->
  exists z',
    _ota_handle_upgrade_end_request now request z = Ok tt z'
    /\ image_header (_ota z') = None /\ image_data (_ota z') = None
    /\ active (_ota z') = false /\ starttime (_ota z') = None
    /\ transfered (_ota z') = 0 /\ ota_addr (_ota z') = PNone
    /\ z' = with_ota z _ota_reset_value.
Proof.
  intros Hact [Hst _]. exists (with_ota z _ota_reset_value).
  split; [|repeat split].
  unfold _ota_handle_upgrade_end_request, _ota_reset_local_variables.
  run_method. rewrite Hact.
  destruct (request_status request =? 0); [|reflexivity].
  destruct (starttime (_ota z)) eqn:Hs; [reflexivity|].
  exfalso. now apply Hst.
Qed.

(** The session of [loaded] after the first block was served. *)
Definition transferring : ZiGate :=
  with_ota loaded (serving (mkDatetime 2024 1 2 3 4 5 0) (block_100_50 5)
                           (_ota loaded)).

Lemma _ota_handle_upgrade_end_request_resets_witness :
  _ota_handle_upgrade_end_request (mkDatetime 2024 1 2 3 9 0 0)
    (mkEndRequest 0x00) transferring = Ok tt init_ZiGate
  /\ _ota_handle_upgrade_end_request (mkDatetime 2024 1 2 3 9 0 0)
       (mkEndRequest 0x95) transferring = Ok tt init_ZiGate
  /\ _ota_handle_upgrade_end_request (mkDatetime 2024 1 2 3 9 0 0)
       (mkEndRequest 0x42) transferring = Ok tt init_ZiGate.
Proof.
  assert (Hcons : ota_consistent (_ota transferring)).
  { split; [discriminate|]. intros image [= <-]. discriminate. }
  assert (Hall : forall status,
            _ota_handle_upgrade_end_request (mkDatetime 2024 1 2 3 9 0 0)
              (mkEndRequest status) transferring = Ok tt init_ZiGate).
  { intros status.
    destruct (_ota_handle_upgrade_end_request_resets
                (mkDatetime 2024 1 2 3 9 0 0) (mkEndRequest status) transferring
                eq_refl Hcons) as (z' & Hrun & _ & _ & _ & _ & _ & _ & Hz').
    rewrite Hrun, Hz'. reflexivity. }
  split; [apply Hall | split; apply Hall].
Defined.

End OtaProperties.

(* ===================================================================== *)
(** ** More about the frame codec *)
(* ===================================================================== *)

Module CodecLaws.

Import Codec.

Lemma decode_loop_acc data : forall flip acc,
  snd (fold_left decode_step data (flip, acc))
  = acc ++ snd (fold_left decode_step data (flip, [])).
Proof.
  induction data as [|b data IH]; intros flip acc; cbn [fold_left].
  - cbn [snd]. symmetry. apply app_nil_r.
  - unfold decode_step at 2 4. destruct flip.
    + rewrite (IH false (acc ++ _)), (IH false ([] ++ _)).
      now rewrite <- app_assoc.
    + destruct (b =? 2).
      * apply IH.
      * rewrite (IH false (acc ++ _)), (IH false ([] ++ _)).
        now rewrite <- app_assoc.
Qed.

Lemma decode_loop_length data : forall flip acc,
  (List.length (snd (fold_left decode_step data (flip, acc)))
   <= List.length acc + List.length data)%nat.
Proof.
  induction data as [|b data IH]; intros flip acc; cbn [fold_left List.length].
  - cbn [snd]. lia.
  - unfold decode_step at 2. destruct flip; [|destruct (b =? 2)];
      (etransitivity; [apply IH|]); rewrite ?length_app; cbn [List.length]; lia.
Qed.

Lemma encode_byte_length b :
  List.length (encode_byte b) = if b <? 0x10 then 2%nat else 1%nat.
Proof. unfold encode_byte. destruct (b <? 16); reflexivity. Qed.

(** The bytes of a message that [zigate_encode] escapes. *)
Definition escaped (x : bytes) : bytes := List.filter (fun b => b <? 0x10) x.

(** X1. Encoding works byte by byte: the encoding of a concatenation is the
    concatenation of the encodings, so a message can be encoded in pieces;
    each byte below 0x10 costs one more byte, and the encoding is never
    shorter than the message nor longer than twice its length. *)
Theorem zigate_encode_app (x y : bytes) :
  zigate_encode (x ++ y) = zigate_encode x ++ zigate_encode y
  /\ List.length (zigate_encode x)
     = (List.length x + List.length (escaped x))%nat
  /\ (List.length x <= List.length (zigate_encode x) <= 2 * List.length x)%nat.
Proof.
  assert (Hlen : List.length (zigate_encode x)
                 = (List.length x + List.length (escaped x))%nat).
  { induction x as [|b x IH]; [reflexivity|].
    rewrite zigate_encode_cons, length_app, IH, encode_byte_length.
    unfold escaped. cbn [List.filter List.length]. destruct (b <? 16); cbn [List.length]; lia. }
  split; [|split; [exact Hlen|]].
  - rewrite !zigate_encode_flat. apply flat_map_app.
  - pose proof (List.filter_length_le (fun b => b <? 0x10) x). unfold escaped in Hlen. lia.
Qed.

(** X2. Decoding a stream that starts with an encoded message gives the
    message followed by the decoding of the rest, whatever the rest is; an
    escape marker 0x02 left at the end of the input is dropped without a
    trace; and decoding never lengthens its input. *)
Theorem zigate_decode_encoded_prefix (x rest : bytes) :
  zigate_decode (zigate_encode x ++ rest) = x ++ zigate_decode rest
  /\ zigate_decode (zigate_encode x ++ [0x02]) = x
  /\ (List.length (zigate_decode rest) <= List.length rest)%nat.
Proof.
  assert (Hpre : forall r, zigate_decode (zigate_encode x ++ r) = x ++ zigate_decode r).
  { intros r. unfold zigate_decode.
    rewrite fold_left_app, decode_encode_loop. cbn [app]. apply decode_loop_acc. }
  split; [apply Hpre|]. split.
  - rewrite Hpre. cbn. apply app_nil_r.
  - apply (decode_loop_length rest false []).
Qed.

End CodecLaws.

(* ===================================================================== *)
(** ** More about sending and receiving *)
(* ===================================================================== *)

Module FramesLaws.

Import Handlers.

Lemma strip_delimiters_wrap enc : strip_delimiters (wrap_frame enc) = enc.
Proof. unfold strip_delimiters, wrap_frame. cbn [tl]. apply removelast_last. Qed.

Lemma xor_loop_acc l : forall acc, fold_left Z.lxor l acc = Z.lxor acc (xor_fold l).
Proof.
  unfold xor_fold. induction l as [|x l IH]; intros acc; cbn [fold_left].
  - symmetry. apply Z.lxor_0_r.
  - rewrite (IH (Z.lxor acc x)), (IH (Z.lxor 0 x)), Z.lxor_0_l.
    apply Z.lxor_assoc.
Qed.

Lemma xor_fold_cons x l : xor_fold (x :: l) = Z.lxor x (xor_fold l).
Proof. unfold xor_fold at 1. cbn [fold_left]. now rewrite xor_loop_acc, Z.lxor_0_l. Qed.

Lemma xor_fold_app l l' : xor_fold (l ++ l') = Z.lxor (xor_fold l) (xor_fold l').
Proof. unfold xor_fold at 1. rewrite fold_left_app. apply xor_loop_acc. Qed.

(** Replacing one byte by another one changes the XOR of the sequence. *)
Lemma xor_fold_insert l : forall (i : nat) a b,
  l !! i = Some a -> b <> a -> xor_fold (<[i := b]> l) <> xor_fold l.
Proof.
  induction l as [|x l IH]; intros i a b Hi Hne; [discriminate|].
  destruct i as [|i]; cbn -[xor_fold] in Hi |- *.
  - injection Hi as ->. rewrite !xor_fold_cons. intros Heq. apply Hne.
    apply (f_equal (fun v => Z.lxor v (xor_fold l))) in Heq.
    now rewrite !Z.lxor_assoc, !Z.lxor_nilpotent, !Z.lxor_0_r in Heq.
  - rewrite !xor_fold_cons. intros Heq. apply (IH i a b Hi Hne).
    apply (f_equal (Z.lxor x)) in Heq.
    now rewrite <- !Z.lxor_assoc, !Z.lxor_nilpotent, !Z.lxor_0_l in Heq.
Qed.

Lemma decode_data_rejects RESPONSES interpret_response packet decoded
  msg_type length chk value rssi z :
  zigate_decode (strip_delimiters packet) = decoded ->
  unpack_frame decoded = Some (msg_type, length, chk, value, rssi) ->
  length <> len value + 1 \/ chk <> xor_fold (other_bytes decoded) ->
  decode_data RESPONSES interpret_response packet z = Ok tt z.
Proof.
  intros Hd Hu Hbad. unfold decode_data. rewrite Hd, Hu.
  destruct (Z.eqb_spec length (len value + 1)) as [Hlen|Hlen]; cbn [negb];
    [|reflexivity].
  rewrite (computed_checksum_other_bytes _ _ _ _ _ _ Hu).
  destruct (Z.eqb_spec chk (xor_fold (other_bytes decoded))) as [Hchk|Hchk];
    cbn [negb]; [|reflexivity].
  destruct Hbad; contradiction.
Qed.

(** X3. The checksum and the length field protect every byte of a frame:
    take a decoded frame that [decode_data] would accept and change any one
    of its bytes, header, length, checksum, payload or rssi, to another
    value; the packet that decodes to the changed frame is dropped, and the
    object is left as it was. *)
Theorem decode_data_one_byte_changed RESPONSES interpret_response packet decoded
  msg_type value rssi (i : nat) (a b : Z) z :
  unpack_frame decoded
  = Some (msg_type, len value + 1, xor_fold (other_bytes decoded), value, rssi) ->
  decoded !! i = Some a -> b <> a ->
  zigate_decode (strip_delimiters packet) = <[i := b]> decoded ->
  decode_data RESPONSES interpret_response packet z = Ok tt z.
Proof.
  intros Hu Hi Hne Hd.
  destruct decoded as [|m1 [|m0 [|l1 [|l0 [|c [|v rest]]]]]]; try discriminate.
  assert (Hfields : unpack_H l1 l0 = len value + 1
                    /\ c = xor_fold (other_bytes (m1 :: m0 :: l1 :: l0 :: c :: v :: rest))
                    /\ removelast (v :: rest) = value).
  { unfold unpack_frame in Hu. injection Hu as _ Hlen Hchk Hval _.
    repeat split; assumption. }
  destruct Hfields as (Hlen & Hchk & Hval).
  unfold other_bytes in Hchk. cbn [firstn skipn app] in Hchk.
  destruct i as [|[|[|[|[|j]]]]]; cbn in Hi; try (injection Hi as ->).
  - (* first byte of the message type *)
    eapply decode_data_rejects; [exact Hd | reflexivity |]. right.
    unfold other_bytes. cbn [firstn skipn app]. rewrite Hchk. intros Heq.
    refine (xor_fold_insert (a :: m0 :: l1 :: l0 :: v :: rest) 0 a b eq_refl Hne _).
    symmetry. exact Heq.
  - eapply decode_data_rejects; [exact Hd | reflexivity |]. right.
    unfold other_bytes. cbn [firstn skipn app]. rewrite Hchk. intros Heq.
    refine (xor_fold_insert (m1 :: a :: l1 :: l0 :: v :: rest) 1 a b eq_refl Hne _).
    symmetry. exact Heq.
  - (* the length field *)
    eapply decode_data_rejects; [exact Hd | reflexivity |]. left.
    rewrite Hval, <- Hlen. unfold unpack_H. lia.
  - eapply decode_data_rejects; [exact Hd | reflexivity |]. left.
    rewrite Hval, <- Hlen. unfold unpack_H. lia.
  - (* the checksum byte *)
    eapply decode_data_rejects; [exact Hd | reflexivity |]. right.
    change (b <> xor_fold (m1 :: m0 :: l1 :: l0 :: v :: rest)). congruence.
  - (* payload and rssi *)
    assert (Hshape : exists v' rest', <[j := b]> (v :: rest) = v' :: rest').
    { destruct j; cbn; eauto. }
    destruct Hshape as (v' & rest' & Hvr).
    assert (Hd' : zigate_decode (strip_delimiters packet)
                  = m1 :: m0 :: l1 :: l0 :: c :: v' :: rest').
    { rewrite Hd, <- Hvr. reflexivity. }
    eapply decode_data_rejects; [exact Hd' | reflexivity |]. right.
    unfold other_bytes. cbn [firstn skipn app]. rewrite Hchk, <- Hvr. intros Heq.
    refine (xor_fold_insert (m1 :: m0 :: l1 :: l0 :: v :: rest) (4 + j) a b Hi Hne _).
    symmetry. exact Heq.
Qed.

Lemma decode_data_one_byte_changed_witness :
  decode_data (fun m _ _ => Some (mkResponse m ∅)) (fun _ => raise KeyError)
    (wrap_frame (zigate_encode [0x80; 0x00; 0x00; 0x04; 0x8d; 0x01; 0x07; 0x03; 0x09]))
    init_ZiGate
  = Ok tt init_ZiGate.
Proof.
  apply (decode_data_one_byte_changed _ _ _
           [0x80; 0x00; 0x00; 0x04; 0x8d; 0x01; 0x02; 0x03; 0x09]
           0x8000 [0x01; 0x02; 0x03] 0x09 6 0x02 0x07).
  - vm_compute. reflexivity.
  - reflexivity.
  - intros H. discriminate H.
  - vm_compute. reflexivity.
Defined.

(** *** Outbound frames *)

Lemma unpack_H_be16 v : unpack_H (v / 256) (v mod 256) = v.
Proof. unfold unpack_H. pose proof (Z.div_mod v 256). lia. Qed.

Lemma checksum_three a b c :
  checksum [ABytes a; ABytes b; ABytes c] = xor_fold (a ++ b ++ c).
Proof. unfold checksum, xor_fold. cbn [fold_left checksum_arg]. now rewrite !fold_left_app. Qed.

(** X4. [send_data(cmd, data, wait_status=False)] over a connected
    transport returns [False] at once, whatever the clock and the event
    loop do, after handing exactly one frame to the transport. The frame
    starts with 0x01 and ends with 0x03; stripped of the two and decoded, it
    is the command and the payload length, big-endian, a checksum byte and
    the payload, and the checksum byte is the XOR of all the other bytes. *)
Theorem send_data_no_wait_frame fuel w w' cmd byte_data wait_response z :
  is_connected (connection z) = true ->
  0 <= cmd < 65536 -> bytes_ok byte_data -> len byte_data < 65536 ->
  exists enc z',
    send_data fuel w w' cmd byte_data wait_response false z = Some (Ok Not_waited z')
    /\ sent (connection z') = sent (connection z) ++ [[0x01] ++ enc ++ [0x03]]
    /\ zigate_decode enc
       = be16 cmd ++ be16 (len byte_data)
         ++ [xor_fold (be16 cmd ++ be16 (len byte_data) ++ byte_data)] ++ byte_data
    /\ strip_delimiters ([0x01] ++ enc ++ [0x03]) = enc.
Proof.
  intros Hconn Hcmd Hb Hl.
  exists (zigate_encode (message cmd byte_data)),
         (frame_sent cmd byte_data wait_response z).
  split; [|split; [|split]].
  - unfold send_data. now rewrite send_frame_run.
  - unfold frame_sent.
    destruct wait_response as [m|]; [destruct (m =? 0)|]; reflexivity.
  - rewrite zigate_decode_encode_id. unfold message. now rewrite checksum_three.
  - apply strip_delimiters_wrap.
Qed.

Lemma send_data_no_wait_frame_witness :
  exists enc z',
    send_data 0 (mkWorld 1000 0 (fun _ => mkTick [] [] 0))
              (mkWorld 1000 0 (fun _ => mkTick [] [] 0))
              0x0049 [0xff; 0xfc; 0x1e; 0x00] None false init_ZiGate
    = Some (Ok Not_waited z')
    /\ sent (connection z') = [[0x01] ++ enc ++ [0x03]]
    /\ zigate_decode enc = [0x00; 0x49; 0x00; 0x04; 0x50; 0xff; 0xfc; 0x1e; 0x00].
Proof.
  destruct (send_data_no_wait_frame 0 (mkWorld 1000 0 (fun _ => mkTick [] [] 0))
              (mkWorld 1000 0 (fun _ => mkTick [] [] 0))
              0x0049 [0xff; 0xfc; 0x1e; 0x00] None init_ZiGate eq_refl
              ltac:(lia) ltac:(repeat constructor; unfold is_byte; lia)
              ltac:(vm_compute; reflexivity))
    as (enc & z' & Hrun & Hsent & Hdec & _).
  exists enc, z'. split; [exact Hrun|]. split; [exact Hsent | exact Hdec].
Defined.

(** Worlds for the examples: the status 0 of command 0x0010 comes during
    the first sleep; the response 0x8010 comes during the second sleep of
    the wait that follows. The caller polls every 10 ms of a millisecond
    clock. *)
Definition status_world : world :=
  {| per_second := 1000; time0 := 0;
     ticks := fun k => mkTick (if Nat.eqb k 0 then [(0x0010, 0)] else []) []
                              (10 * (Z.of_nat k + 1)) |}.

Definition version_response : Response :=
  mkResponse 0x8010 {[ "version"%string := PStr "3.0f" ]}.

Definition response_world : world :=
  {| per_second := 1000; time0 := 20;
     ticks := fun k => mkTick [] (if Nat.eqb k 1 then [(0x8010, version_response)] else [])
                              (20 + 10 * (Z.of_nat k + 1)) |}.

(** X5. [send_data] over a transport that is not connected raises, for
    every way of calling it: nothing is handed to the transport and no wait
    is entered, but the bookkeeping that precedes the send is done, so the
    status of the command is left reset to [None] and a cached response of
    the awaited type is gone; the devices are untouched and no signal is
    dispatched. *)
Theorem send_data_not_connected fuel w w' cmd byte_data wait_response wait_status z :
  is_connected (connection z) = false ->
  0 <= cmd < 65536 -> bytes_ok byte_data -> len byte_data < 65536 ->
  exists z',
    send_data fuel w w' cmd byte_data wait_response wait_status z
    = Some (Raise Not_connected z')
    /\ connection z' = connection z
    /\ _last_status z' !! cmd = Some None
    /\ (forall msg_type, wait_response = Some msg_type -> msg_type <> 0 ->
          _last_response z' !! msg_type = None)
    /\ _devices z' = _devices z /\ trace z' = trace z /\ _ota z' = _ota z
    /\ _no_response_count z' = _no_response_count z.
Proof.
  intros Hconn Hcmd Hb Hl.
  exists (frame_unsent cmd wait_response z). split.
  { unfold send_data. now rewrite send_frame_not_connected. }
  unfold frame_unsent.
  destruct wait_response as [msg_type|]; [destruct (Z.eqb_spec msg_type 0)|];
    cbn [connection _last_status _last_response _devices trace _ota
         _no_response_count with_last_status with_last_response];
    rewrite lookup_insert_eq; repeat split; try reflexivity;
    intros m [= <-] Hm; try contradiction; apply lookup_delete_eq.
Qed.

Lemma send_data_not_connected_witness :
  exists z',
    send_data 0 status_world response_world 0x0010 [] (Some 0x8010) true
              (with_connection
                 (with_last_response init_ZiGate {[ 0x8010 := mkResponse 0x8010 ∅ ]})
                 {| is_connected := false; sent := [] |})
    = Some (Raise Not_connected z')
    /\ sent (connection z') = []
    /\ _last_status z' !! 0x0010 = Some None
    /\ _last_response z' !! 0x8010 = None.
Proof.
  destruct (send_data_not_connected 0 status_world response_world 0x0010 []
              (Some 0x8010) true
              (with_connection
                 (with_last_response init_ZiGate {[ 0x8010 := mkResponse 0x8010 ∅ ]})
                 {| is_connected := false; sent := [] |})
              eq_refl ltac:(lia) ltac:(constructor) ltac:(vm_compute; reflexivity))
    as (z' & Hrun & Hconn & Hstatus & Hresp & _).
  exists z'. split; [exact Hrun|]. split; [now rewrite Hconn|].
  split; [exact Hstatus|]. apply (Hresp 0x8010 eq_refl). lia.
Defined.

(** *** The response wait *)

(** The response that a tick leaves for [msg_type], if it brings one. *)
Definition answered (t : tick) (msg_type : Z) : option Response :=
  fold_left (fun acc kr => if fst kr =? msg_type then Some (snd kr) else acc)
            (responses t) None.

Lemma answered_loop_Some l msg_type r :
  fold_left (fun acc (kr : Z * Response) =>
               if fst kr =? msg_type then Some (snd kr) else acc) l (Some r)
  = match fold_left (fun acc (kr : Z * Response) =>
                       if fst kr =? msg_type then Some (snd kr) else acc) l None with
    | Some r' => Some r'
    | None => Some r
    end.
Proof.
  revert r. induction l as [|[k v] l IH]; intros r; cbn [fold_left fst snd].
  - reflexivity.
  - destruct (k =? msg_type); [|apply IH].
    rewrite (IH v). destruct (fold_left _ l None); reflexivity.
Qed.

Lemma last_response_deliver t z msg_type :
  _last_response (deliver t z) !! msg_type
  = match answered t msg_type with
    | Some r => Some r
    | None => _last_response z !! msg_type
    end.
Proof.
  unfold deliver, answered.
  cbn [_last_response with_last_status with_last_response].
  generalize (_last_response z). induction (responses t) as [|[k v] l IH]; intros m;
    cbn [fold_left fst snd].
  - reflexivity.
  - rewrite IH. destruct (Z.eqb_spec k msg_type) as [->|Hne].
    + rewrite answered_loop_Some.
      destruct (fold_left _ l None); [reflexivity|].
      now rewrite lookup_insert_eq.
    + destruct (fold_left _ l None); [reflexivity|].
      now rewrite lookup_insert_ne.
Qed.

Lemma last_response_deliver_upto w msg_type : forall n k z,
  (forall j, (k <= j < k + n)%nat -> answered (ticks w j) msg_type = None) ->
  _last_response (deliver_upto w k n z) !! msg_type = _last_response z !! msg_type.
Proof.
  induction n as [|n IH]; intros k z Hq; cbn [deliver_upto]; [reflexivity|].
  rewrite IH by (intros j Hj; apply Hq; lia).
  now rewrite last_response_deliver, (Hq k) by lia.
Qed.

Lemma _wait_response_loop_timeout w msg_type t1 : forall m k z fuel,
  _last_response z !! msg_type = None ->
  (forall j, (k <= j < k + m)%nat -> answered (ticks w j) msg_type = None) ->
  (forall j, (k <= j < k + m)%nat -> clock (ticks w j) - t1 <= 3 * per_second w) ->
  3 * per_second w < clock (ticks w (k + m)) - t1 ->
  (m < fuel)%nat ->
  _wait_response_loop fuel w msg_type t1 k z
  = Some (Ok None (deliver_upto w k (S m) z)).
Proof.
  induction m as [|m IH]; intros k z fuel Hst Hsil Hclk Hlate Hfuel;
    (destruct fuel as [|fuel]; [lia|]); cbn [_wait_response_loop]; rewrite Hst.
  - rewrite Nat.add_0_r in Hlate.
    destruct (Z.ltb_spec (3 * per_second w) (clock (ticks w k) - t1)); [|lia].
    reflexivity.
  - destruct (Z.ltb_spec (3 * per_second w) (clock (ticks w k) - t1)) as [Hl|_].
    { specialize (Hclk k ltac:(lia)). lia. }
    rewrite (IH (S k) _ fuel).
    + reflexivity.
    + rewrite last_response_deliver, (Hsil k) by lia. exact Hst.
    + intros j Hj. apply Hsil. lia.
    + intros j Hj. apply Hclk. lia.
    + now rewrite Nat.add_succ_comm.
    + lia.
Qed.

Lemma _wait_response_loop_answer w msg_type t1 r : forall m k z fuel,
  _last_response z !! msg_type = None ->
  (forall j, (k <= j < k + m)%nat -> answered (ticks w j) msg_type = None) ->
  (forall j, (k <= j <= k + m)%nat -> clock (ticks w j) - t1 <= 3 * per_second w) ->
  answered (ticks w (k + m)) msg_type = Some r ->
  (S m < fuel)%nat ->
  _wait_response_loop fuel w msg_type t1 k z
  = Some (Ok (Some r) (deliver_upto w k (S m) z)).
Proof.
  induction m as [|m IH]; intros k z fuel Hst Hsil Hclk Hgot Hfuel;
    (destruct fuel as [|fuel]; [lia|]); cbn [_wait_response_loop]; rewrite Hst;
    (destruct (Z.ltb_spec (3 * per_second w) (clock (ticks w k) - t1)) as [Hl|_];
     [specialize (Hclk k ltac:(lia)); lia|]).
  - rewrite Nat.add_0_r in Hgot. destruct fuel as [|fuel]; [lia|].
    cbn [_wait_response_loop deliver_upto].
    now rewrite last_response_deliver, Hgot.
  - rewrite (IH (S k) _ fuel).
    + reflexivity.
    + rewrite last_response_deliver, (Hsil k) by lia. exact Hst.
    + intros j Hj. apply Hsil. lia.
    + intros j Hj. apply Hclk. lia.
    + now rewrite Nat.add_succ_comm.
    + lia.
Qed.

Lemma frame_sent_cleared cmd byte_data msg_type z :
  msg_type <> 0 ->
  _last_response (frame_sent cmd byte_data (Some msg_type) z) !! msg_type = None
  /\ last_status_get (frame_sent cmd byte_data (Some msg_type) z) cmd = None.
Proof.
  intros Hm. unfold frame_sent, last_status_get.
  destruct (Z.eqb_spec msg_type 0) as [|_]; [contradiction|].
  cbn [_last_response _last_status with_last_status with_last_response with_connection].
  rewrite lookup_delete_eq, lookup_insert_eq. split; reflexivity.
Qed.

(** X6. A command sent with [wait_response=msg_type] over a connected
    transport, whose status arrives in time and before any response of
    that type: [send_data] then waits for the response.
    - When a response of the type is stored during a round of the second
      wait whose clock reading is within three seconds of its start,
      [send_data] returns that response.
    - When none ever comes and every round sleeps for some time,
      [send_data] returns [None] at the first reading beyond the three
      seconds; the counter of commands without response is not raised by
      it: the status has put it back to zero.
    A response of the type that was cached before the call is never the
    one returned: the cache entry is cleared before the frame is sent. *)
Theorem send_data_wait_response w w' cmd byte_data msg_type n s z :
  is_connected (connection z) = true ->
  0 <= cmd < 65536 -> bytes_ok byte_data -> len byte_data < 65536 ->
  msg_type <> 0 ->
  (forall j, (j < n)%nat -> delivered (ticks w j) cmd = None) ->
  delivered (ticks w n) cmd = Some s ->
  (forall j, (j <= n)%nat -> clock (ticks w j) - time0 w <= 3 * per_second w) ->
  (forall j, (j <= n)%nat -> answered (ticks w j) msg_type = None) ->
  (forall m r,
     (forall j, (j < m)%nat -> answered (ticks w' j) msg_type = None) ->
     answered (ticks w' m) msg_type = Some r ->
     (forall j, (j <= m)%nat -> clock (ticks w' j) - time0 w' <= 3 * per_second w') ->
     exists z',
       (forall fuel, (S n < fuel)%nat -> (S m < fuel)%nat ->
          send_data fuel w w' cmd byte_data (Some msg_type) true z
          = Some (Ok (Answer (Some r)) z'))
       /\ _last_response z' !! msg_type = Some r
       /\ _no_response_count z' = 0)
  /\ ((forall k, answered (ticks w' k) msg_type = None) ->
      forall d, sleeps_at_least d w' ->
      exists m z',
        (forall fuel, (S n < fuel)%nat -> (m < fuel)%nat ->
           send_data fuel w w' cmd byte_data (Some msg_type) true z
           = Some (Ok (Answer None) z'))
        /\ _last_response z' !! msg_type = None
        /\ _no_response_count z' = 0
        /\ 3 * per_second w' < clock (ticks w' m) - time0 w'
        /\ (forall j, (j < m)%nat ->
              clock (ticks w' j) - time0 w' <= 3 * per_second w')).
Proof.
  intros Hconn Hcmd Hb Hl Hm Hsilent Hgot Hearly Hquiet.
  pose proof (send_frame_run cmd byte_data (Some msg_type) z Hconn Hcmd Hb Hl) as Hsend.
  destruct (frame_sent_cleared cmd byte_data msg_type z Hm) as [Hclr Hst].
  set (z1 := frame_sent cmd byte_data (Some msg_type) z) in *.
  set (z2 := with_no_response_count (deliver_upto w 0 (S n) z1) 0).
  assert (Hwait : forall fuel, (S n < fuel)%nat ->
            _wait_status fuel w cmd z1 = Some (Ok (Some s) z2)).
  { intros fuel Hfuel. unfold _wait_status.
    apply (_wait_status_loop_status w cmd (time0 w) s n 0); try assumption.
    - intros j Hj. apply Hsilent. lia.
    - intros j Hj. apply Hearly. lia. }
  assert (Hz2 : _last_response z2 !! msg_type = None).
  { subst z2. cbn [_last_response with_no_response_count].
    rewrite last_response_deliver_upto; [exact Hclr|].
    intros j Hj. apply Hquiet. lia. }
  assert (Hcount : forall k m0, _no_response_count (deliver_upto w' k m0 z2) = 0).
  { intros k m0. now rewrite deliver_upto_count. }
  destruct (Z.eqb_spec msg_type 0) as [|_]; [contradiction|].
  split.
  - intros m r Hsil' Hgot' Hearly'. exists (deliver_upto w' 0 (S m) z2).
    split; [|split; [|apply Hcount]].
    + intros fuel Hf1 Hf2. unfold send_data. rewrite Hsend. fold z1.
      rewrite (Hwait fuel Hf1).
      destruct (Z.eqb_spec msg_type 0) as [|_]; [contradiction|].
      unfold _wait_response.
      rewrite (_wait_response_loop_answer w' msg_type (time0 w') r m 0 z2 fuel Hz2);
        [reflexivity | | | exact Hgot' | exact Hf2].
      * intros j Hj. apply Hsil'. lia.
      * intros j Hj. apply Hearly'. lia.
    + rewrite deliver_upto_snoc, last_response_deliver. cbn [Nat.add].
      now rewrite Hgot'.
  - intros Hnever d Hsleep.
    destruct (sleeping_late d w' Hsleep) as [N HN].
    destruct (first_late_reading w' (time0 w') N HN) as (m & _ & Hlate & Hbefore).
    exists m, (deliver_upto w' 0 (S m) z2).
    split; [|split; [|split; [apply Hcount | split; [exact Hlate | exact Hbefore]]]].
    + intros fuel Hf1 Hf2. unfold send_data. rewrite Hsend. fold z1.
      rewrite (Hwait fuel Hf1).
      destruct (Z.eqb_spec msg_type 0) as [|_]; [contradiction|].
      unfold _wait_response.
      rewrite (_wait_response_loop_timeout w' msg_type (time0 w') m 0 z2 fuel Hz2);
        [reflexivity | | | exact Hlate | exact Hf2].
      * intros j _. apply Hnever.
      * intros j Hj. apply Hbefore. lia.
    + rewrite last_response_deliver_upto; [exact Hz2|]. intros j _. apply Hnever.
Qed.

Lemma send_data_wait_response_witness :
  exists z',
    send_data 3 status_world response_world 0x0010 [] (Some 0x8010) true
              (with_last_response init_ZiGate {[ 0x8010 := mkResponse 0x8010 ∅ ]})
    = Some (Ok (Answer (Some version_response)) z')
    /\ _no_response_count z' = 0.
Proof.
  destruct (send_data_wait_response status_world response_world 0x0010 [] 0x8010
              0%nat 0
              (with_last_response init_ZiGate {[ 0x8010 := mkResponse 0x8010 ∅ ]})
              eq_refl ltac:(lia) ltac:(constructor) ltac:(vm_compute; reflexivity)
              ltac:(lia)) as [Hanswer _].
  - intros j Hj. lia.
  - reflexivity.
  - intros j Hj. unfold status_world. cbn [time0 ticks clock per_second]. lia.
  - intros j Hj. reflexivity.
  - destruct (Hanswer 1%nat version_response) as (z' & Hrun & _ & Hcount).
    + intros j Hj. destruct j as [|j]; [reflexivity | lia].
    + reflexivity.
    + intros j Hj. unfold response_world. cbn [time0 ticks clock per_second]. lia.
    + exists z'. split; [apply Hrun; lia | exact Hcount].
Defined.

(** *** Inbound frames *)

(** The packet that carries a message of type [msg_type] with the payload
    [value] and the link quality [rssi]: type and length big-endian, the
    length counting the rssi byte, the checksum the XOR of the other
    bytes. *)
Definition inbound_frame (msg_type : Z) (value : bytes) (rssi : Z) : bytes :=
  let header := be16 msg_type ++ be16 (len value + 1) in
  wrap_frame (zigate_encode
    (header ++ [xor_fold (header ++ value ++ [rssi])] ++ value ++ [rssi])).

Lemma unpack_inbound msg_type value rssi :
  let header := be16 msg_type ++ be16 (len value + 1) in
  let decoded := header ++ [xor_fold (header ++ value ++ [rssi])] ++ value ++ [rssi] in
  unpack_frame decoded
  = Some (msg_type, len value + 1, xor_fold (other_bytes decoded), value, rssi).
Proof.
  intros header decoded. subst header decoded. unfold be16. cbn [app].
  assert (Hshape : exists v rest, value ++ [rssi] = v :: rest).
  { destruct value; cbn; eauto. }
  destruct Hshape as (v & rest & Hvr). rewrite Hvr.
  unfold unpack_frame, other_bytes. cbn [firstn skipn app].
  rewrite !unpack_H_be16, <- Hvr, removelast_last, last_last. reflexivity.
Qed.

(** X7. [decode_data] never raises, whatever the packet, the response
    decoders and the subscribers are. A packet built to the frame layout,
    with a consistent length and checksum, is taken in for every message
    type, payload and rssi: the decoder registered for the type gets
    exactly the payload and the rssi; the response it builds is cached
    under the type and dispatched before [interpret_response] runs, and it
    stays cached when [interpret_response] raises. When the decoder itself
    raises, the packet is dropped and the object is unchanged. *)
Theorem decode_data_accepts RESPONSES interpret_response msg_type value rssi z :
  (forall packet, exists z',
      decode_data RESPONSES interpret_response packet z = Ok tt z')
  /\ decode_data RESPONSES interpret_response (inbound_frame msg_type value rssi) z
     = match RESPONSES msg_type value rssi with
       | None => Ok tt z
       | Some response =>
           Ok tt (state_of (interpret_response response
                    (with_trace
                       (with_last_response z (<[msg_type := response]> (_last_response z)))
                       (trace z ++ [Dispatched (ZIGATE_RESPONSE_RECEIVED response)]))))
       end.
Proof.
  split.
  - intros packet. unfold decode_data.
    destruct (unpack_frame _) as [[[[[mt length] chk] v] r]|]; [|now eexists].
    destruct (negb (length =? len v + 1)); [now eexists|].
    destruct (negb (chk =? _)); [now eexists|].
    destruct (RESPONSES mt v r) as [response|]; [|now eexists].
    unfold try_except. run_method. unfold modify.
    cbn [trace with_last_response].
    match goal with
    | |- context [interpret_response response ?s] =>
        destruct (interpret_response response s) as [[] ?|? ?]
    end; eexists; reflexivity.
  - unfold decode_data, inbound_frame.
    rewrite strip_delimiters_wrap, zigate_decode_encode_id.
    pose proof (unpack_inbound msg_type value rssi) as Hu. cbv zeta in Hu.
    rewrite Hu, (computed_checksum_other_bytes _ _ _ _ _ _ Hu), !Z.eqb_refl.
    cbn [negb]. destruct (RESPONSES msg_type value rssi) as [response|]; [|reflexivity].
    unfold try_except. run_method. unfold modify.
    cbn [trace with_last_response].
    match goal with
    | |- context [interpret_response response ?s] =>
        destruct (interpret_response response s) as [[] ?|? ?]
    end; reflexivity.
Qed.

End FramesLaws.

(* ===================================================================== *)
(** ** More about the device directory *)
(* ===================================================================== *)

Module DirectoryLaws.

Import DeviceList.

(** A device as [Device(info)] builds it, seen at [last_seen]. *)
Definition seen_device (addr ieee last_seen : string) : Device :=
  new_Device (<["addr"%string := PStr addr]>
             (<["ieee"%string := PStr ieee]>
             (<["last_seen"%string := PStr last_seen]> ∅))).

(** A driver that tracks the lamp "0001" and the sensor "0002"; the sensor
    was last seen in 2023 and has been tagged missing on 2024-03-01. *)
Definition lamp : Device := seen_device "0001" "A" "2024-03-01 11:00:00".
Definition sensor : Device := seen_device "0002" "B" "2023-12-24 18:00:00".

(** A gateway that acknowledges every request during the first sleep of
    its wait; the caller reads a millisecond clock every 10 ms. *)
Definition answering : worlds :=
  fun _ => {| per_second := 1000; time0 := 0;
              ticks := fun k => mkTick [(0x0042, 0); (0x0045, 0); (0x0015, 0)] []
                                       (10 * (Z.of_nat k + 1)) |}.

Lemma answering_clocks : clocks_move_on 300 answering.
Proof. intros k. vm_compute. reflexivity. Qed.

Definition lamp_tracked : ZiGate :=
  state_after init_ZiGate (_set_device 2 answering lamp init_ZiGate).

Definition both_tracked : ZiGate :=
  state_after lamp_tracked (_set_device 2 answering sensor lamp_tracked).

Definition lamp_and_sensor : ZiGate :=
  state_of (_tag_missing (Datetime.mkDatetime 2024 3 1 12 0 0 0) (PStr "0002")
                         both_tracked).

Lemma both_tracked_reachable : reachable both_tracked.
Proof.
  assert (H1 : _set_device 2 answering lamp init_ZiGate = Some (Ok tt lamp_tracked))
    by (vm_compute; reflexivity).
  assert (H2 : _set_device 2 answering sensor lamp_tracked = Some (Ok tt both_tracked))
    by (vm_compute; reflexivity).
  exact (reach_set_device _ _ _ _ _ (reach_set_device _ _ _ _ _ reach_init H1) H2).
Qed.

Lemma lamp_and_sensor_reachable : reachable lamp_and_sensor.
Proof.
  apply (reach_tag_missing both_tracked lamp_and_sensor
           (Datetime.mkDatetime 2024 3 1 12 0 0 0) (PStr "0002"));
    [exact both_tracked_reachable | vm_compute; reflexivity].
Qed.

(** X8. [_remove_device(addr)] pops the device bound to [addr]: for an
    address that is not tracked it raises [KeyError] and leaves the object
    as it was, no signal dispatched; for a tracked one it returns, the
    address is no longer bound, every other binding is as before, and one
    "device removed" signal carries the address and the device that was
    bound to it. *)
Theorem _remove_device_pops addr z :
  List.NoDup (od_keys (_devices z)) ->
  match get_device_from_addr z addr with
  | None => _remove_device addr z = Raise KeyError z
  | Some d =>
      exists z',
        _remove_device addr z = Ok tt z'
        /\ get_device_from_addr z' addr = None
        /\ (forall k, k <> addr -> get_device_from_addr z' k = get_device_from_addr z k)
        /\ S (List.length (_devices z')) = List.length (_devices z)
        /\ trace z' = trace z ++ [Dispatched (ZIGATE_DEVICE_REMOVED addr d)]
  end.
Proof.
  intros Hnd. unfold get_device_from_addr, _remove_device. run_method.
  destruct (od_get addr (_devices z)) as [d|] eqn:Hg; [|reflexivity].
  eexists. split; [reflexivity|]. cbn [_devices with_devices with_trace trace].
  split; [now apply od_get_del_eq|]. split; [|split; [|reflexivity]].
  - intros k Hk. now apply od_get_del_ne.
  - apply od_length_del. congruence.
Qed.

Lemma _remove_device_pops_witness :
  _remove_device (PStr "0003") lamp_and_sensor = Raise KeyError lamp_and_sensor
  /\ exists z',
       _remove_device (PStr "0001") lamp_and_sensor = Ok tt z'
       /\ get_device_from_addr z' (PStr "0001") = None
       /\ get_device_from_addr z' (PStr "0002") = Some (set_missing sensor true)
       /\ trace z' = trace lamp_and_sensor
                     ++ [Dispatched (ZIGATE_DEVICE_REMOVED (PStr "0001") lamp)].
Proof.
  assert (Hnd : List.NoDup (od_keys (_devices lamp_and_sensor))).
  { apply (reachable_keyed _ lamp_and_sensor_reachable). }
  split.
  - exact (_remove_device_pops (PStr "0003") lamp_and_sensor Hnd).
  - destruct (_remove_device_pops (PStr "0001") lamp_and_sensor Hnd)
      as (z' & Hrun & Hgone & Hkept & _ & Htrace).
    exists z'. split; [exact Hrun|]. split; [exact Hgone|].
    split; [|exact Htrace].
    rewrite Hkept by discriminate. vm_compute. reflexivity.
Defined.

(** X9. [cleanup_devices] on a directory whose devices are bound to their
    own addresses returns and removes exactly the devices tagged missing:
    the others stay, in their order; afterwards [get_missing] is empty; one
    "device removed" signal is dispatched per removed device, in directory
    order; nothing is sent. *)
Theorem cleanup_devices_removes_missing z :
  dir_keyed (_devices z) ->
  exists z',
    cleanup_devices z = Ok tt z'
    /\ _devices z' = List.filter (fun kd => negb (missing (snd kd))) (_devices z)
    /\ get_missing z' = []
    /\ trace z' = trace z
                  ++ map removed (List.filter (fun kd => missing (snd kd)) (_devices z))
    /\ connection z' = connection z.
Proof.
  intros Hk. eexists. split; [now apply cleanup_devices_run|].
  cbn [_devices with_devices with_trace trace connection].
  split; [reflexivity|]. split; [|split; reflexivity].
  unfold get_missing. cbn [_devices with_devices with_trace].
  rewrite filter_values. clear Hk.
  induction (_devices z) as [|[k d] devs IH]; [reflexivity|].
  cbn [List.filter snd]. destruct (missing d) eqn:Hm; cbn [negb List.filter snd].
  - exact IH.
  - rewrite Hm. exact IH.
Qed.

Lemma cleanup_devices_removes_missing_witness :
  exists z',
    cleanup_devices lamp_and_sensor = Ok tt z'
    /\ _devices z' = [(PStr "0001", lamp)]
    /\ trace z' = trace lamp_and_sensor
                  ++ [Dispatched (ZIGATE_DEVICE_REMOVED (PStr "0002")
                                    (set_missing sensor true))].
Proof.
  destruct (cleanup_devices_removes_missing lamp_and_sensor
              (reachable_keyed _ lamp_and_sensor_reachable))
    as (z' & Hrun & Hdevs & _ & Htrace & _).
  exists z'. split; [exact Hrun|]. split.
  - rewrite Hdevs. vm_compute. reflexivity.
  - rewrite Htrace. vm_compute. reflexivity.
Defined.

(** X10. In every state that announcing, removing and tagging devices
    lead to from a fresh driver, no address is bound twice and every
    tracked device is bound to the address its own [addr] names: looking a
    device up by its address finds that device, [device.addr] never raises
    on a tracked device, and [cleanup_devices] returns and leaves no device
    tagged missing. *)
Theorem reachable_directory_keyed z :
  reachable z ->
  List.NoDup (od_keys (_devices z))
  /\ (forall k d, In (k, d) (_devices z) ->
        Device_addr d = Some k /\ get_device_from_addr z k = Some d)
  /\ exists z', cleanup_devices z = Ok tt z' /\ get_missing z' = [].
Proof.
  intros Hr. pose proof (reachable_keyed z Hr) as Hk.
  pose proof Hk as [Hnd Hkey]. split; [exact Hnd|]. split.
  - intros k d Hin. pose proof (od_In_get _ _ _ Hnd Hin) as Hg.
    split; [now apply Hkey | exact Hg].
  - eexists. split; [now apply cleanup_devices_run|].
    unfold get_missing. cbn [_devices with_devices with_trace].
    rewrite filter_values. clear.
    induction (_devices z) as [|[k d] devs IH]; [reflexivity|].
    cbn [List.filter snd]. destruct (missing d) eqn:Hm; cbn [negb List.filter snd].
    + exact IH.
    + rewrite Hm. exact IH.
Qed.

Lemma reachable_directory_keyed_witness :
  List.NoDup (od_keys (_devices lamp_and_sensor))
  /\ od_keys (_devices lamp_and_sensor) = [PStr "0001"; PStr "0002"].
Proof.
  split; [|vm_compute; reflexivity].
  exact (proj1 (reachable_directory_keyed lamp_and_sensor lamp_and_sensor_reachable)).
Defined.

(** X11. [_set_device] with a device whose address is tracked merges it
    into the tracked device: every key of the incoming [info] is written,
    the other keys keep their values, the [missing] tag is kept as it is, so
    a device tagged missing stays tagged when it is announced again; no
    address is added or moved, one "device updated" signal is dispatched
    and no refresh is requested: the call returns without a wait, whatever
    the state of the transport, and nothing is sent. *)
Theorem _set_device_tracked_merges device addr existing z :
  Device_addr device = Some addr ->
  get_device_from_addr z addr = Some existing ->
  exists z' merged,
    (forall fuel ws, _set_device fuel ws device z = Some (Ok tt z'))
    /\ connection z' = connection z
    /\ get_device_from_addr z' addr = Some merged
    /\ (forall key v, info device !! key = Some v -> info merged !! key = Some v)
    /\ (forall key, info device !! key = None ->
                    info merged !! key = info existing !! key)
    /\ missing merged = missing existing
    /\ od_keys (_devices z') = od_keys (_devices z)
    /\ (forall k, k <> addr -> get_device_from_addr z' k = get_device_from_addr z k)
    /\ trace z' = trace z ++ [Dispatched (ZIGATE_DEVICE_UPDATED merged)].
Proof.
  unfold get_device_from_addr. intros Haddr Hg.
  exists (with_trace (with_devices z (od_set addr (Device_update existing device)
                                            (_devices z)))
            (trace z ++ [Dispatched (ZIGATE_DEVICE_UPDATED
                                       (Device_update existing device))])),
         (Device_update existing device).
  split.
  { intros fuel ws.
    apply (_set_device_update_run fuel ws z device addr existing Haddr Hg). }
  cbn [_devices with_devices with_trace trace connection]. split; [reflexivity|].
  split; [apply od_get_set_eq|]. split; [|split; [|split; [reflexivity|split; [|split]]]].
  - intros key v Hv. unfold Device_update. cbn [info].
    now apply lookup_union_Some_l.
  - intros key Hv. unfold Device_update. cbn [info].
    now apply lookup_union_r.
  - rewrite od_keys_set, Hg. reflexivity.
  - intros k Hk. now apply od_get_set_ne.
  - reflexivity.
Qed.

Lemma _set_device_tracked_merges_witness :
  exists z' merged,
    _set_device 0 answering (seen_device "0002" "B" "2024-03-01 12:30:00")
                lamp_and_sensor = Some (Ok tt z')
    /\ get_device_from_addr z' (PStr "0002") = Some merged
    /\ Device_last_seen merged = PStr "2024-03-01 12:30:00"
    /\ missing merged = true.
Proof.
  destruct (_set_device_tracked_merges (seen_device "0002" "B" "2024-03-01 12:30:00")
              (PStr "0002") (set_missing sensor true) lamp_and_sensor)
    as (z' & merged & Hrun & _ & Hg & Hnew & _ & Hmissing & _).
  - reflexivity.
  - vm_compute. reflexivity.
  - exists z', merged. split; [exact (Hrun 0%nat answering)|]. split; [exact Hg|]. split.
    + unfold Device_last_seen, dict_get.
      rewrite (Hnew "last_seen"%string (PStr "2024-03-01 12:30:00")); reflexivity.
    + rewrite Hmissing. reflexivity.
Defined.

(** X12. [_get_device(addr)] gets or creates. A tracked device with
    something in its [info] is returned as it is, nothing is changed and
    nothing is sent. For an address that is not tracked, a device that
    holds the address alone is bound to it, no other binding touched, and
    "device added" is dispatched; the refresh of the address and the
    request of the device list follow. Over a connected transport, for an
    address that spells bytes and with clocks that move on, the call
    returns the device after three waits for a status, the node descriptor
    request (0x0042), the active endpoint request (0x0045) and the device
    list request (0x0015) sent in this order. Over a transport that is
    down, and for an address that is no string or spells no bytes, it
    raises, nothing sent, the device tracked all the same. *)
Theorem _get_device_gets_or_creates ws addr z :
  (forall d fuel, get_device_from_addr z addr = Some d -> info d <> ∅ ->
                  _get_device fuel ws addr z = Some (Ok d z))
  /\ (get_device_from_addr z addr = None ->
      forall payload, hex_payload addr payload ->
      (is_connected (connection z) = true ->
       forall N, clocks_move_on N ws ->
       exists z',
         (forall fuel, (N < fuel)%nat ->
            _get_device fuel ws addr z
            = Some (Ok (new_Device {[ "addr"%string := addr ]}) z'))
         /\ get_device_from_addr z' addr = Some (new_Device {[ "addr"%string := addr ]})
         /\ (forall k, k <> addr ->
               get_device_from_addr z' k = get_device_from_addr z k)
         /\ trace z' = trace z
                       ++ [Dispatched (ZIGATE_DEVICE_ADDED
                                         (new_Device {[ "addr"%string := addr ]}))]
         /\ sent (connection z')
            = sent (connection z)
              ++ [wrap_frame (zigate_encode (message 0x0042 payload));
                  wrap_frame (zigate_encode (message 0x0045 payload));
                  wrap_frame (zigate_encode (message 0x0015 []))])
      /\ (is_connected (connection z) = false ->
          exists z',
            (forall fuel, _get_device fuel ws addr z = Some (Raise Not_connected z'))
            /\ get_device_from_addr z' addr
               = Some (new_Device {[ "addr"%string := addr ]})
            /\ trace z' = trace z
                          ++ [Dispatched (ZIGATE_DEVICE_ADDED
                                            (new_Device {[ "addr"%string := addr ]}))]
            /\ sent (connection z') = sent (connection z)))
  /\ (get_device_from_addr z addr = None ->
      match addr with PStr s => bytes_fromhex s = None | _ => True end ->
      exists z',
        (forall fuel,
           _get_device fuel ws addr z
           = Some (Raise (match addr with
                          | PStr _ => ValueError
                          | _ => AssertionError
                          end) z'))
        /\ get_device_from_addr z' addr
           = Some (new_Device {[ "addr"%string := addr ]})
        /\ sent (connection z') = sent (connection z)).
Proof.
  assert (Hcreate : get_device_from_addr z addr = None ->
            forall fuel,
              _get_device fuel ws addr z
              = match refresh_device fuel ws addr
                        (after_add z addr (new_Device {[ "addr"%string := addr ]})) with
                | None => None
                | Some (Ok _ z1) =>
                    match send_data fuel (ws 2%nat) (ws 2%nat) 0x0015 [] None true z1 with
                    | None => None
                    | Some (Ok _ z2) =>
                        Some (Ok (new_Device {[ "addr"%string := addr ]}) z2)
                    | Some (Raise e z2) => Some (Raise e z2)
                    end
                | Some (Raise e z1) => Some (Raise e z1)
                end).
  { intros Hg fuel.
    set (d := new_Device {[ "addr"%string := addr ]}).
    assert (Haddr : Device_addr d = Some addr).
    { unfold Device_addr, d, new_Device. cbn [info]. apply lookup_singleton_eq. }
    assert (Hieee : get_device_from_ieee z (Device_ieee d) = None).
    { unfold get_device_from_ieee, Device_ieee, dict_get, d, new_Device. cbn [info].
      rewrite lookup_singleton_ne by discriminate. reflexivity. }
    unfold _get_device. run_waiting. unfold get. rewrite Hg.
    cbv zeta. fold d. rewrite (_set_device_add_run fuel ws z d addr Haddr Hg Hieee).
    unfold get_devices_list.
    destruct (refresh_device fuel ws addr (after_add z addr d)) as [[[] z1|e z1]|];
      try reflexivity.
    destruct (send_data fuel (ws 2%nat) (ws 2%nat) 0x0015 [] None true z1)
      as [[v z2|e z2]|]; reflexivity. }
  split; [|split].
  3: { intros Hg Hbad. specialize (Hcreate Hg). eexists. split; [|split].
       - intros fuel. rewrite Hcreate.
         rewrite (refresh_device_bad_address fuel ws addr _ Hbad). reflexivity.
       - unfold get_device_from_addr, frame_unsent.
         cbn [after_add _devices with_devices with_trace with_last_status].
         apply od_get_set_eq.
       - reflexivity. }
  - intros d fuel Hg Hinfo. unfold _get_device. run_waiting. unfold get.
    rewrite Hg. unfold Device_bool. now rewrite bool_decide_eq_false_2.
  - intros Hg payload Hhex. specialize (Hcreate Hg).
    set (d := new_Device {[ "addr"%string := addr ]}) in *.
    split.
    + intros Hconn N Hlate.
      destruct (refresh_device_run ws addr payload (after_add z addr d) N
                  Hconn Hhex Hlate) as (z1 & Hr & (Hd1 & Ht1 & _) & Hc1 & Hsent1).
      destruct (send_data_status_returns (ws 2%nat) (ws 2%nat) 0x0015 z1 N Hc1
                  ltac:(lia) (Hlate 2%nat))
        as (status & z' & Hrun & (Hd & Ht & _) & Hsent).
      exists z'. split; [|split; [|split; [|split]]].
      * intros fuel Hf. rewrite Hcreate, (Hr fuel Hf), (Hrun fuel Hf). reflexivity.
      * unfold get_device_from_addr. rewrite Hd, Hd1.
        cbn [after_add _devices with_devices with_trace]. apply od_get_set_eq.
      * intros k Hk. unfold get_device_from_addr. rewrite Hd, Hd1.
        cbn [after_add _devices with_devices with_trace]. now apply od_get_set_ne.
      * rewrite Ht, Ht1. reflexivity.
      * rewrite Hsent, Hsent1. cbn [after_add connection with_trace with_devices].
        rewrite <- app_assoc. reflexivity.
    + intros Hconn. eexists. split; [|split; [|split]].
      * intros fuel. rewrite Hcreate.
        rewrite (refresh_device_down fuel ws addr payload (after_add z addr d) Hconn Hhex).
        reflexivity.
      * unfold get_device_from_addr, frame_unsent.
        cbn [after_add _devices with_devices with_trace with_last_status].
        apply od_get_set_eq.
      * reflexivity.
      * reflexivity.
Qed.

Lemma _get_device_gets_or_creates_witness :
  _get_device 0 answering (PStr "0001") lamp_and_sensor
  = Some (Ok lamp lamp_and_sensor)
  /\ exists z',
       _get_device 301 answering (PStr "0003") lamp_and_sensor
       = Some (Ok (new_Device {[ "addr"%string := PStr "0003" ]}) z')
       /\ od_keys (_devices z') = [PStr "0001"; PStr "0002"; PStr "0003"]
       /\ List.length (sent (connection z'))
          = (List.length (sent (connection lamp_and_sensor)) + 3)%nat
       /\ _no_response_count z' = 0.
Proof.
  destruct (_get_device_gets_or_creates answering (PStr "0001") lamp_and_sensor)
    as [Hget _].
  destruct (_get_device_gets_or_creates answering (PStr "0003") lamp_and_sensor)
    as (_ & Hcreate & _).
  split.
  - apply Hget; [vm_compute; reflexivity|].
    intros Hempty. apply (f_equal (fun m => m !! "addr"%string)) in Hempty.
    vm_compute in Hempty. discriminate Hempty.
  - destruct (Hcreate ltac:(vm_compute; reflexivity) [0; 3]
                (ex_intro _ "0003"%string (conj eq_refl (conj eq_refl eq_refl))))
      as [Hup _].
    destruct (Hup eq_refl 300%nat answering_clocks) as (z' & Hrun & _ & _ & _ & Hsent).
    exists z'. split; [apply Hrun; lia|].
    specialize (Hrun 301%nat ltac:(lia)). vm_compute in Hrun.
    injection Hrun as <-. vm_compute. repeat split.
Defined.




(** X14. [erase_persistent] and [factory_reset] forget every device before
    the command is sent: however the call ends, by a status, a timeout or
    the exception of a transport that is not connected, the directory is
    empty afterwards, and no "device removed" signal has been dispatched
    for the devices dropped. Over a connected transport and with a clock
    that moves on, [erase_persistent] returns the status of command
    0x0012. *)
Theorem erase_persistent_forgets_devices w w' z :
  (forall fuel r,
     erase_persistent fuel w w' z = Some r \/ factory_reset fuel w w' z = Some r ->
     _devices (state_of r) = [] /\ trace (state_of r) = trace z)
  /\ (is_connected (connection z) = false ->
      forall fuel, exists z',
        erase_persistent fuel w w' z = Some (Raise Not_connected z')
        /\ _devices z' = [])
  /\ (is_connected (connection z) = true ->
      forall N, 3 * per_second w < clock (ticks w N) - time0 w ->
      exists status z',
        (forall fuel, (N < fuel)%nat ->
           erase_persistent fuel w w' z = Some (Ok (Status status) z'))
        /\ _devices z' = []
        /\ sent (connection z')
           = sent (connection z) ++ [wrap_frame (zigate_encode (message 0x0012 []))]).
Proof.
  split; [|split].
  - intros fuel r [Hr|Hr]; apply send_data_same in Hr as (Hd & Ht & _);
      rewrite Hd, Ht; split; reflexivity.
  - intros Hconn fuel. exists (frame_unsent 0x0012 None (with_devices z [])).
    split; [|reflexivity]. unfold erase_persistent, send_data.
    rewrite send_frame_not_connected;
      [reflexivity | exact Hconn | lia | constructor | vm_compute; reflexivity].
  - intros Hconn N Hlate.
    destruct (send_data_status_returns w w' 0x0012 (with_devices z []) N Hconn
                ltac:(lia) Hlate) as (status & z' & Hrun & (Hd & _ & _) & Hsent).
    exists status, z'. split; [exact Hrun|]. split; [exact Hd | exact Hsent].
Qed.

(** X15. A device list (0x8015) whose entries have distinct addresses and,
    among those that stand for a device, distinct IEEEs, handled in a
    directory whose devices are bound to their own addresses and have
    printed timestamps, over a connected transport, with addresses that
    spell bytes and clocks that move on, so that the refresh of each
    device that is new to the directory goes through: the handler returns,
    whichever addresses it tags and in whatever order; the directory stays
    bound address by address and nothing is dropped from it, so it tracks
    at least as many devices as before; every entry whose IEEE is not all
    zeros is tracked afterwards under the address it reports, with every
    key of the entry in its [info]. *)
Theorem interpret_device_list_tracks_reported now cutoff ws N missing_order devices z :
  dir_keyed (_devices z) ->
  Datetime.minus_24h now = Some cutoff ->
  last_seen_printed (_devices z) ->
  is_connected (connection z) = true ->
  clocks_move_on N ws ->
  (forall d, In d devices ->
     d !! "ieee"%string <> None
     /\ exists addr payload, d !! "addr"%string = Some addr /\ hex_payload addr payload) ->
  List.NoDup (map (fun d => d !! "addr"%string) devices) ->
  List.NoDup (map (fun d => d !! "ieee"%string) (List.filter reported_real devices)) ->
  exists z',
    (forall fuel, (N < fuel)%nat ->
       interpret_device_list now fuel ws missing_order devices z = Some (Ok tt z'))
    /\ dir_keyed (_devices z')
    /\ (List.length (_devices z) <= List.length (_devices z'))%nat
    /\ forall d, In d devices -> d !! "ieee"%string <> Some zero_ieee ->
         exists addr d',
           d !! "addr"%string = Some addr
           /\ get_device_from_addr z' addr = Some d'
           /\ forall key v, d !! key = Some v -> info d' !! key = Some v.
Proof.
  intros Hk Hc Hp Hconn Hlate Hkeys Hna Hni.
  destruct (comprehension_lift KeyError (fun d : gmap string pyval => d !! "addr"%string)
              devices z) as [known Hknown].
  { intros d Hd. destruct (Hkeys d Hd) as (_ & addr & payload & Ha & _). congruence. }
  destruct (tag_each now cutoff missing_order z Hc Hp) as (z1 & Htag & Hsame & Hc1).
  destruct (report_each N devices ws z1 (same_but_missing_keyed _ _ Hsame Hk)
              ltac:(congruence) Hlate Hkeys Hna Hni)
    as (z' & Hrun & Hk' & Hlen & Hall & _).
  exists z'. split; [|split; [exact Hk'|split]].
  - intros fuel Hf. unfold interpret_device_list. run_waiting.
    rewrite Hknown, Htag. exact (Hrun fuel Hf).
  - rewrite <- (same_but_missing_length _ _ Hsame). exact Hlen.
  - intros d Hd Hnz.
    destruct (Hall d Hd) as (addr & d' & Ha & Hg & Hsub).
    { unfold reported_real. now apply negb_true_iff, bool_decide_eq_false. }
    exists addr, d'. split; [exact Ha|]. split; [exact Hg|].
    intros key v Hv. eapply lookup_weaken; eassumption.
Qed.

(** A device list that reports the lamp, the sensor under the new address
    "0003", and an empty slot. *)
Definition reported (addr ieee : string) : gmap string pyval :=
  <["addr"%string := PStr addr]> (<["ieee"%string := PStr ieee]> ∅).

Definition report : list (gmap string pyval) :=
  [reported "0001" "A"; reported "0003" "B"; reported "0000" "0000000000000000"].

Lemma both_tracked_printed : last_seen_printed (_devices both_tracked).
Proof.
  intros k d i Hd. apply od_get_In in Hd. vm_compute in Hd.
  destruct Hd as [Hd|[Hd|[]]]; injection Hd as <- <-; vm_compute; discriminate.
Qed.

Lemma reported_entry addr ieee payload :
  bytes_fromhex addr = Some payload -> len payload < 65536 ->
  reported addr ieee !! "ieee"%string <> None
  /\ exists a p, reported addr ieee !! "addr"%string = Some a /\ hex_payload a p.
Proof.
  intros Hh Hl. unfold reported. split.
  - rewrite lookup_insert_ne by discriminate. rewrite lookup_insert_eq. discriminate.
  - exists (PStr addr), payload. split; [apply lookup_insert_eq|].
    exists addr. auto.
Qed.

Lemma report_entries :
  (forall d, In d report ->
     d !! "ieee"%string <> None
     /\ exists addr payload, d !! "addr"%string = Some addr /\ hex_payload addr payload)
  /\ List.NoDup (map (fun d => d !! "addr"%string) report)
  /\ List.NoDup (map (fun d => d !! "ieee"%string) (List.filter reported_real report)).
Proof.
  split; [|split].
  - apply List.Forall_forall. unfold report.
    apply List.Forall_cons;
      [apply (reported_entry "0001" "A" [0; 1]); vm_compute; reflexivity|].
    apply List.Forall_cons;
      [apply (reported_entry "0003" "B" [0; 3]); vm_compute; reflexivity|].
    apply List.Forall_cons;
      [apply (reported_entry "0000" "0000000000000000" [0; 0]); vm_compute; reflexivity|].
    apply List.Forall_nil.
  - vm_compute. repeat constructor; cbn; intuition discriminate.
  - vm_compute. repeat constructor; cbn; intuition discriminate.
Qed.

Lemma interpret_device_list_tracks_reported_witness :
  exists z',
    interpret_device_list (Datetime.mkDatetime 2024 3 1 12 0 0 0) 301 answering
                          [PStr "0002"] report both_tracked
    = Some (Ok tt z')
    /\ od_keys (_devices z') = [PStr "0001"; PStr "0003"].
Proof.
  destruct report_entries as (Hkeys & Haddrs & Hieees).
  destruct (interpret_device_list_tracks_reported
              (Datetime.mkDatetime 2024 3 1 12 0 0 0)
              (Datetime.mkDatetime 2024 2 29 12 0 0 0) answering 300%nat
              [PStr "0002"] report
              both_tracked (reachable_keyed _ both_tracked_reachable) eq_refl
              both_tracked_printed eq_refl answering_clocks
              Hkeys Haddrs Hieees)
    as (z' & Hrun & _).
  specialize (Hrun 301%nat ltac:(lia)).
  exists z'. split; [exact Hrun|].
  vm_compute in Hrun. injection Hrun as <-. vm_compute. reflexivity.
Defined.

End DirectoryLaws.

(* ===================================================================== *)
(** ** More about the firmware upload *)
(* ===================================================================== *)

Module OtaLaws.

Import OtaImage Datetime.

(** An upgrade file of 80 bytes: the identifier 0x0BEEF11E, manufacturer
    code 9, image type 1, image version 5, an empty header string, the
    size 80, then eleven bytes of image. *)
Definition upgrade_file : bytes :=
  [0x1e; 0xf1; 0xee; 0x0b; 0x00; 0x01; 0x38; 0x00; 0x00; 0x00;
   0x09; 0x00; 0x01; 0x00; 0x05; 0x00; 0x00; 0x00; 0x02; 0x00]
  ++ repeat 0x00 32
  ++ [0x50; 0x00; 0x00; 0x00; 0x00; 0; 0; 0; 0; 0; 0; 0; 0; 0x00; 0x00; 0x00; 0x00]
  ++ [1; 2; 3; 4; 5; 6; 7; 8; 9; 10; 11].

(** The status 0 of the load command comes during the first sleep. *)
Definition accepting_world : world :=
  {| per_second := 1000; time0 := 0;
     ticks := fun k => mkTick (if Nat.eqb k 0 then [(0x0500, 0)] else []) []
                              (10 * (Z.of_nat k + 1)) |}.

(** X16. [ota_load_image] refuses, returning [False] with the object
    untouched and nothing sent, a file that cannot be read, a file shorter
    than the 69 bytes of a header, and a file whose header states another
    size than the file has. While a transfer is active it refuses every
    file, returning [None]. *)
Theorem ota_load_image_refuses now fuel w w' file z :
  (active (_ota z) = false ->
   file = None
   \/ (exists content, file = Some content
         /\ (len content < 69 \/ le (sub content 52 4) <> len content)) ->
   ota_load_image now fuel w w' file z = Some (Ok Load_False z))
  /\ (active (_ota z) = true -> ota_consistent (_ota z) ->
      image_data (_ota z) <> None ->
      ota_load_image now fuel w w' file z = Some (Ok Load_None z)).
Proof.
  split.
  - intros Hact Hfile. unfold ota_load_image. rewrite Hact.
    destruct Hfile as [->|(content & -> & [Hshort|Hsize])]; [reflexivity| |].
    + destruct (Z.ltb_spec (len content) 69); [reflexivity | lia].
    + destruct (Z.ltb_spec (len content) 69); [reflexivity|].
      change (size (header_dict (fix_header_str (unpack_header content))))
        with (le (sub content 52 4)).
      destruct (Z.eqb_spec (le (sub content 52 4)) (len content)); [contradiction|].
      reflexivity.
  - intros Hact Hcons Himg. unfold ota_load_image. rewrite Hact.
    destruct (image_data (_ota z)) as [image|] eqn:Hd; [|contradiction].
    now rewrite (get_ota_status_ok now z image Hcons Hd).
Qed.

Lemma ota_load_image_refuses_witness :
  ota_load_image (mkDatetime 2024 1 2 3 4 5 0) 0 accepting_world accepting_world
                 None init_ZiGate = Some (Ok Load_False init_ZiGate)
  /\ ota_load_image (mkDatetime 2024 1 2 3 4 5 0) 0 accepting_world accepting_world
                    (Some (firstn 68 upgrade_file)) init_ZiGate
     = Some (Ok Load_False init_ZiGate)
  /\ ota_load_image (mkDatetime 2024 1 2 3 4 5 0) 0 accepting_world accepting_world
                    (Some (upgrade_file ++ [12])) init_ZiGate
     = Some (Ok Load_False init_ZiGate).
Proof.
  split; [|split].
  - apply (proj1 (ota_load_image_refuses (mkDatetime 2024 1 2 3 4 5 0) 0
                    accepting_world accepting_world None init_ZiGate) eq_refl).
    now left.
  - apply (proj1 (ota_load_image_refuses (mkDatetime 2024 1 2 3 4 5 0) 0
                    accepting_world accepting_world
                    (Some (firstn 68 upgrade_file)) init_ZiGate) eq_refl).
    right. eexists. split; [reflexivity|]. left. vm_compute. reflexivity.
  - apply (proj1 (ota_load_image_refuses (mkDatetime 2024 1 2 3 4 5 0) 0
                    accepting_world accepting_world
                    (Some (upgrade_file ++ [12])) init_ZiGate) eq_refl).
    right. eexists. split; [reflexivity|]. right. vm_compute. intros H. discriminate H.
Defined.


Lemma upgrade_file_bytes : bytes_ok upgrade_file.
Proof.
  unfold bytes_ok. apply List.Forall_forall. intros b Hb.
  assert (Hall : forallb (fun v => (0 <=? v) && (v <? 256)) upgrade_file = true)
    by (vm_compute; reflexivity).
  rewrite forallb_forall in Hall. specialize (Hall b Hb).
  unfold is_byte. lia.
Qed.





(** What every session keeps: consistency, and an image behind every
    active transfer. *)
Definition ota_sound (o : OtaSession) : Prop :=
  ota_consistent o
  /\ (active o = true -> image_header o <> None /\ image_data o <> None).

(** X19. The upload session is sound when the driver starts and stays so
    through every load, every block request and every upgrade end request,
    also when one of them raises: an active transfer has a start time and
    a loaded image, and a loaded image is not empty. In a sound session
    [get_ota_status] never raises: neither of the two values it
    dereferences is missing and it does not divide by zero. *)
Theorem ota_session_sound :
  ota_sound (_ota init_ZiGate)
  /\ (forall now fuel w w' file z r,
        ota_sound (_ota z) -> ota_load_image now fuel w w' file z = Some r ->
        ota_sound (_ota (state_of r)))
  /\ (forall now request z,
        ota_sound (_ota z) ->
        ota_sound (_ota (state_of (_ota_send_image_data now request z))))
  /\ (forall now request z,
        ota_sound (_ota z) ->
        ota_sound (_ota (state_of (_ota_handle_upgrade_end_request now request z))))
  /\ (forall now z, ota_sound (_ota z) -> get_ota_status now z = Ok tt z).
Proof.
  assert (H0 : ota_sound _ota_reset_value).
  { split; [split; discriminate | discriminate]. }
  assert (Hstatus : forall now z, ota_sound (_ota z) -> get_ota_status now z = Ok tt z).
  { intros now z [Hc Hi]. unfold get_ota_status. run_method.
    destruct (active (_ota z)) eqn:Hact; [|reflexivity].
    destruct (Hi eq_refl) as [_ Himg].
    destruct (image_data (_ota z)) as [image|] eqn:Hd; [|contradiction].
    pose proof (get_ota_status_ok now z image Hc Hd) as Hok.
    unfold get_ota_status in Hok. run_method_in Hok. now rewrite Hact, Hd in Hok. }
  split; [exact H0|]. split; [|split; [|split; [|exact Hstatus]]].
  - intros now fuel w w' file z r Hs. unfold ota_load_image.
    destruct (active (_ota z)) eqn:Hact.
    { rewrite (Hstatus now z Hs). now intros [= <-]. }
    destruct file as [content|]; [|now intros [= <-]].
    destruct (Z.ltb_spec (len content) 69) as [|Hlen]; [now intros [= <-]|].
    destruct (negb _); [now intros [= <-]|].
    destruct (pack_header _); [|now intros [= <-]].
    destruct (send_data _ _ _ _ _ _ _ _) as [r1|] eqn:Hsend; [|discriminate].
    apply send_data_same in Hsend as (_ & _ & Ho).
    destruct r1 as [response z1|e z1]; cbn [state_of] in Ho.
    2: { intros [= <-]. cbn [state_of]. now rewrite Ho. }
    assert (Hloaded : ota_sound (loaded_session
                         (header_dict (fix_header_str (unpack_header content))) content)).
    { split; [split; [discriminate|] | discriminate].
      intros image [= <-] ->. unfold len in Hlen. cbn in Hlen. lia. }
    destruct response as [[[| |]|]| |]; intros [= <-]; cbn [state_of _ota with_ota];
      rewrite ?Ho; assumption.
  - intros now request z Hs.
    destruct (image_header (_ota z)) as [header|] eqn:Hh.
    2: { unfold _ota_send_image_data. run_method. rewrite Hh. exact Hs. }
    destruct (image_data (_ota z)) as [image|] eqn:Hd.
    2: { unfold _ota_send_image_data. run_method. rewrite Hh, Hd. exact Hs. }
    destruct (_ota_send_image_data_ota now request z) as [-> | ->]; [exact Hs|].
    destruct Hs as [Hc _].
    split; [now apply serving_consistent|]. intros _.
    destruct (serving_image now request (_ota z)) as (-> & -> & _).
    rewrite Hh, Hd. split; discriminate.
  - intros now request z Hs.
    unfold _ota_handle_upgrade_end_request, _ota_reset_local_variables. run_method.
    destruct (active (_ota z)); [|exact Hs].
    destruct (request_status request =? 0); [|exact H0].
    destruct (starttime (_ota z)); [exact H0 | exact Hs].
Qed.

(** *** A whole transfer *)

(** The request [template] asked again for [m] bytes from [offset] on. *)
Definition with_block (template : BlockRequest) (offset m : Z) : BlockRequest :=
  mkBlockRequest (request_addr template) (request_address_mode template)
    (request_endpoint template) (request_sequence template) offset
    (request_image_version template) (request_image_type template)
    (request_manufacturer_code template) m.

(** The bytes a request asks for, and the frame that carries them. *)
Definition chunk_at (image : bytes) (request : BlockRequest) : bytes :=
  slice image (request_file_offset request)
        (request_file_offset request + request_max_data_size request).

Definition block_frame (a : Z) (header : ImageHeader) (image : bytes)
  (request : BlockRequest) : bytes :=
  wrap_frame (zigate_encode (message 0x0502
    (block_payload request a header (chunk_at image request)))).

Lemma serve_each now a header image (requests : list BlockRequest) : forall z,
  image_header (_ota z) = Some header -> image_data (_ota z) = Some image ->
  ota_consistent (_ota z) -> bytes_ok image ->
  is_connected (connection z) = true ->
  (forall request, In request requests ->
     request_wf request a /\ request_matches request header) ->
  exists z',
    for_each (_ota_send_image_data now) requests z = Ok tt z'
    /\ sent (connection z')
       = sent (connection z) ++ map (block_frame a header image) requests
    /\ image_data (_ota z') = Some image.
Proof.
  induction requests as [|request requests IH]; intros z Hh Hd Hcons Hb Hconn Hall.
  - exists z. cbn [for_each map]. rewrite app_nil_r. repeat split. exact Hd.
  - destruct (Hall request (or_introl eq_refl)) as [Hwf Hmatch].
    pose proof (_ota_send_image_data_run now request z header image a
                  Hh Hd Hcons Hb Hwf Hmatch Hconn) as Hrun.
    set (z1 := frame_sent _ _ _ _) in Hrun.
    destruct (serving_image now request (_ota z)) as (Hh1 & Hd1 & _).
    destruct (IH z1) as (z' & Hrest & Hsent & Himg).
    + unfold z1, frame_sent. cbn [_ota with_connection with_last_status with_ota].
      now rewrite Hh1.
    + unfold z1, frame_sent. cbn [_ota with_connection with_last_status with_ota].
      now rewrite Hd1.
    + unfold z1, frame_sent. cbn [_ota with_connection with_last_status with_ota].
      now apply serving_consistent.
    + exact Hb.
    + unfold z1, frame_sent.
      cbn [connection is_connected with_connection with_last_status with_ota].
      exact Hconn.
    + intros r Hr. apply Hall. now right.
    + exists z'. split; [|split; [|exact Himg]].
      * cbn [for_each]. unfold mbind, M_bind, bind. rewrite Hrun. exact Hrest.
      * rewrite Hsent. unfold z1, frame_sent.
        cbn [connection sent with_connection with_last_status with_ota map].
        rewrite <- app_assoc. reflexivity.
Qed.

Lemma chunks_tile (image : bytes) m : 0 < m -> forall k,
  concat (map (fun i => slice image (Z.of_nat i * m) (Z.of_nat i * m + m)) (seq 0 k))
  = firstn (Z.to_nat (Z.of_nat k * m)) image.
Proof.
  intros Hm. induction k as [|k IH]; [reflexivity|].
  rewrite seq_S, map_app, concat_app, IH. cbn [map concat Nat.add].
  rewrite app_nil_r, slice_nonneg by lia.
  replace (Z.to_nat (Z.of_nat (S k) * m))
    with (Z.to_nat (Z.of_nat k * m) + Z.to_nat m)%nat by lia.
  apply take_take_drop.
Qed.

(** X20. A client that asks for the loaded image block after block, [m]
    bytes at a time from offset 0 on, is sent the image: every request is
    answered with one frame, in order, and the chunks of the [k] frames,
    put end to end, are the first [k * m] bytes of the image; they are the
    whole image once [k * m] reaches its size, the chunk of the last block
    being short, or empty when the offset lies at or beyond the end. *)
Theorem ota_blocks_tile_image now template a header image m k z :
  image_header (_ota z) = Some header -> image_data (_ota z) = Some image ->
  ota_consistent (_ota z) -> bytes_ok image ->
  is_connected (connection z) = true ->
  request_wf template a -> request_matches template header ->
  0 < m < 256 -> Z.of_nat k * m <= 4294967296 ->
  let requests :=
    map (fun i => with_block template (Z.of_nat i * m) m) (seq 0 k) in
  exists z',
    for_each (_ota_send_image_data now) requests z = Ok tt z'
    /\ sent (connection z')
       = sent (connection z) ++ map (block_frame a header image) requests
    /\ concat (map (chunk_at image) requests)
       = firstn (Z.to_nat (Z.of_nat k * m)) image
    /\ (len image <= Z.of_nat k * m ->
        concat (map (chunk_at image) requests) = image)
    /\ (forall request, In request requests ->
          len image <= request_file_offset request -> chunk_at image request = []).
Proof.
  intros Hh Hd Hcons Hb Hconn Hwf Hmatch Hm Hk requests.
  assert (Htile : concat (map (chunk_at image) requests)
                  = firstn (Z.to_nat (Z.of_nat k * m)) image).
  { unfold requests. rewrite map_map. unfold chunk_at, with_block.
    cbn [request_file_offset request_max_data_size]. now apply chunks_tile. }
  destruct (serve_each now a header image requests z Hh Hd Hcons Hb Hconn)
    as (z' & Hrun & Hsent & _).
  { intros request Hin. unfold requests in Hin.
    apply in_map_iff in Hin as (i & <- & Hi). apply in_seq in Hi.
    destruct Hwf as (Ha & Har & Hmo & He & Hs & Ho & Hv & Ht & Hc & Hx).
    split; [|exact Hmatch].
    unfold request_wf, with_block, is_byte.
    cbn [request_addr request_address_mode request_endpoint request_sequence
         request_file_offset request_image_version request_image_type
         request_manufacturer_code request_max_data_size].
    repeat split; try assumption; try apply Hmo; try apply He; try apply Hs; nia. }
  exists z'. split; [exact Hrun|]. split; [exact Hsent|]. split; [exact Htile|].
  split.
  - intros Hlen. rewrite Htile. apply firstn_all2. unfold len in Hlen. lia.
  - intros request Hin Hoff. unfold requests in Hin.
    apply in_map_iff in Hin as (i & <- & Hi).
    unfold chunk_at, with_block in *.
    cbn [request_file_offset request_max_data_size] in *.
    rewrite slice_nonneg by lia. rewrite skipn_all2 by (unfold len in Hoff; lia).
    apply firstn_nil.
Qed.

(** A driver that holds the upgrade file, and the first request of a
    client that reads it 50 bytes at a time. *)
Definition holding : ZiGate :=
  with_ota init_ZiGate (loaded_session (mkImageHeader 9 1 5 80) upgrade_file).

Definition block_template : BlockRequest :=
  mkBlockRequest (PStr "abcd") 2 1 7 0 5 1 9 50.

Lemma ota_blocks_tile_image_witness :
  exists z',
    for_each (_ota_send_image_data (mkDatetime 2024 1 2 3 5 0 0))
             [with_block block_template 0 50; with_block block_template 50 50]
             holding = Ok tt z'
    /\ List.length (sent (connection z')) = 2%nat
    /\ chunk_at upgrade_file (with_block block_template 0 50)
       ++ chunk_at upgrade_file (with_block block_template 50 50) = upgrade_file.
Proof.
  destruct (ota_blocks_tile_image (mkDatetime 2024 1 2 3 5 0 0) block_template
              0xabcd (mkImageHeader 9 1 5 80) upgrade_file 50 2 holding
              eq_refl eq_refl) as (z' & Hrun & Hsent & _ & Hall & _).
  - split; [discriminate|]. intros image [= <-]. discriminate.
  - exact upgrade_file_bytes.
  - reflexivity.
  - unfold request_wf, block_template, is_byte.
    cbn [request_addr request_address_mode request_endpoint request_sequence
         request_file_offset request_image_version request_image_type
         request_manufacturer_code request_max_data_size].
    split; [vm_compute; reflexivity|]. lia.
  - repeat split.
  - lia.
  - lia.
  - exists z'. split; [exact Hrun|]. split.
    + rewrite Hsent. reflexivity.
    + specialize (Hall ltac:(vm_compute; discriminate)).
      cbn [map seq concat] in Hall. rewrite app_nil_r in Hall. exact Hall.
Defined.

(** X21. A block request for the loaded image that arrives while the
    transport is down raises, and nothing is sent; but the session has
    been updated before the send: a transfer that was not running is now
    active, started at the reading of the clock, and the counter stands at
    the requested offset. *)
Theorem _ota_send_image_data_transport_down now request z header image a :
  image_header (_ota z) = Some header -> image_data (_ota z) = Some image ->
  ota_consistent (_ota z) -> bytes_ok image ->
  request_wf request a -> request_matches request header ->
  is_connected (connection z) = false ->
  exists z',
    _ota_send_image_data now request z = Raise Not_connected z'
    /\ connection z' = connection z
    /\ _ota z' = serving now request (_ota z)
    /\ transfered (_ota z') = request_file_offset request
    /\ (active (_ota z) = false -> starttime (_ota z) = None ->
        active (_ota z') = true /\ starttime (_ota z') = Some now
        /\ ota_addr (_ota z') = request_addr request)
    /\ _devices z' = _devices z /\ trace z' = trace z.
Proof.
  intros Hh Hd Hcons Hb Hwf Hmatch Hconn.
  pose proof Hwf as (Haddr & _ & _ & _ & _ & Ho & _ & _ & _ & Hx).
  pose proof Hmatch as (Ev & Et & Ec).
  set (chunk := slice image (request_file_offset request)
                  (request_file_offset request + request_max_data_size request)).
  assert (Hlen : len chunk <= request_max_data_size request)
    by (apply slice_short; unfold is_byte in Hx; lia).
  pose proof (block_payload_bytes request a header chunk Hwf Hmatch
                (slice_bytes _ _ _ Hb) Hlen) as [Hpb Hpl].
  exists (frame_unsent 0x0502 None (with_ota z (serving now request (_ota z)))).
  split.
  { unfold _ota_send_image_data. run_method. rewrite Hh, Hd, Ev, Et, Ec, !Z.eqb_refl.
    cbn [negb]. run_method.
    set (z1 := with_ota _ (with_transfered _ _)).
    assert (Hz1 : z1 = with_ota z (serving now request (_ota z))).
    { subst z1. unfold serving.
      destruct (starttime (_ota z)), (active (_ota z)); reflexivity. }
    rewrite Hz1.
    rewrite (get_ota_status_ok now _ image).
    2: { cbn [_ota with_ota]. now apply serving_consistent. }
    2: { cbn [_ota with_ota].
         destruct (serving_image now request (_ota z)) as (_ & -> & _). exact Hd. }
    rewrite (__addr_run _ a) by exact Haddr.
    fold chunk. rewrite (pack_image_block_ok request a header chunk Hwf Hmatch Hlen).
    unfold send_data_no_wait. run_method.
    rewrite send_frame_not_connected; [reflexivity| | lia | exact Hpb | exact Hpl].
    exact Hconn. }
  unfold frame_unsent.
  cbn [connection _ota _devices trace with_last_status with_ota].
  destruct (serving_image now request (_ota z)) as (_ & _ & Htr).
  split; [reflexivity|]. split; [reflexivity|]. split; [exact Htr|].
  split; [|split; reflexivity].
  intros Ha Hs. unfold serving. rewrite Ha, Hs. repeat split.
Qed.

Lemma _ota_send_image_data_transport_down_witness :
  exists z',
    _ota_send_image_data (mkDatetime 2024 1 2 3 5 0 0) block_template
      (with_connection holding {| is_connected := false; sent := [] |})
    = Raise Not_connected z'
    /\ active (_ota z') = true /\ sent (connection z') = [].
Proof.
  destruct (_ota_send_image_data_transport_down (mkDatetime 2024 1 2 3 5 0 0)
              block_template
              (with_connection holding {| is_connected := false; sent := [] |})
              (mkImageHeader 9 1 5 80) upgrade_file 0xabcd eq_refl eq_refl)
    as (z' & Hrun & Hconn & _ & _ & Hstart & _).
  - split; [discriminate|]. intros image [= <-]. discriminate.
  - exact upgrade_file_bytes.
  - unfold request_wf, block_template, is_byte.
    cbn [request_addr request_address_mode request_endpoint request_sequence
         request_file_offset request_image_version request_image_type
         request_manufacturer_code request_max_data_size].
    split; [vm_compute; reflexivity|]. lia.
  - repeat split.
  - reflexivity.
  - exists z'. split; [exact Hrun|]. split.
    + now destruct (Hstart eq_refl eq_refl).
    + rewrite Hconn. reflexivity.
Defined.

End OtaLaws.

(* ===================================================================== *)
(** ** Properties of addresses and channel masks *)
(* ===================================================================== *)

Module CommandLaws.

Import Commands.

Lemma hex_digit_char d : 0 <= d < 16 -> hex_digit (hex_char d) = Some d.
Proof.
  intros Hd.
  assert (Hc : d = 0 \/ d = 1 \/ d = 2 \/ d = 3 \/ d = 4 \/ d = 5 \/ d = 6
               \/ d = 7 \/ d = 8 \/ d = 9 \/ d = 10 \/ d = 11 \/ d = 12
               \/ d = 13 \/ d = 14 \/ d = 15) by lia.
  repeat (destruct Hc as [->|Hc]; [reflexivity|]). subst d. reflexivity.
Qed.

Lemma int_hex_loop_digits : forall w n acc,
  0 <= n < 16 ^ Z.of_nat w ->
  int_hex_loop (hex_digits w n) acc = Some (acc * 16 ^ Z.of_nat w + n).
Proof.
  induction w as [|w IH]; intros n acc Hn.
  - cbn in Hn |- *. f_equal. lia.
  - rewrite Nat2Z.inj_succ, Z.pow_succ_r in Hn |- * by lia.
    cbn [hex_digits int_hex_loop].
    assert (Hp : 0 < 16 ^ Z.of_nat w) by (apply Z.pow_pos_nonneg; lia).
    pose proof (Z.div_mod n (16 ^ Z.of_nat w) ltac:(lia)) as Hdm.
    pose proof (Z.mod_pos_bound n (16 ^ Z.of_nat w) Hp) as Hm.
    assert (Hq : 0 <= n / 16 ^ Z.of_nat w < 16).
    { split; [apply Z.div_pos; lia|]. apply Z.div_lt_upper_bound; lia. }
    rewrite hex_digit_char by exact Hq. rewrite IH by exact Hm. f_equal. nia.
Qed.

Lemma hex_width_bound n : 0 <= n -> n < 16 ^ Z.of_nat (hex_width n).
Proof.
  intros Hn. unfold hex_width.
  rewrite Nat2Z.inj_succ, Z2Nat.id by (apply Z.div_pos; [apply Z.log2_nonneg | lia]).
  destruct (Z.eq_dec n 0) as [->|Hz].
  { vm_compute. reflexivity. }
  pose proof (Z.log2_spec n ltac:(lia)) as [_ Hup].
  pose proof (Z.log2_nonneg n) as Hl.
  pose proof (Z.div_mod (Z.log2 n) 4 ltac:(lia)) as Hdm.
  pose proof (Z.mod_pos_bound (Z.log2 n) 4 ltac:(lia)) as Hm.
  change 16 with (2 ^ 4). rewrite <- Z.pow_mul_r by lia.
  eapply Z.lt_le_trans; [exact Hup|].
  apply Z.pow_le_mono_r; lia.
Qed.

Lemma hex_digits_length : forall w n, String.length (hex_digits w n) = w.
Proof. induction w as [|w IH]; intros n; cbn [hex_digits String.length]; [|rewrite IH]; reflexivity. Qed.

(** X22. [__haddr] and [__addr] are inverse on the addresses: the
    hexadecimal string that [__haddr] prints for a number that is not
    negative, at any width, is read back by [__addr] as that number; a
    short address is printed on exactly four characters at the default
    width 4. *)
Theorem __addr_of___haddr (n : Z) (length : nat) (z : ZiGate) :
  0 <= n ->
  __addr (PStr (__haddr n length)) z = Ok (PInt n) z
  /\ String.length (__haddr n length) = Nat.max (hex_width n) length
  /\ (n < 65536 -> String.length (__haddr n 4) = 4%nat).
Proof.
  intros Hn.
  assert (Hpos : (n <? 0) = false) by (apply Z.ltb_ge; exact Hn).
  assert (Hbound : forall w, (hex_width n <= w)%nat -> n < 16 ^ Z.of_nat w).
  { intros w Hw. eapply Z.lt_le_trans; [apply hex_width_bound; exact Hn|].
    apply Z.pow_le_mono_r; lia. }
  split; [|split].
  - unfold __addr, __haddr. rewrite Hpos. run_method.
    set (w := Nat.max (hex_width n) length).
    assert (Hw : exists w', w = S w').
    { unfold w, hex_width. destruct length; cbn [Nat.max]; eauto. }
    destruct Hw as [w' Hw].
    assert (Hloop : int_hex (hex_digits w n) = Some n).
    { pose proof (int_hex_loop_digits w n 0) as Hl.
      rewrite Hw in Hl |- *. cbn [hex_digits int_hex].
      cbn [hex_digits] in Hl. rewrite Hl; [f_equal; lia|].
      rewrite <- Hw. split; [exact Hn|]. apply Hbound. unfold w. lia. }
    rewrite Hloop. reflexivity.
  - unfold __haddr. rewrite Hpos. apply hex_digits_length.
  - intros Hs. unfold __haddr. rewrite Hpos, hex_digits_length.
    assert (Hw : (hex_width n <= 4)%nat).
    { unfold hex_width. destruct (Z.eq_dec n 0) as [->|Hz]; [vm_compute; lia|].
      assert (Z.log2 n < 16) by (apply Z.log2_lt_pow2; lia).
      pose proof (Z.log2_nonneg n).
      assert (Z.log2 n / 4 < 4) by (apply Z.div_lt_upper_bound; lia).
      assert (0 <= Z.log2 n / 4) by (apply Z.div_pos; lia). lia. }
    lia.
Qed.

Lemma __addr_of___haddr_witness :
  __addr (PStr (__haddr 0x0abc 4)) init_ZiGate = Ok (PInt 0x0abc) init_ZiGate
  /\ __haddr 0x0abc 4 = "0abc"%string
  /\ __haddr 0x12345 4 = "12345"%string.
Proof.
  split; [|split; vm_compute; reflexivity].
  exact (proj1 (__addr_of___haddr 0x0abc 4 init_ZiGate ltac:(lia))).
Defined.

Lemma lxor_bound k a b :
  0 <= k -> 0 <= a < 2 ^ k -> 0 <= b < 2 ^ k -> 0 <= Z.lxor a b < 2 ^ k.
Proof.
  intros Hk [Ha Ha'] [Hb Hb'].
  assert (Hn : 0 <= Z.lxor a b) by (apply Z.lxor_nonneg; tauto).
  split; [exact Hn|].
  destruct (Z.eq_dec (Z.lxor a b) 0) as [->|Hz]; [lia|].
  apply Z.log2_lt_pow2; [lia|].
  pose proof (Z.log2_lxor a b Ha Hb) as Hl.
  assert (Z.log2 a < k).
  { destruct (Z.eq_dec a 0) as [->|]; [|apply Z.log2_lt_pow2; lia].
    destruct (Z.eq_dec k 0) as [->|]; [|cbn; lia].
    exfalso. apply Hz. assert (b = 0) as -> by (cbn in Hb'; lia). reflexivity. }
  assert (Z.log2 b < k).
  { destruct (Z.eq_dec b 0) as [->|]; [|apply Z.log2_lt_pow2; lia].
    destruct (Z.eq_dec k 0) as [->|]; [|cbn; lia].
    exfalso. apply Hz. assert (a = 0) as -> by (cbn in Ha'; lia). reflexivity. }
  lia.
Qed.

Lemma channel_mask_loop l : forall acc,
  Forall (fun c => 0 <= c < 32) l -> 0 <= acc < 4294967296 ->
  exists mask,
    fold_left (fun acc x =>
                 match acc with
                 | Some acc => if x <? 0 then None else Some (Z.lxor acc (2 ^ x))
                 | None => None
                 end) l (Some acc) = Some mask
    /\ 0 <= mask < 4294967296
    /\ forall c, 0 <= c ->
         Z.testbit mask c
         = xorb (Z.testbit acc c) (Nat.odd (count_occ Z.eq_dec l c)).
Proof.
  induction l as [|x l IH]; intros acc Hl Hacc.
  - exists acc. split; [reflexivity|]. split; [exact Hacc|].
    intros c _. cbn. now rewrite xorb_false_r.
  - apply Forall_cons in Hl as [Hx Hl]. cbn [fold_left].
    destruct (Z.ltb_spec x 0) as [|_]; [lia|].
    assert (Hp : 0 <= 2 ^ x < 4294967296).
    { split; [apply Z.pow_nonneg; lia|].
      change 4294967296 with (2 ^ 32). apply Z.pow_lt_mono_r; lia. }
    destruct (IH (Z.lxor acc (2 ^ x)) Hl) as (mask & Hrun & Hrange & Hbits).
    { change 4294967296 with (2 ^ 32) in *. apply lxor_bound; [lia | exact Hacc | exact Hp]. }
    exists mask. split; [exact Hrun|]. split; [exact Hrange|].
    intros c Hc. rewrite (Hbits c Hc), Z.lxor_spec, Z.pow2_bits_eqb by lia.
    cbn [count_occ]. destruct (Z.eq_dec x c) as [->|Hne].
    + rewrite Z.eqb_refl, Nat.odd_succ, <- Nat.negb_odd.
      destruct (Z.testbit acc c), (Nat.odd _); reflexivity.
    + destruct (Z.eqb_spec x c); [contradiction|]. now rewrite xorb_false_r.
Qed.

(** X23. [set_channel] with a list of channels between 0 and 31 sends the
    command 0x0021 with a 32-bit mask in which the bit of a channel is set
    exactly when the channel occurs an odd number of times in the list: the
    mask is built with XOR, so a channel given twice is not in the mask. *)
Theorem set_channel_mask fuel w w' (l : list Z) z :
  l <> [] -> Forall (fun c => 0 <= c < 32) l ->
  exists mask,
    channel_mask l = Some mask
    /\ 0 <= mask < 4294967296
    /\ (forall c, 0 <= c ->
          Z.testbit mask c = Nat.odd (count_occ Z.eq_dec l c))
    /\ set_channel fuel w w' (Channels l) z
       = send_data fuel w w' 0x0021 (be32 mask) None true z.
Proof.
  intros Hne Hl.
  destruct (channel_mask_loop l 0 Hl ltac:(lia)) as (mask & Hrun & Hrange & Hbits).
  exists mask. split; [exact Hrun|]. split; [exact Hrange|]. split.
  - intros c Hc. rewrite (Hbits c Hc), Z.testbit_0_l. apply xorb_false_l.
  - unfold set_channel, channel_list. destruct l as [|x l]; [contradiction|].
    unfold channel_mask. rewrite Hrun. now rewrite pack_L_ok.
Qed.

Lemma set_channel_mask_witness :
  channel_mask [11; 15; 11] = Some 0x8000
  /\ channel_mask (channel_list Channels_None) = Some 0x0318c800
  /\ exists mask,
       channel_mask [11; 15; 11] = Some mask
       /\ Z.testbit mask 11 = false /\ Z.testbit mask 15 = true.
Proof.
  split; [reflexivity|]. split; [reflexivity|].
  destruct (set_channel_mask 0 (mkWorld 1000 0 (fun _ => mkTick [] [] 0))
              (mkWorld 1000 0 (fun _ => mkTick [] [] 0)) [11; 15; 11] init_ZiGate
              ltac:(discriminate) ltac:(repeat constructor; lia))
    as (mask & Hrun & _ & Hbits & _).
  exists mask. split; [exact Hrun|]. split.
  - rewrite Hbits by lia. reflexivity.
  - rewrite Hbits by lia. reflexivity.
Defined.

End CommandLaws.
